(** * Column transfer of the Parquet-to-Arrow reader

    A shallow embedding of [cpp/src/parquet/arrow/reader_internal.cc]:
    the statistics decoder ([StatisticsAsScalars] and its helpers), the
    per-type transfer functions ([TransferZeroCopy], [TransferInt],
    [TransferBool], [TransferInt96], [TransferDate64], [TransferBinary],
    [TransferDictionary], the decimal transfers) and the dispatcher
    [TransferColumnData].

    Conventions.  Machine integers are mathematical integers ([Z]) with the
    wrap-around of every conversion written out ([wrap_signed],
    [wrap_unsigned]).  A buffer is a sequence of bytes (each a [Z] in
    [0, 256)) together with an identity; typed reads and writes through a
    reinterpreted pointer are little-endian loads and stores.  A function
    that returns [Status] or [Result<T>] returns [Result]; a function that
    consumes the record reader returns the reader it leaves behind. *)

From Stdlib Require Import ZArith List Bool Lia String.
From stdpp Require Import base list.
Import ListNotations.
Local Open Scope Z_scope.

(** ** Status and Result *)

Inductive StatusCode : Set :=
  | Invalid
  | NotImplemented
  | TypeError
  | OutOfMemory
  | CheckFailed.   (* not a Status: a failed DCHECK, the process aborts *)

Inductive Result (A : Type) : Type :=
  | Ok (a : A)
  | Err (code : StatusCode) (msg : string).

Arguments Ok {A} a.
Arguments Err {A} code msg.

Definition Status : Type := Result unit.
Definition Status_OK : Status := Ok tt.

#[global] Instance Result_ret : MRet Result := fun _ a => Ok a.
#[global] Instance Result_bind : MBind Result := fun _ _ f r =>
  match r with
  | Ok a => f a
  | Err c m => Err c m
  end.

Definition is_Err {A} (r : Result A) (c : StatusCode) : Prop :=
  exists msg, r = Err c msg.

(** ** Machine integers *)

Definition wrap_unsigned (bits v : Z) : Z := v mod 2 ^ bits.

Definition wrap_signed (bits v : Z) : Z :=
  (v + 2 ^ (bits - 1)) mod 2 ^ bits - 2 ^ (bits - 1).

(** [static_cast<T>(v)] for an integer type [T] of the given width. *)
Definition static_cast_int (bits : Z) (is_signed : bool) (v : Z) : Z :=
  if is_signed then wrap_signed bits v else wrap_unsigned bits v.

Definition int32_range (v : Z) : Prop := - 2 ^ 31 <= v < 2 ^ 31.
Definition int64_range (v : Z) : Prop := - 2 ^ 63 <= v < 2 ^ 63.

(** ** Loops

    [for (int64_t i = 0; i < n; i++) body] over a state [St]. *)

Definition indices (n : Z) : list Z := map Z.of_nat (seq 0 (Z.to_nat n)).

Definition for_range {St : Type} (n : Z) (body : Z -> St -> St) (s : St) : St :=
  fold_left (fun acc i => body i acc) (indices n) s.

(** The same loop when the body may return early with an error. *)
Definition for_range_result {St : Type} (n : Z) (body : Z -> St -> Result St)
    (s : St) : Result St :=
  fold_left (fun acc i => acc ≫= body i) (indices n) (Ok s).

(** ** Bytes and buffers *)

(** A byte is an integer in [0, 256). *)
Abbreviation byte := Z (only parsing).

Record Buffer : Type := mkBuffer {
  buf_id : Z;            (* the identity (address) of the allocation *)
  buf_bytes : list byte
}.

(** Little-endian encoding of the low [n] bytes of [v], and its inverse. *)
Fixpoint le_split (n : nat) (v : Z) : list byte :=
  match n with
  | O => []
  | S n' => v mod 256 :: le_split n' (v / 256)
  end.

Fixpoint le_combine (bs : list byte) : Z :=
  match bs with
  | [] => 0
  | b :: bs' => b + 256 * le_combine bs'
  end.

(** Big-endian unsigned value of a byte string. *)
Definition be_combine (bs : list byte) : Z := le_combine (rev bs).

(** [n] bytes starting at byte offset [off]. *)
Definition read_bytes (bs : list byte) (off : Z) (n : nat) : list byte :=
  take n (drop (Z.to_nat off) bs).

(** Overwrite the bytes at offset [off] with [new]. *)
Definition write_bytes (bs : list byte) (off : Z) (new : list byte) : list byte :=
  list_inserts (Z.to_nat off) new bs.

(** [memset(ptr + off, c, n)] *)
Definition memset (bs : list byte) (off : Z) (c : byte) (n : Z) : list byte :=
  write_bytes bs off (replicate (Z.to_nat n) c).

(** [reinterpret_cast<const T*>(p)[i]] for a [width]-byte integer type [T]. *)
Definition load_unsigned (width : nat) (bs : list byte) (i : Z) : Z :=
  le_combine (read_bytes bs (Z.of_nat width * i) width).

Definition load_signed (width : nat) (bs : list byte) (i : Z) : Z :=
  wrap_signed (8 * Z.of_nat width) (load_unsigned width bs i).

(** [*reinterpret_cast<T*>(p + off) = v] and [reinterpret_cast<T*>(p)[i] = v] *)
Definition store_int_at (width : nat) (bs : list byte) (off : Z) (v : Z)
    : list byte :=
  write_bytes bs off (le_split width v).

Definition store_int (width : nat) (bs : list byte) (i : Z) (v : Z) : list byte :=
  store_int_at width bs (Z.of_nat width * i) v.

(** [reinterpret_cast<const bool*>(p)[i]]: one byte per value. *)
Definition load_bool (bs : list byte) (i : Z) : bool :=
  negb (nth (Z.to_nat i) bs 0 =? 0).

(** ** Memory pool *)

(** Modelled from the spec: [MemoryPool] and [AllocateBuffer] belong to
    arrow/memory_pool.h and arrow/buffer.h, which are not among the sources.
    The spec: "allocate an output buffer sized for the target element
    width", "Allocation failures surface through the same error channel as
    other failures".  An allocation either fails or hands out a buffer of
    exactly the requested size whose contents are not initialised: the pool
    decides the identity of the buffer and the bytes found in it.  The
    identity only tells a buffer the pool handed out from one the reader
    owned. *)
Record MemoryPool : Type := mkPool {
  pool_capacity : Z;                (* largest request the pool can serve *)
  pool_fresh_id : Z;                (* identity of the buffers it hands out *)
  pool_garbage : nat -> byte        (* contents of fresh memory *)
}.

Definition AllocateBuffer (size : Z) (pool : MemoryPool) : Result Buffer :=
  if size <? 0 then Err Invalid "negative malloc size"
  else if pool_capacity pool <? size then Err OutOfMemory "malloc failed"
  else Ok (mkBuffer (pool_fresh_id pool)
             (map (fun k => pool_garbage pool k mod 256) (seq 0 (Z.to_nat size)))).

(** ** Bitmaps *)

(** Modelled from the spec: [bit_util::BytesForBits], [bit_util::SetBit] and
    [bit_util::GetBit] are declared in arrow/util/bit_util.h, which is not
    among the sources.  The spec describes a packed bit-per-element buffer in
    which value [i] is bit [i] ("[true, false, true, true] packs to a single
    bitmap byte with bit 0=1, bit 1=0, bit 2=1, bit 3=1"): byte [i / 8],
    bit [i mod 8] counted from the least significant one. *)
Definition BytesForBits (bits : Z) : Z := (bits + 7) / 8.

Definition SetBit (bits : list byte) (i : Z) : list byte :=
  let k := Z.to_nat (i / 8) in
  <[k := Z.lor (nth k bits 0) (Z.shiftl 1 (i mod 8))]> bits.

Definition GetBit (bits : list byte) (i : Z) : bool :=
  Z.testbit (nth (Z.to_nat (i / 8)) bits 0) (i mod 8).

(** ** Parquet side: physical types, logical types, descriptors, statistics *)

Module ParquetType.
Inductive t : Set :=
  | BOOLEAN | INT32 | INT64 | INT96 | FLOAT | DOUBLE
  | BYTE_ARRAY | FIXED_LEN_BYTE_ARRAY | UNDEFINED.
End ParquetType.

Module LogicalType.
Inductive TimeUnit : Set := MILLIS | MICROS | NANOS.

Inductive t : Set :=
  | STRING | MAP | LIST | ENUM
  | DECIMAL (precision scale : Z)
  | DATE
  | TIME (is_adjusted_to_utc : bool) (time_unit : TimeUnit)
  | TIMESTAMP (is_adjusted_to_utc : bool) (time_unit : TimeUnit)
  | INTERVAL
  | INT (bit_width : Z) (is_signed : bool)
  | NIL | JSON | BSON | UUID | FLOAT16
  | NONE.
End LogicalType.

Module ColumnDescriptor.
Record t : Set := mk {
  physical_type : ParquetType.t;
  logical_type : LogicalType.t;
  type_length : Z
}.
End ColumnDescriptor.

(** ** Arrow side: data types, fields, scalars, arrays

    The Arrow classes (arrow/type.h, arrow/array/data.h, arrow/array/
    statistics.h, arrow/chunked_array.h, arrow/datum.h) are not among the
    sources.  They are modelled as the spec's data model lists them: a
    target field is a type and a nullability flag; an array is a type, a
    length, buffers, a null count and attached statistics; an array
    statistics is "null_count, distinct_count, min, max, is_min_exact,
    is_max_exact"; a transfer result is "either a single contiguous array
    or an ordered sequence of arrays". *)

Module TimeUnit.
Inductive type : Set := SECOND | MILLI | MICRO | NANO.
End TimeUnit.

(** [arrow::DataType]; the constructor is the type id ([arrow::Type]), the
    arguments are the parameters of the type.  [OTHER] stands for every type
    id that the dispatcher does not name (lists, structs, intervals, ...). *)
Inductive DataType : Set :=
  | NA | BOOL
  | UINT8 | INT8 | UINT16 | INT16 | UINT32 | INT32 | UINT64 | INT64
  | HALF_FLOAT | FLOAT | DOUBLE
  | STRING | BINARY | FIXED_SIZE_BINARY (width : Z)
  | DATE32 | DATE64
  | TIMESTAMP (unit : TimeUnit.type)
  | TIME32 (unit : TimeUnit.type) | TIME64 (unit : TimeUnit.type)
  | DECIMAL128 (precision scale : Z) | DECIMAL256 (precision scale : Z)
  | DICTIONARY (index_type value_type : DataType)
  | LARGE_STRING | LARGE_BINARY | STRING_VIEW | BINARY_VIEW
  | DURATION (unit : TimeUnit.type)
  | OTHER (name : string).

Definition DataType_eq_dec (a b : DataType) : {a = b} + {a <> b}.
Proof.
  decide equality; try apply Z.eq_dec; try apply string_dec;
    decide equality.
Defined.

(** [a.Equals(b)] *)
Definition Equals (a b : DataType) : bool :=
  if DataType_eq_dec a b then true else false.

(** The C type in which a column's values are held ([ArrowType::c_type],
    [ParquetType::c_type]). *)
Inductive CType : Set :=
  | c_bool
  | c_int (bits : Z) (is_signed : bool)
  | c_float
  | c_double.

Definition int8_t := c_int 8 true.
Definition uint8_t := c_int 8 false.
Definition int16_t := c_int 16 true.
Definition uint16_t := c_int 16 false.
Definition int32_t := c_int 32 true.
Definition uint32_t := c_int 32 false.
Definition int64_t := c_int 64 true.
Definition uint64_t := c_int 64 false.

Definition sizeof (c : CType) : Z :=
  match c with
  | c_bool => 1
  | c_int bits _ => bits / 8
  | c_float => 4
  | c_double => 8
  end.

(** [arrow::TypeTraits<ArrowType>]: the C type of the values of the numeric
    and temporal Arrow types the transfers are instantiated with. *)
Definition c_type (t : DataType) : option CType :=
  match t with
  | BOOL => Some c_bool
  | UINT8 => Some uint8_t | INT8 => Some int8_t
  | UINT16 => Some uint16_t | INT16 => Some int16_t
  | UINT32 => Some uint32_t | INT32 => Some int32_t
  | UINT64 => Some uint64_t | INT64 => Some int64_t
  | FLOAT => Some c_float | DOUBLE => Some c_double
  | DATE32 => Some int32_t | TIME32 _ => Some int32_t
  | DATE64 => Some int64_t | TIME64 _ => Some int64_t
  | TIMESTAMP _ => Some int64_t | DURATION _ => Some int64_t
  | _ => None
  end.

(** [arrow::CTypeTraits<CType>::ArrowType]: the Arrow type [MakeScalar]
    chooses for an unboxed C value. *)
Definition arrow_type_of (c : CType) : DataType :=
  match c with
  | c_bool => BOOL
  | c_float => FLOAT
  | c_double => DOUBLE
  | c_int bits true =>
      if bits =? 8 then INT8 else if bits =? 16 then INT16
      else if bits =? 32 then INT32 else INT64
  | c_int bits false =>
      if bits =? 8 then UINT8 else if bits =? 16 then UINT16
      else if bits =? 32 then UINT32 else UINT64
  end.

Module Field.
Record t : Set := mk {
  type : DataType;
  nullable : bool
}.
Definition WithType (f : t) (ty : DataType) : t := mk ty (nullable f).
End Field.

(** A value held in a C variable.  A floating-point number is carried by its
    IEEE bit pattern; the transfers never compute with it. *)
Inductive CValue : Set :=
  | v_bool (b : bool)
  | v_int (v : Z)
  | v_float (bits : Z)
  | v_double (bits : Z)
  | v_bytes (bs : list Z).

(** The four alternatives of [ArrayStatistics::ValueType] this file stores:
    [bool], [double], [int64_t], [uint64_t].  [sv_double v] is the double
    obtained from the floating-point value [v] by [static_cast<double>]. *)
Inductive StatValue : Set :=
  | sv_bool (b : bool)
  | sv_double (v : CValue)
  | sv_int64 (v : Z)
  | sv_uint64 (v : Z).

Module ArrayStatistics.
Record t : Set := mk {
  null_count : option Z;
  distinct_count : option Z;
  min : option StatValue;
  max : option StatValue;
  is_min_exact : bool;
  is_max_exact : bool
}.
(** [std::make_shared<ArrayStatistics>()]: nothing is known yet. *)
Definition empty : t := mk None None None None false false.
End ArrayStatistics.

(** Modelled from the spec: [::arrow::kUnknownNullCount] is a constant of
    arrow/type_fwd.h, not among the sources: the null count of an array
    whose nulls have not been counted ("neither the output's null count nor
    the chunk statistics are known"), a value no count takes. *)
Definition kUnknownNullCount : Z := -1.

Module ArrayData.
Record t : Type := mk {
  type : DataType;
  length : Z;
  buffers : list (option Buffer);   (* [buffers[0]] is the validity bitmap *)
  null_count : Z;
  statistics : option ArrayStatistics.t
}.

(** [ArrayData::Make(type, length, buffers, null_count)] and the
    constructor of the same arguments: the fields as given, no statistics
    attached. *)
Definition Make (ty : DataType) (len : Z) (bufs : list (option Buffer))
    (nc : Z) : t := mk ty len bufs nc None.

Definition set_statistics (d : t) (s : option ArrayStatistics.t) : t :=
  mk (type d) (length d) (buffers d) (null_count d) s.

(** [buffers[i]], a possibly null [shared_ptr<Buffer>]. *)
Definition buffer (d : t) (i : nat) : option Buffer :=
  match buffers d !! i with
  | Some b => b
  | None => None
  end.
End ArrayData.

(** Modelled from the spec: every [arrow::Array] is its [ArrayData];
    [MakeArray] and the typed array classes (arrow/array, not among the
    sources) only wrap it. *)
Definition Array : Type := ArrayData.t.
Definition MakeArray (d : ArrayData.t) : Array := d.

(** Modelled from the spec: the constructor of the primitive array classes
    ([TimestampArray], [Date64Array], [Decimal128Array], ...; arrow/array,
    not among the sources) called with all its arguments,
    [(type, length, data, null_bitmap, null_count)]: the array of that
    type, length, value buffer, validity buffer and null count. *)
Definition PrimitiveArray (ty : DataType) (len : Z) (data : Buffer)
    (null_bitmap : option Buffer) (nc : Z) : Array :=
  ArrayData.Make ty len [null_bitmap; Some data] nc.

(** Modelled from the spec: the same constructor called with
    [(type, length, data)] only; its declaration, which supplies the
    defaults of the two omitted arguments, is in arrow/array and not among
    the sources.  By the spec's invariant an output without validity buffer
    has null count zero. *)
Definition PrimitiveArray_without_nulls (ty : DataType) (len : Z)
    (data : Buffer) : Array :=
  PrimitiveArray ty len data None 0.

Module ChunkedArray.
Record t : Type := mk {
  chunks : list Array;
  type : DataType
}.
(** [std::make_shared<ChunkedArray>(array)] *)
Definition of_array (a : Array) : t := mk [a] (ArrayData.type a).
End ChunkedArray.

Inductive Datum : Type :=
  | Datum_NONE
  | Datum_ARRAY (a : Array)
  | Datum_CHUNKED_ARRAY (c : ChunkedArray.t).

(** ** Statistics of a column chunk *)

Module Statistics.
Record t : Set := mk {
  HasMinMax : bool;
  HasDistinctCount : bool;
  distinct_count : Z;
  descr : option ColumnDescriptor.t;
  min : CValue;            (* what the typed accessor [min()] returns *)
  max : CValue;
  EncodeMin : list Z;      (* the encoded bytes of min and max *)
  EncodeMax : list Z
}.
End Statistics.

Module ColumnChunkMetaData.
Record t : Set := mk {
  statistics : option Statistics.t
}.
End ColumnChunkMetaData.

Module ReaderContext.
Record t : Type := mk {
  pool : MemoryPool
}.
End ReaderContext.

(** ** The record reader *)

(** Modelled from the spec: [RecordReader] (parquet/column_reader.h) is not
    among the sources.  The spec: "an external, consumable source exposing:
    value count, ownership-transferable value buffer, ownership-transferable
    validity bitmap, reported null count, and (for binary/dictionary columns)
    a materialized chunk sequence or dictionary result".  The record lists
    what the accessors return.  [values] and [is_valid] are the buffers the
    reader owns, [builder_chunks] is what a [BinaryRecordReader] returns from
    [GetBuilderChunks] and [dictionary_result] what a
    [DictionaryRecordReader] returns from [GetResult]; each is absent when
    the reader is not of that class and the [dynamic_cast] yields null. *)
Module RecordReader.
Record t : Type := mk {
  values_written : Z;
  values : option Buffer;
  is_valid : option Buffer;
  null_count : Z;
  nullable_values : bool;
  read_dictionary : bool;
  builder_chunks : option (list Array);
  dictionary_result : option ChunkedArray.t
}.

(** [reader->values()]: the bytes the value pointer points to. *)
Definition values_bytes (r : t) : list byte :=
  match values r with
  | Some b => buf_bytes b
  | None => []
  end.

(** Modelled from the spec: [ReleaseValues] and [ReleaseIsValid] are "an
    explicit take-ownership operation returning an owned handle and leaving
    the source empty". *)
Definition ReleaseValues (r : t) : option Buffer * t :=
  (values r,
   mk (values_written r) None (is_valid r) (null_count r)
      (nullable_values r) (read_dictionary r) (builder_chunks r)
      (dictionary_result r)).

Definition ReleaseIsValid (r : t) : option Buffer * t :=
  (is_valid r,
   mk (values_written r) (values r) None (null_count r)
      (nullable_values r) (read_dictionary r) (builder_chunks r)
      (dictionary_result r)).
End RecordReader.

(** ** Decimals *)

Inductive DecimalKind : Set := Decimal128 | Decimal256.

(** Modelled from the spec: [sizeof(Decimal128)] and [sizeof(Decimal256)]
    (arrow/util/decimal.h, not among the sources): "Decimal (128-bit or
    256-bit)". *)
Definition decimal_size (k : DecimalKind) : Z :=
  match k with
  | Decimal128 => 16
  | Decimal256 => 32
  end.

(** Modelled from the spec: [DecimalType::byte_width()] of a decimal type
    (arrow/type.h, not among the sources), "determined solely by the target
    precision/scale", and [byte_width()] of the other fixed-width types the
    dispatcher asks it of: "fixed-size-binary(2)" for the half float. *)
Definition byte_width (t : DataType) : Z :=
  match t with
  | DECIMAL128 _ _ => 16
  | DECIMAL256 _ _ => 32
  | FIXED_SIZE_BINARY w => w
  | HALF_FLOAT => 2
  | _ => 0
  end.

(** The integer a byte string denotes as a big-endian two's-complement
    number of its own length. *)
Definition be_signed (bs : list byte) : Z :=
  wrap_signed (8 * Z.of_nat (List.length bs)) (be_combine bs).

(** The integer a byte string denotes as a little-endian two's-complement
    number of its own length. *)
Definition le_signed (bs : list byte) : Z :=
  wrap_signed (8 * Z.of_nat (List.length bs)) (le_combine bs).

(** Modelled from the spec: [Decimal128::FromBigEndian],
    [Decimal256::FromBigEndian] and their [ToBytes] are defined in
    arrow/util/decimal.cc and basic_decimal.h, which are not among the
    sources.  The spec: "interpret the stored bytes as a big-endian
    two's-complement integer of their stored length and re-encode into the
    target's little-endian fixed decimal layout; fail with InvalidInput if
    the source length exceeds the target's byte width".  A decimal is the
    integer it holds. *)
Definition FromBigEndian (k : DecimalKind) (value : list byte) (length : Z)
    : Result Z :=
  if (length <? 0) || (decimal_size k <? length)
  then Err Invalid "Length of byte array passed to FromBigEndian is out of range"
  else Ok (be_signed (take (Z.to_nat length) value)).

Definition ToBytes (k : DecimalKind) (t : Z) : list byte :=
  le_split (Z.to_nat (decimal_size k)) t.

(** ** External collaborators

    The cast engine, the views, the accessors of the array classes, the
    calendar arithmetic of the legacy timestamps and the constructors of the
    decimal types are not part of this file; the development is parametric
    in them. *)

Module Int96.
Record t : Set := mk { value : list Z }.   (* [uint32_t value[3]] *)
End Int96.

Class ArrowRuntime : Type := {
  (** [compute::Cast(array, type, options)]; the flag is
      [CastOptions::allow_invalid_utf8] *)
  Cast : Array -> DataType -> bool -> Result Array;
  (** [compute::Cast(Datum(chunked_array), type)] with default options *)
  Cast_chunked : ChunkedArray.t -> DataType -> Result ChunkedArray.t;
  (** [ChunkedArray::View(type)] *)
  View : ChunkedArray.t -> DataType -> Result ChunkedArray.t;
  Int96GetNanoSeconds : Int96.t -> Z;
  Int96GetMicroSeconds : Int96.t -> Z;
  Int96GetMilliSeconds : Int96.t -> Z;
  Int96GetSeconds : Int96.t -> Z;
  (** [Decimal128Type::Make(precision, scale)], [Decimal256Type::Make] *)
  Decimal128Type_Make : Z -> Z -> Result DataType;
  Decimal256Type_Make : Z -> Z -> Result DataType;
  (** [BinaryArray::GetValue(i, &length)]: the bytes at the returned
      location and the length written to the out-parameter *)
  BinaryArray_GetValue : Array -> Z -> list byte * Z;
  (** [FixedSizeBinaryArray::GetValue(i)]: the bytes at the location *)
  FixedSizeBinaryArray_GetValue : Array -> Z -> list byte;
  (** [Array::IsNull(i)] *)
  IsNull : Array -> Z -> bool;
  (** [std::make_shared<NullArray>(length)] *)
  NullArray : Z -> Array
}.

(** ** Statistics decoder *)

Module Scalar.
Record t : Set := mk {
  type : DataType;
  value : CValue
}.
End Scalar.

(** The typed accessors [min()] and [max()] are reached through an unchecked
    [checked_cast] to the statistics class of the physical type; the stored
    value is read at the C type of that class. *)
Definition as_int (v : CValue) : Z :=
  match v with
  | v_int z => z
  | v_bool b => Z.b2z b
  | v_float z | v_double z => z
  | v_bytes bs => le_combine bs
  end.

Definition as_bool (v : CValue) : bool :=
  match v with
  | v_bool b => b
  | other => negb (as_int other =? 0)
  end.

(** [static_cast<CType>(v)] of a value of the physical C type. *)
Definition static_cast (c : CType) (v : CValue) : CValue :=
  match c with
  | c_bool => v_bool (as_bool v)
  | c_int bits is_signed => v_int (static_cast_int bits is_signed (as_int v))
  | c_float => v_float (as_int v)
  | c_double => v_double (as_int v)
  end.

(** Modelled from the spec: [::arrow::MakeScalar(value)] of an unboxed C
    value of type [c] is declared in arrow/scalar.h, not among the sources.
    The spec: "direct cast of the raw min/max to the matching scalar type",
    "the exact signed/unsigned 8/16/32/64-bit scalar". *)
Definition MakeScalar (c : CType) (v : CValue) : Scalar.t :=
  Scalar.mk (arrow_type_of c) v.

(** Modelled from the spec: [::arrow::MakeScalar(type, value)] is declared
    in arrow/scalar.h, not among the sources.  The spec: "if date/time/none,
    produce an int32-typed scalar": a scalar of the given type that holds
    the value. *)
Definition MakeScalar_typed (ty : DataType) (v : CValue) : Result Scalar.t :=
  Ok (Scalar.mk ty v).

(** What a decoder leaves in the two out-parameters [min] and [max];
    [None] is an out-parameter that was not assigned. *)
Definition MinMax : Type := option Scalar.t * option Scalar.t.

Definition MakeMinMaxScalar (c : CType) (statistics : Statistics.t)
    : Result MinMax :=
  let min := MakeScalar c (static_cast c (Statistics.min statistics)) in
  let max := MakeScalar c (static_cast c (Statistics.max statistics)) in
  Ok (Some min, Some max).

Definition MakeMinMaxTypedScalar (c : CType) (statistics : Statistics.t)
    (type : DataType) : Result MinMax :=
  min ← MakeScalar_typed type (Statistics.min statistics);
  max ← MakeScalar_typed type (Statistics.max statistics);
  Ok (Some min, Some max).

(** [statistics.descr()->logical_type()]; every caller has checked that the
    descriptor is present. *)
Definition descr_logical_type (statistics : Statistics.t) : LogicalType.t :=
  match Statistics.descr statistics with
  | Some d => ColumnDescriptor.logical_type d
  | None => LogicalType.NONE
  end.

(** [checked_pointer_cast<const IntLogicalType>(logical_type)] followed by
    [bit_width()] and [is_signed()]. *)
Definition IntLogicalType_bit_width (l : LogicalType.t) : Z :=
  match l with
  | LogicalType.INT w _ => w
  | _ => 0
  end.

Definition IntLogicalType_is_signed (l : LogicalType.t) : bool :=
  match l with
  | LogicalType.INT _ s => s
  | _ => false
  end.

Definition MakeMinMaxIntegralScalar (statistics : Statistics.t)
    (arrow_type : DataType) : Result MinMax :=
  let logical_type := descr_logical_type statistics in
  let is_signed := IntLogicalType_is_signed logical_type in
  let bit_width := IntLogicalType_bit_width logical_type in
  if bit_width =? 8 then
    if is_signed then MakeMinMaxScalar int8_t statistics
    else MakeMinMaxScalar uint8_t statistics
  else if bit_width =? 16 then
    if is_signed then MakeMinMaxScalar int16_t statistics
    else MakeMinMaxScalar uint16_t statistics
  else if bit_width =? 32 then
    if is_signed then MakeMinMaxScalar int32_t statistics
    else MakeMinMaxScalar uint32_t statistics
  else if bit_width =? 64 then
    if is_signed then MakeMinMaxScalar int64_t statistics
    else MakeMinMaxScalar uint64_t statistics
  else Ok (None, None).

Definition arrow_unit (u : LogicalType.TimeUnit) : TimeUnit.type :=
  match u with
  | LogicalType.MILLIS => TimeUnit.MILLI
  | LogicalType.MICROS => TimeUnit.MICRO
  | LogicalType.NANOS => TimeUnit.NANO
  end.

(** Modelled from the spec: [FromInt32] and [FromInt64] are defined in
    parquet/arrow/schema_internal.cc, not among the sources; they map the
    logical type of an int32 (int64) column to the Arrow type.  The spec
    names the logical types an int32 column decodes ("sized integer",
    "date/time/none") and the ones an int64 column decodes ("time/timestamp/
    none"), lets int32 and int64 columns back decimals, and has every other
    logical type fail with Unimplemented. *)
Definition FromInt32 (logical_type : LogicalType.t) : Result DataType :=
  match logical_type with
  | LogicalType.INT w s => Ok (arrow_type_of (c_int w s))
  | LogicalType.DATE => Ok DATE32
  | LogicalType.TIME _ u => Ok (TIME32 (arrow_unit u))
  | LogicalType.DECIMAL p s => Ok (DECIMAL128 p s)
  | LogicalType.NONE => Ok INT32
  | _ => Err NotImplemented "Unhandled logical type for INT32"
  end.

Definition FromInt64 (logical_type : LogicalType.t) : Result DataType :=
  match logical_type with
  | LogicalType.INT w s => Ok (arrow_type_of (c_int w s))
  | LogicalType.TIME _ u => Ok (TIME64 (arrow_unit u))
  | LogicalType.TIMESTAMP _ u => Ok (TIMESTAMP (arrow_unit u))
  | LogicalType.DECIMAL p s => Ok (DECIMAL128 p s)
  | LogicalType.NONE => Ok INT64
  | _ => Err NotImplemented "Unhandled logical type for INT64"
  end.

Definition FromInt32Statistics (statistics : Statistics.t)
    (logical_type : LogicalType.t) : Result MinMax :=
  type ← FromInt32 logical_type;
  match logical_type with
  | LogicalType.INT _ _ => MakeMinMaxIntegralScalar statistics type
  | LogicalType.DATE
  | LogicalType.TIME _ _
  | LogicalType.NONE => MakeMinMaxTypedScalar int32_t statistics type
  | _ => Err NotImplemented "Cannot extract statistics for type "
  end.

Definition FromInt64Statistics (statistics : Statistics.t)
    (logical_type : LogicalType.t) : Result MinMax :=
  type ← FromInt64 logical_type;
  match logical_type with
  | LogicalType.INT _ _ => MakeMinMaxIntegralScalar statistics type
  | LogicalType.TIME _ _
  | LogicalType.TIMESTAMP _ _
  | LogicalType.NONE => MakeMinMaxTypedScalar int64_t statistics type
  | _ => Err NotImplemented "Cannot extract statistics for type "
  end.

Definition FromBigEndianString (k : DecimalKind) (data : list byte)
    (arrow_type : DataType) : Result Scalar.t :=
  decimal ← FromBigEndian k data (wrap_signed 32 (Z.of_nat (List.length data)));
  MakeScalar_typed arrow_type (v_int decimal).

Section StatisticsDecoder.
Context `{RT : ArrowRuntime}.

Definition ExtractDecimalMinMaxFromBytesType (statistics : Statistics.t)
    (logical_type : LogicalType.t) : Result MinMax :=
  let '(precision, scale) :=
    match logical_type with
    | LogicalType.DECIMAL p s => (p, s)
    | _ => (0, 0)
    end in
  match Decimal128Type_Make precision scale with
  | Ok arrow_type =>
      min ← FromBigEndianString Decimal128 (Statistics.EncodeMin statistics) arrow_type;
      max ← FromBigEndianString Decimal128 (Statistics.EncodeMax statistics) arrow_type;
      Ok (Some min, Some max)
  | Err _ _ =>
      (* Fallback to see if Decimal256 can represent the type. *)
      arrow_type ← Decimal256Type_Make precision scale;
      min ← FromBigEndianString Decimal256 (Statistics.EncodeMin statistics) arrow_type;
      max ← FromBigEndianString Decimal256 (Statistics.EncodeMax statistics) arrow_type;
      Ok (Some min, Some max)
  end.

Definition descr_physical_type (statistics : Statistics.t) : ParquetType.t :=
  match Statistics.descr statistics with
  | Some d => ColumnDescriptor.physical_type d
  | None => ParquetType.UNDEFINED
  end.

Definition descr_type_length (statistics : Statistics.t) : Z :=
  match Statistics.descr statistics with
  | Some d => ColumnDescriptor.type_length d
  | None => 0
  end.

Definition ByteArrayStatisticsAsScalars (statistics : Statistics.t)
    : Result MinMax :=
  let logical_type := descr_logical_type statistics in
  match logical_type with
  | LogicalType.DECIMAL _ _ =>
      ExtractDecimalMinMaxFromBytesType statistics logical_type
  | _ =>
      let type :=
        match descr_physical_type statistics with
        | ParquetType.FIXED_LEN_BYTE_ARRAY =>
            FIXED_SIZE_BINARY (descr_type_length statistics)
        | _ =>
            match logical_type with
            | LogicalType.STRING => STRING
            | _ => BINARY
            end
        end in
      min ← MakeScalar_typed type (v_bytes (Statistics.EncodeMin statistics));
      max ← MakeScalar_typed type (v_bytes (Statistics.EncodeMax statistics));
      Ok (Some min, Some max)
  end.

Definition StatisticsAsScalars (statistics : Statistics.t) : Result MinMax :=
  if negb (Statistics.HasMinMax statistics) then
    Err Invalid "Statistics has no min max."
  else
    match Statistics.descr statistics with
    | None =>
        Err Invalid "Statistics carries no descriptor, can't infer arrow type."
    | Some column_desc =>
        let physical_type := ColumnDescriptor.physical_type column_desc in
        let logical_type := ColumnDescriptor.logical_type column_desc in
        match physical_type with
        | ParquetType.BOOLEAN => MakeMinMaxScalar c_bool statistics
        | ParquetType.FLOAT => MakeMinMaxScalar c_float statistics
        | ParquetType.DOUBLE => MakeMinMaxScalar c_double statistics
        | ParquetType.INT32 => FromInt32Statistics statistics logical_type
        | ParquetType.INT64 => FromInt64Statistics statistics logical_type
        | ParquetType.BYTE_ARRAY
        | ParquetType.FIXED_LEN_BYTE_ARRAY =>
            ByteArrayStatisticsAsScalars statistics
        | _ =>
            Err NotImplemented
              "Extract statistics unsupported for physical_type  unsupported."
        end
    end.

End StatisticsDecoder.

(** ** Primitive transfers *)

(** [values[i]] through a pointer to the C type [c], and the store of a
    value of that type.  Only the integer types are read and written
    element by element. *)
Definition load_c (c : CType) (bs : list byte) (i : Z) : Z :=
  match c with
  | c_int bits true => load_signed (Z.to_nat (bits / 8)) bs i
  | other => load_unsigned (Z.to_nat (sizeof other)) bs i
  end.

Definition store_c (c : CType) (bs : list byte) (i : Z) (v : Z) : list byte :=
  store_int (Z.to_nat (sizeof c)) bs i v.

(** The implicit conversion at an assignment to a variable of C type [c]. *)
Definition convert_c (c : CType) (v : Z) : Z :=
  match c with
  | c_int bits is_signed => static_cast_int bits is_signed v
  | _ => v
  end.

Definition with_bytes (b : Buffer) (bs : list byte) : Buffer :=
  mkBuffer (buf_id b) bs.

Definition is_Some_b {A} (o : option A) : bool :=
  match o with
  | Some _ => true
  | None => false
  end.

(** Drop the validity buffer from each chunk.  Used when reading a
    non-nullable field.  (The [ArrayData] that is changed is the one the
    chunk shares; no transfer looks at the chunk it replaced again.) *)
Definition ReconstructChunksWithoutNulls (chunks : list Array) : list Array :=
  map (fun chunk =>
         if is_Some_b (ArrayData.buffer chunk 0) then
           let data := chunk in
           let data := ArrayData.mk (ArrayData.type data) (ArrayData.length data)
                         (ArrayData.buffers data) 0 (ArrayData.statistics data) in
           let data := ArrayData.mk (ArrayData.type data) (ArrayData.length data)
                         (<[0%nat := None]> (ArrayData.buffers data))
                         (ArrayData.null_count data) (ArrayData.statistics data) in
           MakeArray data
         else chunk)
      chunks.

(** [AttachStatistics<ArrowType, ParquetType>]; [ArrowCType] is
    [ArrowType::c_type]. *)
Definition AttachStatistics (ArrowCType : CType) (data : ArrayData.t)
    (metadata : option ColumnChunkMetaData.t) (ctx : ReaderContext.t)
    : ArrayData.t :=
  match metadata with
  | None => data
  | Some metadata =>
      let statistics := ColumnChunkMetaData.statistics metadata in
      if (ArrayData.null_count data =? kUnknownNullCount)
         && negb (is_Some_b statistics)
      then data
      else
        let array_statistics := ArrayStatistics.empty in
        let array_statistics :=
          if negb (ArrayData.null_count data =? kUnknownNullCount) then
            ArrayStatistics.mk (Some (ArrayData.null_count data))
              (ArrayStatistics.distinct_count array_statistics)
              (ArrayStatistics.min array_statistics)
              (ArrayStatistics.max array_statistics)
              (ArrayStatistics.is_min_exact array_statistics)
              (ArrayStatistics.is_max_exact array_statistics)
          else array_statistics in
        let array_statistics :=
          match statistics with
          | None => array_statistics
          | Some statistics =>
              let array_statistics :=
                if Statistics.HasDistinctCount statistics then
                  ArrayStatistics.mk
                    (ArrayStatistics.null_count array_statistics)
                    (Some (Statistics.distinct_count statistics))
                    (ArrayStatistics.min array_statistics)
                    (ArrayStatistics.max array_statistics)
                    (ArrayStatistics.is_min_exact array_statistics)
                    (ArrayStatistics.is_max_exact array_statistics)
                else array_statistics in
              if Statistics.HasMinMax statistics then
                let min := static_cast ArrowCType (Statistics.min statistics) in
                let max := static_cast ArrowCType (Statistics.max statistics) in
                let '(smin, smax) :=
                  match ArrowCType with
                  | c_bool => (sv_bool (as_bool min), sv_bool (as_bool max))
                  | c_float | c_double => (sv_double min, sv_double max)
                  | c_int _ true =>
                      (sv_int64 (wrap_signed 64 (as_int min)),
                       sv_int64 (wrap_signed 64 (as_int max)))
                  | c_int _ false =>
                      (sv_uint64 (wrap_unsigned 64 (as_int min)),
                       sv_uint64 (wrap_unsigned 64 (as_int max)))
                  end in
                (* integer / floating point / boolean based min/max are
                   always exact if they exist *)
                ArrayStatistics.mk
                  (ArrayStatistics.null_count array_statistics)
                  (ArrayStatistics.distinct_count array_statistics)
                  (Some smin) (Some smax) true true
              else array_statistics
          end in
        ArrayData.set_statistics data (Some array_statistics)
  end.

(** [TransferInt<ArrowType, ParquetType>]; the two C types are
    [ArrowType::c_type] and [ParquetType::c_type]. *)
Definition TransferInt (ArrowCType ParquetCType : CType)
    (reader : RecordReader.t) (metadata : option ColumnChunkMetaData.t)
    (ctx : ReaderContext.t) (field : Field.t)
    : Result (Datum * RecordReader.t) :=
  let length := RecordReader.values_written reader in
  data ← AllocateBuffer (length * sizeof ArrowCType) (ReaderContext.pool ctx);
  let values := RecordReader.values_bytes reader in
  (* std::copy(values, values + length, out_ptr) *)
  let out := for_range length
               (fun i out => store_c ArrowCType out i
                               (convert_c ArrowCType (load_c ParquetCType values i)))
               (buf_bytes data) in
  let data := with_bytes data out in
  let null_count := 0 in
  let buffers := [None; Some data] in
  let '(null_count, buffers, reader) :=
    if Field.nullable field then
      let null_count := RecordReader.null_count reader in
      let '(is_valid, reader) := RecordReader.ReleaseIsValid reader in
      (null_count, <[0%nat := is_valid]> buffers, reader)
    else (null_count, buffers, reader) in
  let array_data := ArrayData.Make (Field.type field) length buffers null_count in
  let array_data := AttachStatistics ArrowCType array_data metadata ctx in
  Ok (Datum_ARRAY (MakeArray array_data), reader).

(** [TransferZeroCopy<ArrowType, ParquetType>] *)
Definition TransferZeroCopy (ArrowCType ParquetCType : CType)
    (reader : RecordReader.t) (metadata : option ColumnChunkMetaData.t)
    (ctx : ReaderContext.t) (field : Field.t) : Array * RecordReader.t :=
  let '(data, reader) :=
    if Field.nullable field then
      let '(is_valid, reader) := RecordReader.ReleaseIsValid reader in
      let '(values, reader) := RecordReader.ReleaseValues reader in
      let buffers := [is_valid; values] in
      (ArrayData.Make (Field.type field) (RecordReader.values_written reader)
         buffers (RecordReader.null_count reader), reader)
    else
      let '(values, reader) := RecordReader.ReleaseValues reader in
      let buffers := [None; values] in
      (ArrayData.Make (Field.type field) (RecordReader.values_written reader)
         buffers 0, reader) in
  let data := AttachStatistics ArrowCType data metadata ctx in
  (MakeArray data, reader).

Definition TransferBool (reader : RecordReader.t)
    (metadata : option ColumnChunkMetaData.t) (ctx : ReaderContext.t)
    (nullable : bool) : Result (Datum * RecordReader.t) :=
  let length := RecordReader.values_written reader in
  let buffer_size := BytesForBits length in
  data ← AllocateBuffer buffer_size (ReaderContext.pool ctx);
  (* Transfer boolean values to packed bitmap *)
  let values := RecordReader.values_bytes reader in
  let data_ptr := buf_bytes data in
  let data_ptr := memset data_ptr 0 0 buffer_size in
  let data_ptr :=
    for_range length
      (fun i data_ptr => if load_bool values i then SetBit data_ptr i else data_ptr)
      data_ptr in
  let data := with_bytes data data_ptr in
  let '(array_data, reader) :=
    if nullable then
      let '(is_valid, reader) := RecordReader.ReleaseIsValid reader in
      (ArrayData.Make BOOL length [is_valid; Some data]
         (RecordReader.null_count reader), reader)
    else
      (ArrayData.Make BOOL length [None; Some data] 0, reader) in
  let array_data := AttachStatistics c_bool array_data metadata ctx in
  Ok (Datum_ARRAY (MakeArray array_data), reader).

(** [reinterpret_cast<const Int96*>(p)[i]]: three 32-bit words. *)
Definition load_Int96 (bs : list byte) (i : Z) : Int96.t :=
  Int96.mk [load_unsigned 4 bs (3 * i);
            load_unsigned 4 bs (3 * i + 1);
            load_unsigned 4 bs (3 * i + 2)].

Definition Int96_word (v : Int96.t) (k : nat) : Z := nth k (Int96.value v) 0.

(** Modelled from the spec: [kMillisecondsPerDay] is a constant of
    parquet/types.h, not among the sources.  The spec: "day count ×
    86,400,000 (milliseconds per day)". *)
Definition kMillisecondsPerDay : Z := 86400000.

Section Transfers.
Context `{RT : ArrowRuntime}.

Definition TransferInt96 (reader : RecordReader.t) (pool : MemoryPool)
    (field : Field.t) (int96_arrow_time_unit : TimeUnit.type)
    : Result (Datum * RecordReader.t) :=
  let length := RecordReader.values_written reader in
  let values := RecordReader.values_bytes reader in
  data ← AllocateBuffer (length * sizeof int64_t) pool;
  let data_ptr :=
    for_range length
      (fun i data_ptr =>
         let v := load_Int96 values i in
         if Int96_word v 2 =? 0 then
           (* Happens for null entries *)
           store_c int64_t data_ptr i 0
         else
           match int96_arrow_time_unit with
           | TimeUnit.NANO => store_c int64_t data_ptr i (Int96GetNanoSeconds v)
           | TimeUnit.MICRO => store_c int64_t data_ptr i (Int96GetMicroSeconds v)
           | TimeUnit.MILLI => store_c int64_t data_ptr i (Int96GetMilliSeconds v)
           | TimeUnit.SECOND => store_c int64_t data_ptr i (Int96GetSeconds v)
           end)
      (buf_bytes data) in
  let data := with_bytes data data_ptr in
  if Field.nullable field then
    let '(is_valid, reader) := RecordReader.ReleaseIsValid reader in
    Ok (Datum_ARRAY (PrimitiveArray (Field.type field) length data is_valid
                       (RecordReader.null_count reader)), reader)
  else
    Ok (Datum_ARRAY (PrimitiveArray (Field.type field) length data None 0), reader).

Definition TransferDate64 (reader : RecordReader.t) (pool : MemoryPool)
    (field : Field.t) : Result (Datum * RecordReader.t) :=
  let length := RecordReader.values_written reader in
  let values := RecordReader.values_bytes reader in
  data ← AllocateBuffer (length * sizeof int64_t) pool;
  let out_ptr :=
    for_range length
      (fun i out_ptr =>
         store_c int64_t out_ptr i
           (wrap_signed 64
              (static_cast_int 64 true (load_c int32_t values i)
               * kMillisecondsPerDay)))
      (buf_bytes data) in
  let data := with_bytes data out_ptr in
  if Field.nullable field then
    let '(is_valid, reader) := RecordReader.ReleaseIsValid reader in
    Ok (Datum_ARRAY (PrimitiveArray (Field.type field) length data is_valid
                       (RecordReader.null_count reader)), reader)
  else
    Ok (Datum_ARRAY (PrimitiveArray (Field.type field) length data None 0), reader).

(** ** Binary, direct to dictionary-encoded *)

Definition ViewOrCastChunkedArray (array : ChunkedArray.t) (pool : MemoryPool)
    (logical_value_type : DataType) : Result ChunkedArray.t :=
  match View array logical_value_type with
  | Ok viewed => Ok viewed
  | Err _ _ => Cast_chunked array logical_value_type
  end.

Definition TransferDictionary (reader : RecordReader.t) (pool : MemoryPool)
    (logical_value_type : DataType) (nullable : bool)
    : Result (ChunkedArray.t * RecordReader.t) :=
  match RecordReader.dictionary_result reader with
  | None => Err CheckFailed "DCHECK(dict_reader)"
  | Some out =>
      out ← (if negb (Equals logical_value_type (ChunkedArray.type out))
             then ViewOrCastChunkedArray out pool logical_value_type
             else Ok out);
      let out :=
        if negb nullable then
          let chunks := ChunkedArray.chunks out in
          let chunks := ReconstructChunksWithoutNulls chunks in
          ChunkedArray.mk chunks logical_value_type
        else out in
      Ok (out, reader)
  end.

(** A loop over the chunks whose body replaces the chunk or returns early. *)
Fixpoint for_each_chunk (body : Array -> Result Array) (chunks : list Array)
    : Result (list Array) :=
  match chunks with
  | [] => Ok []
  | chunk :: rest =>
      chunk' ← body chunk;
      rest' ← for_each_chunk body rest;
      Ok (chunk' :: rest')
  end.

Definition TransferBinary (reader : RecordReader.t) (pool : MemoryPool)
    (logical_type_field : Field.t)
    : Result (ChunkedArray.t * RecordReader.t) :=
  if RecordReader.read_dictionary reader then
    TransferDictionary reader pool
      (DICTIONARY INT32 (Field.type logical_type_field))
      (Field.nullable logical_type_field)
  else
    let allow_invalid_utf8 := true in
    match RecordReader.builder_chunks reader with
    | None => Err CheckFailed "DCHECK(binary_reader)"
    | Some chunks =>
        chunks ← for_each_chunk
                   (fun chunk =>
                      if negb (Equals (ArrayData.type chunk)
                                 (Field.type logical_type_field))
                      then Cast chunk (Field.type logical_type_field)
                             allow_invalid_utf8
                      else Ok chunk)
                   chunks;
        let chunks :=
          if negb (Field.nullable logical_type_field)
          then ReconstructChunksWithoutNulls chunks
          else chunks in
        Ok (ChunkedArray.mk chunks (Field.type logical_type_field), reader)
    end.

(** ** INT32 / INT64 / BYTE_ARRAY / FIXED_LEN_BYTE_ARRAY -> Decimal128 || Decimal256 *)

(** [RawBytesToDecimalBytes<DecimalType>]; [out_buf] is the output buffer
    and the byte offset the pointer has reached in it. *)
Definition RawBytesToDecimalBytes (k : DecimalKind) (value : list byte)
    (byte_width : Z) (out_buf : list byte) (offset : Z) : Result (list byte) :=
  t ← FromBigEndian k value byte_width;
  Ok (write_bytes out_buf offset (ToBytes k t)).

(** The physical types [DecimalConverter] is specialised for; the primary
    template, which returns NotImplemented, is instantiated nowhere. *)
Inductive BinaryParquetType : Set := ByteArrayType | FLBAType.

(** [DecimalConverter<DecimalArrayType, FLBAType>::ConvertToDecimal] *)
Definition ConvertToDecimal_FLBA (k : DecimalKind) (array : Array)
    (type : DataType) (pool : MemoryPool) : Result Array :=
  let fixed_size_binary_array := array in
  (* The byte width of each decimal value *)
  let type_length := byte_width type in
  (* number of elements in the entire array *)
  let length := ArrayData.length fixed_size_binary_array in
  (* the byte width of the values in the FixedSizeBinaryArray *)
  let byte_width := byte_width (ArrayData.type fixed_size_binary_array) in
  (* allocate memory for the decimal array *)
  data ← AllocateBuffer (length * type_length) pool;
  let null_count := ArrayData.null_count fixed_size_binary_array in
  out ←
    (if 0 <? null_count then
       for_range_result length
         (fun i out =>
            if negb (IsNull fixed_size_binary_array i) then
              RawBytesToDecimalBytes k
                (FixedSizeBinaryArray_GetValue fixed_size_binary_array i)
                byte_width out (i * type_length)
            else Ok (memset out (i * type_length) 0 type_length))
         (buf_bytes data)
     else
       for_range_result length
         (fun i out =>
            RawBytesToDecimalBytes k
              (FixedSizeBinaryArray_GetValue fixed_size_binary_array i)
              byte_width out (i * type_length))
         (buf_bytes data));
  Ok (PrimitiveArray type length (with_bytes data out)
        (ArrayData.buffer fixed_size_binary_array 0) null_count).

(** [DecimalConverter<DecimalArrayType, ByteArrayType>::ConvertToDecimal] *)
Definition ConvertToDecimal_ByteArray (k : DecimalKind) (array : Array)
    (type : DataType) (pool : MemoryPool) : Result Array :=
  let binary_array := array in
  let length := ArrayData.length binary_array in
  let type_length := byte_width type in
  data ← AllocateBuffer (length * type_length) pool;
  let null_count := ArrayData.null_count binary_array in
  (* convert each BinaryArray value to valid decimal bytes *)
  out ←
    for_range_result length
      (fun i out =>
         let '(record_loc, record_len) := BinaryArray_GetValue binary_array i in
         if (record_len <? 0) || (type_length <? record_len) then
           Err Invalid "Invalid BYTE_ARRAY length for "
         else
           (* out_ptr_view[0] = 0; out_ptr_view[1] = 0; *)
           let out := store_int_at 8 out (i * type_length) 0 in
           let out := store_int_at 8 out (i * type_length + 8) 0 in
           (* only convert rows that are not null if there are nulls, or
              all rows, if there are not *)
           if ((0 <? null_count) && negb (IsNull binary_array i))
              || (null_count <=? 0)
           then RawBytesToDecimalBytes k record_loc record_len out
                  (i * type_length)
           else Ok out)
      (buf_bytes data);
  Ok (PrimitiveArray type length (with_bytes data out)
        (ArrayData.buffer binary_array 0) null_count).

Definition ConvertToDecimal (k : DecimalKind) (p : BinaryParquetType)
    : Array -> DataType -> MemoryPool -> Result Array :=
  match p with
  | FLBAType => ConvertToDecimal_FLBA k
  | ByteArrayType => ConvertToDecimal_ByteArray k
  end.

(** [DecimalIntegerTransfer<DecimalArrayType, ParquetIntegerType>];
    [ElementType] is [ParquetIntegerType::c_type], [int32_t] or [int64_t].
    The [DCHECK] on the id of the field's type is an assertion of debug
    builds only. *)
Definition DecimalIntegerTransfer (k : DecimalKind) (ElementType : CType)
    (reader : RecordReader.t) (pool : MemoryPool) (field : Field.t)
    : Result (Datum * RecordReader.t) :=
  let length := RecordReader.values_written reader in
  let values := RecordReader.values_bytes reader in
  let type_length := byte_width (Field.type field) in
  data ← AllocateBuffer (length * type_length) pool;
  let out :=
    for_range length
      (fun i out =>
         (* sign/zero extend int32_t values, otherwise a no-op *)
         let value := static_cast_int 64 true (load_c ElementType values i) in
         write_bytes out (i * type_length) (ToBytes k value))
      (buf_bytes data) in
  let data := with_bytes data out in
  if RecordReader.nullable_values reader && Field.nullable field then
    let '(is_valid, reader) := RecordReader.ReleaseIsValid reader in
    Ok (Datum_ARRAY (PrimitiveArray (Field.type field) length data is_valid
                       (RecordReader.null_count reader)), reader)
  else
    Ok (Datum_ARRAY (PrimitiveArray_without_nulls (Field.type field) length data),
        reader).

(** [TransferDecimal<DecimalArrayType, ParquetType>] *)
Definition TransferDecimal (k : DecimalKind) (p : BinaryParquetType)
    (reader : RecordReader.t) (pool : MemoryPool) (field : Field.t)
    : Result (Datum * RecordReader.t) :=
  match RecordReader.builder_chunks reader with
  | None => Err CheckFailed "DCHECK(binary_reader)"
  | Some chunks =>
      chunks ← for_each_chunk
                 (fun chunk => ConvertToDecimal k p chunk (Field.type field) pool)
                 chunks;
      let chunks :=
        if negb (Field.nullable field)
        then ReconstructChunksWithoutNulls chunks
        else chunks in
      Ok (Datum_CHUNKED_ARRAY (ChunkedArray.mk chunks (Field.type field)), reader)
  end.

Definition TransferHalfFloat (reader : RecordReader.t) (pool : MemoryPool)
    (field : Field.t) : Result (Datum * RecordReader.t) :=
  let binary_type := FIXED_SIZE_BINARY 2 in
  (* Read as a FixedSizeBinaryArray - then, view as a HalfFloatArray *)
  '(chunked_array, reader) ←
    TransferBinary reader pool (Field.WithType field binary_type);
  out ← View chunked_array (Field.type field);
  Ok (Datum_CHUNKED_ARRAY out, reader).

(** ** The dispatcher *)

(** [result.kind()] is examined once the switch is left: an array becomes a
    one-chunk chunked array, a chunked array is passed on, and no other kind
    is expected ([DCHECK(false)]; [*out] is then left unassigned). *)
Definition finish (r : Result (Datum * RecordReader.t))
    : Result (option ChunkedArray.t * RecordReader.t) :=
  '(result, reader) ← r;
  match result with
  | Datum_ARRAY a => Ok (Some (ChunkedArray.of_array (MakeArray a)), reader)
  | Datum_CHUNKED_ARRAY c => Ok (Some c, reader)
  | Datum_NONE => Ok (None, reader)
  end.

Definition chunked (r : Result (ChunkedArray.t * RecordReader.t))
    : Result (Datum * RecordReader.t) :=
  '(chunked_result, reader) ← r;
  Ok (Datum_CHUNKED_ARRAY chunked_result, reader).

Definition zero_copy (r : Array * RecordReader.t)
    : Result (Datum * RecordReader.t) :=
  Ok (Datum_ARRAY (fst r), snd r).

Definition TransferColumnData (reader : RecordReader.t)
    (metadata : option ColumnChunkMetaData.t) (value_field : Field.t)
    (descr : ColumnDescriptor.t) (ctx : ReaderContext.t)
    : Result (option ChunkedArray.t * RecordReader.t) :=
  let pool := ReaderContext.pool ctx in
  let TRANSFER_INT32 ArrowCType :=
    TransferInt ArrowCType int32_t reader metadata ctx value_field in
  let TRANSFER_INT64 ArrowCType :=
    TransferInt ArrowCType int64_t reader metadata ctx value_field in
  finish
    match Field.type value_field with
    | DICTIONARY _ _ =>
        chunked (TransferDictionary reader pool (Field.type value_field)
                   (Field.nullable value_field))
    | NA =>
        Ok (Datum_ARRAY (NullArray (RecordReader.values_written reader)), reader)
    | INT32 =>
        zero_copy (TransferZeroCopy int32_t int32_t reader metadata ctx value_field)
    | INT64 =>
        zero_copy (TransferZeroCopy int64_t int64_t reader metadata ctx value_field)
    | FLOAT =>
        zero_copy (TransferZeroCopy c_float c_float reader metadata ctx value_field)
    | DOUBLE =>
        zero_copy (TransferZeroCopy c_double c_double reader metadata ctx value_field)
    | BOOL =>
        TransferBool reader metadata ctx (Field.nullable value_field)
    | UINT8 => TRANSFER_INT32 uint8_t
    | INT8 => TRANSFER_INT32 int8_t
    | UINT16 => TRANSFER_INT32 uint16_t
    | INT16 => TRANSFER_INT32 int16_t
    | UINT32 => TRANSFER_INT32 uint32_t
    | UINT64 => TRANSFER_INT64 uint64_t
    | DATE32 => TRANSFER_INT32 int32_t
    | TIME32 _ => TRANSFER_INT32 int32_t
    | TIME64 _ => TRANSFER_INT64 int64_t
    | DURATION _ => TRANSFER_INT64 int64_t
    | DATE64 => TransferDate64 reader pool value_field
    | FIXED_SIZE_BINARY _
    | BINARY
    | STRING
    | BINARY_VIEW
    | STRING_VIEW
    | LARGE_BINARY
    | LARGE_STRING =>
        chunked (TransferBinary reader pool value_field)
    | HALF_FLOAT =>
        let type := Field.type value_field in
        match ColumnDescriptor.physical_type descr with
        | ParquetType.FIXED_LEN_BYTE_ARRAY =>
            if negb (ColumnDescriptor.type_length descr =? byte_width type) then
              Err Invalid "Fixed length binary type must have a byte width of 2"
            else TransferHalfFloat reader pool value_field
        | _ => Err Invalid "Physical type must be fixed length binary"
        end
    | DECIMAL128 _ _ =>
        match ColumnDescriptor.physical_type descr with
        | ParquetType.INT32 =>
            DecimalIntegerTransfer Decimal128 int32_t reader pool value_field
        | ParquetType.INT64 =>
            DecimalIntegerTransfer Decimal128 int64_t reader pool value_field
        | ParquetType.BYTE_ARRAY =>
            TransferDecimal Decimal128 ByteArrayType reader pool value_field
        | ParquetType.FIXED_LEN_BYTE_ARRAY =>
            TransferDecimal Decimal128 FLBAType reader pool value_field
        | _ =>
            Err Invalid
              "Physical type for decimal128 must be int32, int64, byte array, or fixed length binary"
        end
    | DECIMAL256 _ _ =>
        match ColumnDescriptor.physical_type descr with
        | ParquetType.INT32 =>
            DecimalIntegerTransfer Decimal256 int32_t reader pool value_field
        | ParquetType.INT64 =>
            DecimalIntegerTransfer Decimal256 int64_t reader pool value_field
        | ParquetType.BYTE_ARRAY =>
            TransferDecimal Decimal256 ByteArrayType reader pool value_field
        | ParquetType.FIXED_LEN_BYTE_ARRAY =>
            TransferDecimal Decimal256 FLBAType reader pool value_field
        | _ =>
            Err Invalid
              "Physical type for decimal256 must be int32, int64, byte array, or fixed length binary"
        end
    | TIMESTAMP unit =>
        match ColumnDescriptor.physical_type descr with
        | ParquetType.INT96 => TransferInt96 reader pool value_field unit
        | _ =>
            match unit with
            | TimeUnit.MILLI
            | TimeUnit.MICRO
            | TimeUnit.NANO =>
                zero_copy (TransferZeroCopy int64_t int64_t reader metadata ctx
                             value_field)
            | _ => Err NotImplemented "TimeUnit not supported"
            end
        end
    | OTHER _ =>
        Err NotImplemented "No support for reading columns of type "
    end.

End Transfers.

(** ** A runtime to run the model on

    The instance below stands in for the external collaborators when the
    model is evaluated on concrete inputs: a cast that relabels the type, no
    views, arrays without nulls whose binary values are empty, and the
    Julian-day arithmetic of the legacy timestamps. *)

Definition kJulianToUnixEpochDays : Z := 2440588.

Definition sample_Int96_seconds (v : Int96.t) : Z :=
  (Int96_word v 2 - kJulianToUnixEpochDays) * 86400.

Definition sample_Int96_nanos (v : Int96.t) : Z :=
  Int96_word v 0 + 2 ^ 32 * Int96_word v 1.

Definition sample_values (a : Array) (i : Z) : list byte * Z :=
  match ArrayData.buffer a 1 with
  | Some b => (buf_bytes b, Z.of_nat (List.length (buf_bytes b)))
  | None => ([], 0)
  end.

#[local] Instance sample_runtime : ArrowRuntime := {|
  Cast a ty _ :=
    Ok (ArrayData.mk ty (ArrayData.length a) (ArrayData.buffers a)
          (ArrayData.null_count a) (ArrayData.statistics a));
  Cast_chunked c ty := Ok (ChunkedArray.mk (ChunkedArray.chunks c) ty);
  View c ty := Err TypeError "no view";
  Int96GetNanoSeconds v :=
    sample_Int96_seconds v * 1000000000 + sample_Int96_nanos v;
  Int96GetMicroSeconds v :=
    sample_Int96_seconds v * 1000000 + sample_Int96_nanos v / 1000;
  Int96GetMilliSeconds v :=
    sample_Int96_seconds v * 1000 + sample_Int96_nanos v / 1000000;
  Int96GetSeconds v :=
    sample_Int96_seconds v + sample_Int96_nanos v / 1000000000;
  Decimal128Type_Make p s :=
    if (1 <=? p) && (p <=? 38) then Ok (DECIMAL128 p s)
    else Err Invalid "precision out of range";
  Decimal256Type_Make p s :=
    if (1 <=? p) && (p <=? 76) then Ok (DECIMAL256 p s)
    else Err Invalid "precision out of range";
  BinaryArray_GetValue := sample_values;
  FixedSizeBinaryArray_GetValue a i := fst (sample_values a i);
  IsNull a i := false;
  NullArray n := ArrayData.Make NA n [None] n
|}.

Definition sample_pool : MemoryPool := mkPool 4096 1000 (fun k => 170 + Z.of_nat k).
Definition sample_ctx : ReaderContext.t := ReaderContext.mk sample_pool.

(** A reader that holds the values [bs] (buffer 1) and a one-byte validity
    bitmap (buffer 2). *)
Definition sample_reader (n : Z) (bs : list byte) (nulls : Z) : RecordReader.t :=
  RecordReader.mk n (Some (mkBuffer 1 bs)) (Some (mkBuffer 2 [255])) nulls
    true false None None.

(** The value buffer (the second buffer) of the array a transfer returned. *)
Definition value_bytes (r : Result (Datum * RecordReader.t)) : option (list byte) :=
  match r with
  | Ok (Datum_ARRAY a, _) => buf_bytes <$> ArrayData.buffer a 1
  | _ => None
  end.

Definition datum_array (r : Result (Datum * RecordReader.t)) : option Array :=
  match r with
  | Ok (Datum_ARRAY a, _) => Some a
  | _ => None
  end.

(** The bitmap [TransferBool] builds: the loop over a zeroed buffer. *)
Definition packed_bitmap (values : list byte) (length : Z) (zeroed : list byte)
    : list byte :=
  for_range length
    (fun i data_ptr => if load_bool values i then SetBit data_ptr i else data_ptr)
    zeroed.

(** The decimal type of a kind, and the C type of the values of an integer
    physical type: the combinations the dispatcher sends to
    [DecimalIntegerTransfer]. *)
Definition decimal_type (k : DecimalKind) (precision scale : Z) : DataType :=
  match k with
  | Decimal128 => DECIMAL128 precision scale
  | Decimal256 => DECIMAL256 precision scale
  end.

Definition integer_c_type (p : ParquetType.t) : option CType :=
  match p with
  | ParquetType.INT32 => Some int32_t
  | ParquetType.INT64 => Some int64_t
  | _ => None
  end.

(** The columns the dispatcher sends to [TransferZeroCopy]: the targets
    int32, int64, float and double, and the timestamps in milliseconds,
    microseconds or nanoseconds that are not stored as 96-bit values. *)
Definition takes_zero_copy_path (ty : DataType) (physical : ParquetType.t) : bool :=
  match ty with
  | INT32 | INT64 | FLOAT | DOUBLE => true
  | TIMESTAMP unit =>
      match physical, unit with
      | ParquetType.INT96, _ => false
      | _, TimeUnit.SECOND => false
      | _, _ => true
      end
  | _ => false
  end.

(** The Arrow integer type of a bit width and signedness. *)
Definition sized_integer_type (bit_width : Z) (is_signed : bool)
    : option DataType :=
  if bit_width =? 8 then Some (if is_signed then INT8 else UINT8)
  else if bit_width =? 16 then Some (if is_signed then INT16 else UINT16)
  else if bit_width =? 32 then Some (if is_signed then INT32 else UINT32)
  else if bit_width =? 64 then Some (if is_signed then INT64 else UINT64)
  else None.

Definition sample_int32_statistics (l : LogicalType.t) (min max : Z)
    : Statistics.t :=
  Statistics.mk true false 0
    (Some (ColumnDescriptor.mk ParquetType.INT32 l 0))
    (v_int min) (v_int max) (le_split 4 min) (le_split 4 max).

(** The targets whose statistics are byte-oriented: strings and binaries of
    every layout, dictionaries of them, and decimals. *)
Definition string_or_decimal (ty : DataType) : bool :=
  match ty with
  | STRING | BINARY | FIXED_SIZE_BINARY _
  | LARGE_STRING | LARGE_BINARY | STRING_VIEW | BINARY_VIEW
  | DICTIONARY _ _
  | DECIMAL128 _ _ | DECIMAL256 _ _ => true
  | _ => false
  end.

Definition is_decimal (ty : DataType) : bool :=
  match ty with
  | DECIMAL128 _ _ | DECIMAL256 _ _ => true
  | _ => false
  end.

Definition sample_metadata (min max : Z) : option ColumnChunkMetaData.t :=
  Some (ColumnChunkMetaData.mk
          (Some (sample_int32_statistics LogicalType.NONE min max))).

(** The targets whose array is built from the reader's own buffers, and the
    targets whose chunks come from the reader's builder or dictionary. *)
Definition reader_backed (ty : DataType) : bool :=
  match ty with
  | INT32 | INT64 | FLOAT | DOUBLE | BOOL
  | UINT8 | INT8 | UINT16 | INT16 | UINT32 | UINT64
  | DATE32 | TIME32 _ | TIME64 _ | DURATION _ | DATE64 | TIMESTAMP _ => true
  | _ => false
  end.

Definition chunk_backed (ty : DataType) (physical : ParquetType.t) : bool :=
  match ty with
  | STRING | BINARY | FIXED_SIZE_BINARY _
  | LARGE_STRING | LARGE_BINARY | STRING_VIEW | BINARY_VIEW
  | DICTIONARY _ _ => true
  | DECIMAL128 _ _ | DECIMAL256 _ _ =>
      match physical with
      | ParquetType.BYTE_ARRAY | ParquetType.FIXED_LEN_BYTE_ARRAY => true
      | _ => false
      end
  | _ => false
  end.

(** The array has the reader's null count and validity buffer when [cond]
    holds, and null count zero and no validity buffer otherwise. *)
Definition nulls_follow (cond : bool) (reader : RecordReader.t) (array : Array)
    : Prop :=
  ArrayData.null_count array
  = (if cond then RecordReader.null_count reader else 0) /\
  ArrayData.buffer array 0
  = (if cond then RecordReader.is_valid reader else None).

(** [ChunkedArray::null_count()]: the sum over the chunks. *)
Definition output_null_count (c : ChunkedArray.t) : Z :=
  fold_right Z.add 0 (map ArrayData.null_count (ChunkedArray.chunks c)).

(** The invariant on null counts as the spec words it: a non-nullable field
    gives null count zero and no validity buffer, a nullable field gives the
    reader's reported null count. *)
Definition null_count_invariant_as_stated : Prop :=
  forall (RT : ArrowRuntime) (reader reader' : RecordReader.t)
         (metadata : option ColumnChunkMetaData.t) (value_field : Field.t)
         (descr : ColumnDescriptor.t) (ctx : ReaderContext.t)
         (out : ChunkedArray.t),
    TransferColumnData reader metadata value_field descr ctx
    = Ok (Some out, reader') ->
    (Field.nullable value_field = false ->
       output_null_count out = 0 /\
       Forall (fun chunk => ArrayData.buffer chunk 0 = None)
         (ChunkedArray.chunks out)) /\
    (Field.nullable value_field = true ->
       output_null_count out = RecordReader.null_count reader).

(** A reader of one int32 value that reports three nulls and no nullable
    values. *)
Definition reader_without_nullable_values : RecordReader.t :=
  RecordReader.mk 1 (Some (mkBuffer 1 [57; 48; 0; 0])) None 3 false false
    None None.

(** The rows of a binary array that [ConvertToDecimal] converts: "rows that
    are not null if there are nulls, or all rows, if there are not". *)
Definition is_converted `{RT : ArrowRuntime} (array : Array) (i : Z) : bool :=
  ((0 <? ArrayData.null_count array) && negb (IsNull array i))
  || (ArrayData.null_count array <=? 0).

(** The stored length of row [i] is within the byte width [w]. *)
Definition record_len_in_range `{RT : ArrowRuntime} (w : Z) (array : Array)
    (i : Z) : Prop :=
  0 <= snd (BinaryArray_GetValue array i) <= w.

(** A binary chunk of one value, under the sample runtime: the value is the
    content of its second buffer. *)
Definition sample_binary_chunk (bs : list byte) : Array :=
  ArrayData.Make BINARY 1 [None; Some (mkBuffer 7 bs)] 0.

Definition sample_binary_reader (chunks : list Array) : RecordReader.t :=
  RecordReader.mk 0 None None 0 true false (Some chunks) None.

(** Every element of the list is a byte. *)
Definition bytes_ok (bs : list byte) : Prop :=
  Forall (fun b => 0 <= b < 256) bs.

(** The reader a transfer leaves behind when it released the validity
    buffer or not. *)
Definition after_release_is_valid (released : bool) (reader : RecordReader.t)
    : RecordReader.t :=
  if released then snd (RecordReader.ReleaseIsValid reader) else reader.

Definition sample_int64_statistics (l : LogicalType.t) (min max : Z)
    : Statistics.t :=
  Statistics.mk true false 0
    (Some (ColumnDescriptor.mk ParquetType.INT64 l 0))
    (v_int min) (v_int max) (le_split 8 min) (le_split 8 max).

(** Statistics of a byte-array column whose encoded min and max are the
    given bytes. *)
Definition sample_bytes_statistics (p : ParquetType.t) (l : LogicalType.t)
    (type_length : Z) (min max : list byte) : Statistics.t :=
  Statistics.mk true false 0
    (Some (ColumnDescriptor.mk p l type_length))
    (v_bytes min) (v_bytes max) min max.

(** The physical types whose statistics hold byte strings. *)
Definition is_byte_array (p : ParquetType.t) : bool :=
  match p with
  | ParquetType.BYTE_ARRAY | ParquetType.FIXED_LEN_BYTE_ARRAY => true
  | _ => false
  end.

Definition is_decimal_logical (l : LogicalType.t) : bool :=
  match l with
  | LogicalType.DECIMAL _ _ => true
  | _ => false
  end.

(** The byte that pads a big-endian two's-complement number to a longer
    one: all ones when the top bit of its first byte is set. *)
Definition sign_fill (bs : list byte) : byte :=
  match bs with
  | b :: _ => if 128 <=? b then 255 else 0
  | [] => 0
  end.

(** A fixed-size binary chunk of [n] values of [w] bytes, under the sample
    runtime: every value is the content of its second buffer. *)
Definition sample_fixed_chunk (w n : Z) (bs : list byte) : Array :=
  ArrayData.Make (FIXED_SIZE_BINARY w) n [None; Some (mkBuffer 7 bs)] 0.

(** The columns whose transfer releases the reader's validity buffer: a
    nullable field of a target built from the reader's buffers, and a
    nullable field of a decimal target backed by int32 or int64 when the
    reader has nullable values. *)
Definition releases_validity (ty : DataType) (physical : ParquetType.t)
    (nullable nullable_values : bool) : bool :=
  if reader_backed ty then nullable
  else if is_decimal ty && is_Some_b (integer_c_type physical)
       then nullable_values && nullable
       else false.

(** The reader once the validity buffer, the value buffer or both have been
    released. *)
Definition reader_after (validity values : bool) (reader : RecordReader.t)
    : RecordReader.t :=
  let reader := after_release_is_valid validity reader in
  if values then snd (RecordReader.ReleaseValues reader) else reader.

(** A runtime whose arrays hold nothing but nulls, to run the conversions of
    null rows on. *)
Definition null_runtime : ArrowRuntime := {|
  Cast a ty _ := Ok a;
  Cast_chunked c ty := Ok c;
  View c ty := Ok c;
  Int96GetNanoSeconds v := 0;
  Int96GetMicroSeconds v := 0;
  Int96GetMilliSeconds v := 0;
  Int96GetSeconds v := 0;
  Decimal128Type_Make p s := Ok (DECIMAL128 p s);
  Decimal256Type_Make p s := Ok (DECIMAL256 p s);
  BinaryArray_GetValue a i := ([], 0);
  FixedSizeBinaryArray_GetValue a i := [];
  IsNull a i := true;
  NullArray n := ArrayData.Make NA n [None] n
|}.

(** A binary chunk of one null row. *)
Definition sample_null_chunk : Array :=
  ArrayData.Make BINARY 1 [Some (mkBuffer 8 [0]); Some (mkBuffer 7 [])] 1.

(** The datum is an array of the given type and length. *)
Definition array_of_shape (ty : DataType) (n : Z) (d : Datum) : Prop :=
  exists a, d = Datum_ARRAY a /\ ArrayData.type a = ty /\ ArrayData.length a = n.

(** The columns whose values are copied into a new array that is built
    without the statistics of the chunk: the 64-bit dates and the
    timestamps stored as 96-bit values. *)
Definition copied_without_statistics (ty : DataType) (physical : ParquetType.t)
    : bool :=
  match ty, physical with
  | DATE64, _ => true
  | TIMESTAMP _, ParquetType.INT96 => true
  | _, _ => false
  end.

(** The datum is an array whose value buffer came from the pool. *)
Definition array_from_pool (pool : MemoryPool) (d : Datum) : Prop :=
  exists a data,
    d = Datum_ARRAY a /\ ArrayData.buffer a 1 = Some data /\
    buf_id data = pool_fresh_id pool.

(** The datum is an array that carries statistics, or one that does not. *)
Definition array_with_statistics (present : bool) (d : Datum) : Prop :=
  exists a, d = Datum_ARRAY a /\ is_Some_b (ArrayData.statistics a) = present.

(** * Properties *)

(** ** Loops *)

Lemma indices_succ (n : Z) : 0 <= n -> indices (n + 1) = indices n ++ [n].
Proof.
  intros Hn. unfold indices.
  replace (Z.to_nat (n + 1)) with (S (Z.to_nat n)) by lia.
  rewrite seq_S, map_app. simpl. rewrite Z2Nat.id by lia. reflexivity.
Qed.

Lemma for_range_succ {St} (n : Z) (body : Z -> St -> St) (s : St) :
  0 <= n -> for_range (n + 1) body s = body n (for_range n body s).
Proof.
  intros Hn. unfold for_range. rewrite indices_succ by assumption.
  rewrite fold_left_app. reflexivity.
Qed.

Lemma for_range_nonpos {St} (n : Z) (body : Z -> St -> St) (s : St) :
  n <= 0 -> for_range n body s = s.
Proof.
  intros Hn. unfold for_range, indices.
  replace (Z.to_nat n) with 0%nat by lia. reflexivity.
Qed.

(** Loop invariant rule: [P k s] is what holds after [k] iterations. *)
Lemma for_range_invariant {St} (P : Z -> St -> Prop) (n : Z)
    (body : Z -> St -> St) (s : St) :
  0 <= n ->
  P 0 s ->
  (forall i acc, 0 <= i < n -> P i acc -> P (i + 1) (body i acc)) ->
  P n (for_range n body s).
Proof.
  intros Hn H0 Hstep.
  assert (Hall : forall k : nat, Z.of_nat k <= n ->
                   P (Z.of_nat k) (for_range (Z.of_nat k) body s)).
  { induction k as [|k IH]; intros Hk.
    - rewrite for_range_nonpos by reflexivity. exact H0.
    - replace (Z.of_nat (S k)) with (Z.of_nat k + 1) by lia.
      rewrite for_range_succ by lia. apply Hstep; [lia | apply IH; lia]. }
  specialize (Hall (Z.to_nat n)). rewrite Z2Nat.id in Hall by assumption.
  apply Hall. lia.
Qed.

Lemma for_range_result_succ {St} (n : Z) (body : Z -> St -> Result St) (s : St) :
  0 <= n ->
  for_range_result (n + 1) body s = for_range_result n body s ≫= body n.
Proof.
  intros Hn. unfold for_range_result. rewrite indices_succ by assumption.
  rewrite fold_left_app. reflexivity.
Qed.

Lemma for_range_result_nonpos {St} (n : Z) (body : Z -> St -> Result St) (s : St) :
  n <= 0 -> for_range_result n body s = Ok s.
Proof.
  intros Hn. unfold for_range_result, indices.
  replace (Z.to_nat n) with 0%nat by lia. reflexivity.
Qed.

(** ** Bytes *)

Lemma length_le_split (n : nat) (v : Z) : List.length (le_split n v) = n.
Proof. revert v; induction n; intros; simpl; auto. Qed.

Lemma le_combine_split (n : nat) (v : Z) :
  le_combine (le_split n v) = v mod 2 ^ (8 * Z.of_nat n).
Proof.
  revert v; induction n as [|n IH]; intros v.
  - simpl. rewrite Z.mod_1_r. reflexivity.
  - cbn [le_split le_combine]. rewrite IH.
    replace (8 * Z.of_nat (S n)) with (8 + 8 * Z.of_nat n) by lia.
    rewrite Z.pow_add_r by lia. change (2 ^ 8) with 256.
    rewrite Z.rem_mul_r by lia. lia.
Qed.

Lemma length_write_bytes (bs : list byte) (off : Z) (new : list byte) :
  List.length (write_bytes bs off new) = List.length bs.
Proof. apply length_inserts. Qed.

Lemma read_write_same (bs : list byte) (off : Z) (new : list byte) :
  0 <= off ->
  (Z.to_nat off + List.length new <= List.length bs)%nat ->
  read_bytes (write_bytes bs off new) off (List.length new) = new.
Proof.
  intros Hoff Hlen. unfold read_bytes, write_bytes.
  apply list_eq. intros j.
  destruct (decide (j < List.length new)%nat) as [Hj|Hj].
  - rewrite lookup_take_lt by assumption. rewrite lookup_drop.
    rewrite list_lookup_inserts by lia. f_equal. lia.
  - rewrite lookup_take_ge by lia. symmetry. apply lookup_ge_None. lia.
Qed.

Lemma read_write_other (bs : list byte) (off off' : Z) (new : list byte) (n : nat) :
  0 <= off -> 0 <= off' ->
  (Z.to_nat off' + n <= Z.to_nat off)%nat
  \/ (Z.to_nat off + List.length new <= Z.to_nat off')%nat ->
  read_bytes (write_bytes bs off new) off' n = read_bytes bs off' n.
Proof.
  intros Hoff Hoff' Hdisj. unfold read_bytes, write_bytes.
  apply list_eq. intros j.
  destruct (decide (j < n)%nat) as [Hj|Hj].
  - rewrite !lookup_take_lt by assumption. rewrite !lookup_drop.
    destruct Hdisj as [Hd|Hd].
    + apply list_lookup_inserts_lt. lia.
    + apply list_lookup_inserts_ge. lia.
  - rewrite !lookup_take_ge by lia. reflexivity.
Qed.

Lemma memset_all (bs : list byte) (c : byte) (n : Z) :
  List.length bs = Z.to_nat n ->
  memset bs 0 c n = replicate (Z.to_nat n) c.
Proof.
  intros Hlen. unfold memset, write_bytes. apply list_eq. intros j.
  change (Z.to_nat 0) with 0%nat.
  destruct (decide (j < Z.to_nat n)%nat) as [Hj|Hj].
  - rewrite list_lookup_inserts by (rewrite ?length_replicate; lia).
    f_equal. lia.
  - rewrite list_lookup_inserts_ge by (rewrite length_replicate; lia).
    rewrite !(proj2 (lookup_ge_None _ _)); auto;
      rewrite ?length_replicate; lia.
Qed.

(** ** Bitmaps *)

Lemma length_SetBit (bits : list byte) (i : Z) :
  List.length (SetBit bits i) = List.length bits.
Proof. unfold SetBit. apply length_insert. Qed.

Lemma GetBit_SetBit (bits : list byte) (i j : Z) :
  0 <= i -> 0 <= j ->
  (Z.to_nat (i / 8) < List.length bits)%nat ->
  GetBit (SetBit bits i) j = if j =? i then true else GetBit bits j.
Proof.
  intros Hi Hj Hlen. unfold GetBit, SetBit.
  assert (Hi8 : 0 <= i mod 8 < 8) by (apply Z.mod_pos_bound; lia).
  assert (Hj8 : 0 <= j mod 8 < 8) by (apply Z.mod_pos_bound; lia).
  pose proof (Z.div_mod i 8 ltac:(lia)) as Ei.
  pose proof (Z.div_mod j 8 ltac:(lia)) as Ej.
  pose proof (Z.div_pos i 8 Hi ltac:(lia)) as Hqi.
  pose proof (Z.div_pos j 8 Hj ltac:(lia)) as Hqj.
  rewrite !nth_lookup.
  destruct (decide (Z.to_nat (j / 8) = Z.to_nat (i / 8))) as [Heq|Hne].
  - rewrite Heq, list_lookup_insert_eq by assumption. simpl.
    rewrite Z.lor_spec, Z.shiftl_1_l, Z.pow2_bits_eqb by lia.
    assert (Hq : j / 8 = i / 8) by lia.
    destruct (Z.eqb_spec j i) as [->|Hji].
    + rewrite Z.eqb_refl. apply orb_true_r.
    + destruct (Z.eqb_spec (i mod 8) (j mod 8)) as [Hm|Hm]; [lia|].
      rewrite orb_false_r. reflexivity.
  - rewrite list_lookup_insert_ne by congruence.
    destruct (Z.eqb_spec j i) as [->|Hji]; [congruence | reflexivity].
Qed.

Lemma GetBit_replicate_0 (n : nat) (j : Z) : GetBit (replicate n 0) j = false.
Proof.
  unfold GetBit. rewrite nth_lookup.
  destruct (replicate n 0 !! Z.to_nat (j / 8)) as [b|] eqn:E; simpl.
  - apply lookup_replicate in E as [-> _]. apply Z.testbit_0_l.
  - apply Z.testbit_0_l.
Qed.

Lemma packed_bitmap_bits_nonneg (values : list byte) (length : Z) :
  0 <= length ->
  let bits := packed_bitmap values length
                (replicate (Z.to_nat (BytesForBits length)) 0) in
  List.length bits = Z.to_nat (BytesForBits length) /\
  forall j, 0 <= j ->
    GetBit bits j = (j <? length) && load_bool values j.
Proof.
  intros Hlen. cbv zeta. unfold packed_bitmap.
  apply (for_range_invariant
           (fun k bits =>
              List.length bits = Z.to_nat (BytesForBits length) /\
              forall j, 0 <= j -> GetBit bits j = (j <? k) && load_bool values j)).
  - assumption.
  - split; [apply length_replicate|].
    intros j Hj. rewrite GetBit_replicate_0.
    destruct (Z.ltb_spec j 0); [lia | reflexivity].
  - intros i acc Hi [Hl Hbits].
    assert (Hin : (Z.to_nat (i / 8) < List.length acc)%nat).
    { rewrite Hl. unfold BytesForBits.
      assert (i / 8 < (length + 7) / 8).
      { apply Z.div_lt_upper_bound; [lia|].
        pose proof (Z.mul_div_le (length + 7) 8 ltac:(lia)).
        pose proof (Z.mod_pos_bound (length + 7) 8 ltac:(lia)).
        pose proof (Z.div_mod (length + 7) 8 ltac:(lia)). lia. }
      pose proof (Z.div_pos i 8 ltac:(lia) ltac:(lia)). lia. }
    destruct (load_bool values i) eqn:Hv.
    + split; [rewrite length_SetBit; exact Hl|].
      intros j Hj. rewrite GetBit_SetBit by lia. rewrite Hbits by assumption.
      destruct (Z.eqb_spec j i) as [->|Hne].
      * rewrite Hv. destruct (Z.ltb_spec i (i + 1)); [reflexivity | lia].
      * destruct (Z.ltb_spec j i), (Z.ltb_spec j (i + 1)); try lia; reflexivity.
    + split; [exact Hl|].
      intros j Hj. rewrite Hbits by assumption.
      destruct (Z.eqb_spec j i) as [->|Hne].
      * rewrite Hv.
        destruct (Z.ltb_spec i i), (Z.ltb_spec i (i + 1)); try lia; reflexivity.
      * destruct (Z.ltb_spec j i), (Z.ltb_spec j (i + 1)); try lia; reflexivity.
Qed.

(** ** What [AttachStatistics] leaves alone *)

Lemma AttachStatistics_frame (c : CType) (data : ArrayData.t)
    (metadata : option ColumnChunkMetaData.t) (ctx : ReaderContext.t) :
  let data' := AttachStatistics c data metadata ctx in
  ArrayData.type data' = ArrayData.type data /\
  ArrayData.length data' = ArrayData.length data /\
  ArrayData.buffers data' = ArrayData.buffers data /\
  ArrayData.null_count data' = ArrayData.null_count data.
Proof.
  cbv zeta. unfold AttachStatistics.
  destruct metadata as [md|]; [|auto].
  destruct (_ && _); auto.
Qed.

Lemma AttachStatistics_buffer (c : CType) (data : ArrayData.t)
    (metadata : option ColumnChunkMetaData.t) (ctx : ReaderContext.t) (i : nat) :
  ArrayData.buffer (AttachStatistics c data metadata ctx) i
  = ArrayData.buffer data i.
Proof.
  unfold ArrayData.buffer.
  destruct (AttachStatistics_frame c data metadata ctx) as (_ & _ & -> & _).
  reflexivity.
Qed.

Lemma AttachStatistics_length (c : CType) (data : ArrayData.t)
    (metadata : option ColumnChunkMetaData.t) (ctx : ReaderContext.t) :
  ArrayData.length (AttachStatistics c data metadata ctx) = ArrayData.length data.
Proof. apply AttachStatistics_frame. Qed.

Lemma AttachStatistics_null_count (c : CType) (data : ArrayData.t)
    (metadata : option ColumnChunkMetaData.t) (ctx : ReaderContext.t) :
  ArrayData.null_count (AttachStatistics c data metadata ctx)
  = ArrayData.null_count data.
Proof. apply AttachStatistics_frame. Qed.

(** ** Allocation *)

Lemma AllocateBuffer_Ok (size : Z) (pool : MemoryPool) (b : Buffer) :
  AllocateBuffer size pool = Ok b ->
  0 <= size /\ List.length (buf_bytes b) = Z.to_nat size.
Proof.
  unfold AllocateBuffer. intros H.
  destruct (Z.ltb_spec size 0); [discriminate|].
  destruct (pool_capacity pool <? size); [discriminate|].
  injection H as <-. simpl. rewrite length_map, length_seq. auto.
Qed.

Lemma packed_bitmap_bits (values : list byte) (length : Z) :
  let bits := packed_bitmap values length
                (replicate (Z.to_nat (BytesForBits length)) 0) in
  List.length bits = Z.to_nat (BytesForBits length) /\
  forall j, 0 <= j ->
    GetBit bits j = (j <? length) && load_bool values j.
Proof.
  destruct (Z.le_gt_cases 0 length) as [Hle|Hgt].
  - apply packed_bitmap_bits_nonneg. assumption.
  - cbv zeta. unfold packed_bitmap. rewrite for_range_nonpos by lia.
    split; [apply length_replicate|].
    intros j Hj. rewrite GetBit_replicate_0.
    destruct (Z.ltb_spec j length); [lia | reflexivity].
Qed.

(** ** The boolean transfer *)

Lemma TransferBool_result (reader : RecordReader.t)
    (metadata : option ColumnChunkMetaData.t) (ctx : ReaderContext.t)
    (nullable : bool) (data0 : Buffer) :
  let length := RecordReader.values_written reader in
  AllocateBuffer (BytesForBits length) (ReaderContext.pool ctx) = Ok data0 ->
  exists array reader',
    TransferBool reader metadata ctx nullable = Ok (Datum_ARRAY array, reader') /\
    ArrayData.length array = length /\
    ArrayData.buffer array 1 =
      Some (with_bytes data0
              (packed_bitmap (RecordReader.values_bytes reader) length
                 (replicate (Z.to_nat (BytesForBits length)) 0))).
Proof.
  cbv zeta. intros Halloc. unfold TransferBool. rewrite Halloc.
  destruct (AllocateBuffer_Ok _ _ _ Halloc) as [Hsize Hlen].
  cbv beta iota zeta delta [mbind Result_bind].
  rewrite (memset_all _ _ _ Hlen).
  fold (packed_bitmap (RecordReader.values_bytes reader)
          (RecordReader.values_written reader)
          (replicate (Z.to_nat (BytesForBits (RecordReader.values_written reader))) 0)).
  destruct nullable; cbn [RecordReader.ReleaseIsValid];
    (do 2 eexists); (split; [reflexivity|]); unfold MakeArray;
    rewrite AttachStatistics_buffer, AttachStatistics_length;
    split; reflexivity.
Qed.

(** C3.  For a boolean column of [N] values, the reader holding one byte per
    value, [TransferBool] produces a packed bitmap in which, for every index
    [i < N], bit [i] is set if and only if the reader's value at position
    [i] is true; the bitmap is the same whether or not the field is
    nullable.  (The transfer returns as soon as the buffer of
    [BytesForBits(N)] bytes is allocated.) *)
Theorem TransferBool_packs_values (reader : RecordReader.t)
    (metadata : option ColumnChunkMetaData.t) (ctx : ReaderContext.t)
    (nullable : bool) (data0 : Buffer) :
  AllocateBuffer (BytesForBits (RecordReader.values_written reader))
    (ReaderContext.pool ctx) = Ok data0 ->
  exists array reader' data,
    TransferBool reader metadata ctx nullable = Ok (Datum_ARRAY array, reader') /\
    ArrayData.length array = RecordReader.values_written reader /\
    ArrayData.buffer array 1 = Some data /\
    (forall i, 0 <= i < RecordReader.values_written reader ->
       GetBit (buf_bytes data) i = load_bool (RecordReader.values_bytes reader) i) /\
    value_bytes (TransferBool reader metadata ctx (negb nullable))
    = Some (buf_bytes data).
Proof.
  intros Halloc.
  destruct (TransferBool_result reader metadata ctx nullable data0 Halloc)
    as (array & reader' & Hrun & Hlen & Hbuf).
  destruct (TransferBool_result reader metadata ctx (negb nullable) data0 Halloc)
    as (array2 & reader2 & Hrun2 & _ & Hbuf2).
  exists array, reader'. eexists. repeat split; try eassumption.
  - intros i Hi. cbn [buf_bytes with_bytes].
    destruct (packed_bitmap_bits (RecordReader.values_bytes reader)
                (RecordReader.values_written reader)) as [_ Hbits].
    rewrite Hbits by lia.
    destruct (Z.ltb_spec i (RecordReader.values_written reader)); [reflexivity | lia].
  - rewrite Hrun2. unfold value_bytes. rewrite Hbuf2. reflexivity.
Qed.

Lemma TransferBool_packs_values_witness :
  exists array reader' data,
    TransferBool (sample_reader 4 [1; 0; 1; 1] 0) None sample_ctx false
    = Ok (Datum_ARRAY array, reader') /\
    ArrayData.length array = 4 /\
    ArrayData.buffer array 1 = Some data /\
    (forall i, 0 <= i < 4 ->
       GetBit (buf_bytes data) i = load_bool [1; 0; 1; 1] i) /\
    value_bytes (TransferBool (sample_reader 4 [1; 0; 1; 1] 0) None sample_ctx true)
    = Some (buf_bytes data).
Proof.
  apply (TransferBool_packs_values (sample_reader 4 [1; 0; 1; 1] 0) None
           sample_ctx false
           (mkBuffer 1000 [170])).
  reflexivity.
Defined.

(** The example of the spec: [true, false, true, true] packs to one byte
    with bits 0, 2 and 3 set. *)
Example TransferBool_example :
  value_bytes (TransferBool (sample_reader 4 [1; 0; 1; 1] 0) None sample_ctx true)
  = Some [13].
Proof. reflexivity. Qed.

(** C10.  For a boolean column of [N] values, the produced bitmap has
    [BytesForBits(N)] bytes and every bit of it at an index greater than or
    equal to [N] (the padding of the last byte) is zero: the buffer is
    zeroed before any bit is set. *)
Theorem TransferBool_padding_zero (reader : RecordReader.t)
    (metadata : option ColumnChunkMetaData.t) (ctx : ReaderContext.t)
    (nullable : bool) (data0 : Buffer) :
  AllocateBuffer (BytesForBits (RecordReader.values_written reader))
    (ReaderContext.pool ctx) = Ok data0 ->
  exists array reader' data,
    TransferBool reader metadata ctx nullable = Ok (Datum_ARRAY array, reader') /\
    ArrayData.buffer array 1 = Some data /\
    List.length (buf_bytes data)
    = Z.to_nat (BytesForBits (RecordReader.values_written reader)) /\
    forall i, 0 <= i -> RecordReader.values_written reader <= i ->
      GetBit (buf_bytes data) i = false.
Proof.
  intros Halloc.
  destruct (TransferBool_result reader metadata ctx nullable data0 Halloc)
    as (array & reader' & Hrun & Hlen & Hbuf).
  exists array, reader'. eexists. repeat split; try eassumption.
  - cbn [buf_bytes with_bytes]. apply packed_bitmap_bits.
  - intros i Hi HN. cbn [buf_bytes with_bytes].
    destruct (packed_bitmap_bits (RecordReader.values_bytes reader)
                (RecordReader.values_written reader)) as [_ Hbits].
    rewrite Hbits by lia.
    destruct (Z.ltb_spec i (RecordReader.values_written reader)); [lia | reflexivity].
Qed.

Lemma TransferBool_padding_zero_witness :
  exists array reader' data,
    TransferBool (sample_reader 11 [1; 0; 1; 1; 0; 0; 0; 0; 1; 1; 1] 0) None
      sample_ctx true
    = Ok (Datum_ARRAY array, reader') /\
    ArrayData.buffer array 1 = Some data /\
    List.length (buf_bytes data) = Z.to_nat (BytesForBits 11) /\
    forall i, 0 <= i -> 11 <= i -> GetBit (buf_bytes data) i = false.
Proof.
  apply (TransferBool_padding_zero
           (sample_reader 11 [1; 0; 1; 1; 0; 0; 0; 0; 1; 1; 1] 0) None
           sample_ctx true (mkBuffer 1000 [170; 171])).
  reflexivity.
Defined.

(** ** Wrap-around *)

Lemma wrap_signed_range (bits v : Z) :
  0 < bits -> - 2 ^ (bits - 1) <= wrap_signed bits v < 2 ^ (bits - 1).
Proof.
  intros Hb. unfold wrap_signed.
  assert (H2 : 2 ^ bits = 2 * 2 ^ (bits - 1)).
  { replace bits with (1 + (bits - 1)) at 1 by lia.
    rewrite Z.pow_add_r by lia. reflexivity. }
  assert (Hp : 0 < 2 ^ (bits - 1)) by (apply Z.pow_pos_nonneg; lia).
  pose proof (Z.mod_pos_bound (v + 2 ^ (bits - 1)) (2 ^ bits) ltac:(lia)). lia.
Qed.

Lemma wrap_signed_id (bits v : Z) :
  0 < bits -> - 2 ^ (bits - 1) <= v < 2 ^ (bits - 1) -> wrap_signed bits v = v.
Proof.
  intros Hb Hv. unfold wrap_signed.
  assert (H2 : 2 ^ bits = 2 * 2 ^ (bits - 1)).
  { replace bits with (1 + (bits - 1)) at 1 by lia.
    rewrite Z.pow_add_r by lia. reflexivity. }
  rewrite Z.mod_small by lia. lia.
Qed.

Lemma wrap_signed_mod (bits v : Z) :
  0 < bits -> wrap_signed bits (v mod 2 ^ bits) = wrap_signed bits v.
Proof.
  intros Hb. unfold wrap_signed.
  assert (Hp : 0 < 2 ^ bits) by (apply Z.pow_pos_nonneg; lia).
  rewrite Z.add_mod_idemp_l by lia. reflexivity.
Qed.

(** A stored integer, read back as a signed one. *)
Lemma le_split_signed (n : nat) (v : Z) :
  (0 < n)%nat ->
  wrap_signed (8 * Z.of_nat n) (le_combine (le_split n v))
  = wrap_signed (8 * Z.of_nat n) v.
Proof.
  intros Hn. rewrite le_combine_split. apply wrap_signed_mod. lia.
Qed.

(** ** Loops that fill a buffer slot by slot *)

Lemma for_range_ext {St} (n : Z) (body body' : Z -> St -> St) (s : St) :
  (forall i acc, 0 <= i < n -> body i acc = body' i acc) ->
  for_range n body s = for_range n body' s.
Proof.
  intros Hext.
  destruct (Z.le_gt_cases 0 n) as [Hn|Hn];
    [|rewrite !for_range_nonpos by lia; reflexivity].
  apply (for_range_invariant
           (fun k acc => k <= n -> acc = for_range k body' s) n body s Hn).
  - intros _. rewrite for_range_nonpos by lia. reflexivity.
  - intros i acc Hi IH _. rewrite for_range_succ by lia.
    rewrite IH by lia. apply Hext. lia.
  - lia.
Qed.

(** After the loop [for i < n: write slot i], every slot holds what was
    written to it. *)
Lemma write_loop_read (w : nat) (g : Z -> list byte) (n : Z) (bs0 : list byte) :
  (forall i, List.length (g i) = w) ->
  List.length bs0 = Z.to_nat (n * Z.of_nat w) ->
  let out := for_range n
               (fun i out => write_bytes out (i * Z.of_nat w) (g i)) bs0 in
  List.length out = List.length bs0 /\
  forall i, 0 <= i < n -> read_bytes out (i * Z.of_nat w) w = g i.
Proof.
  intros Hg Hlen. cbv zeta.
  destruct (Z.le_gt_cases 0 n) as [Hn|Hn].
  2:{ rewrite for_range_nonpos by lia. split; [reflexivity | intros; lia]. }
  apply (for_range_invariant
           (fun k out =>
              List.length out = List.length bs0 /\
              forall i, 0 <= i < k -> read_bytes out (i * Z.of_nat w) w = g i)).
  - assumption.
  - split; [reflexivity | intros; lia].
  - intros k acc Hk [Hl Hread]. split.
    + rewrite length_write_bytes. exact Hl.
    + intros i Hi. destruct (Z.eq_dec i k) as [->|Hne].
      * pose proof (read_write_same acc (k * Z.of_nat w) (g k)) as Hsame.
        rewrite Hg in Hsame. apply Hsame; [nia|].
        rewrite Hl, Hlen. nia.
      * rewrite read_write_other; [apply Hread; lia | nia | nia |].
        left. nia.
Qed.

Lemma store_loop_load (width : nat) (f : Z -> Z) (n : Z) (bs0 : list byte) :
  (0 < width)%nat ->
  List.length bs0 = Z.to_nat (n * Z.of_nat width) ->
  let out := for_range n (fun i out => store_int width out i (f i)) bs0 in
  List.length out = List.length bs0 /\
  forall i, 0 <= i < n ->
    load_unsigned width out i = f i mod 2 ^ (8 * Z.of_nat width) /\
    load_signed width out i = wrap_signed (8 * Z.of_nat width) (f i).
Proof.
  intros Hw Hlen. cbv zeta.
  rewrite (for_range_ext n _
             (fun i out => write_bytes out (i * Z.of_nat width)
                             (le_split width (f i)))).
  2:{ intros i acc _. unfold store_int, store_int_at.
      rewrite (Z.mul_comm (Z.of_nat width) i). reflexivity. }
  destruct (write_loop_read width (fun i => le_split width (f i)) n bs0
              (fun i => length_le_split width (f i)) Hlen) as [Hl Hread].
  split; [exact Hl|].
  intros i Hi. unfold load_signed, load_unsigned.
  rewrite (Z.mul_comm (Z.of_nat width) i), (Hread i Hi).
  split; [apply le_combine_split | apply le_split_signed; assumption].
Qed.

(** ** The 64-bit date transfer *)

(** C4.  For a 64-bit date column, for every position [i < N] the transfer
    writes the 64-bit value [d * 86400000], [d] being the 32-bit day count
    the reader holds at position [i].  No day count makes the transfer
    fail: nothing guards the multiplication, and it needs none, since the
    product of a 32-bit value and 86400000 fits 64 bits. *)
Theorem TransferDate64_values (reader : RecordReader.t)
    (pool : MemoryPool) (field : Field.t) (data0 : Buffer) :
  AllocateBuffer (RecordReader.values_written reader * 8) pool = Ok data0 ->
  exists array reader' data,
    TransferDate64 reader pool field = Ok (Datum_ARRAY array, reader') /\
    ArrayData.length array = RecordReader.values_written reader /\
    ArrayData.buffer array 1 = Some data /\
    forall i, 0 <= i < RecordReader.values_written reader ->
      load_signed 8 (buf_bytes data) i
      = load_signed 4 (RecordReader.values_bytes reader) i * 86400000.
Proof.
  intros Halloc. unfold TransferDate64.
  change (sizeof int64_t) with 8. rewrite Halloc.
  cbv beta iota zeta delta [mbind Result_bind].
  destruct (AllocateBuffer_Ok _ _ _ Halloc) as [Hsize Hlen].
  set (f := fun i : Z =>
              wrap_signed 64
                (static_cast_int 64 true
                   (load_c int32_t (RecordReader.values_bytes reader) i)
                 * kMillisecondsPerDay)).
  change (store_c int64_t) with (store_int 8).
  destruct (store_loop_load 8 f (RecordReader.values_written reader)
              (buf_bytes data0) ltac:(lia) Hlen) as [_ Hload].
  cbv zeta in Hload.
  assert (Hval : forall i, 0 <= i < RecordReader.values_written reader ->
            load_signed 8
              (for_range (RecordReader.values_written reader)
                 (fun i out => store_int 8 out i (f i)) (buf_bytes data0)) i
            = load_signed 4 (RecordReader.values_bytes reader) i * 86400000).
  { intros i Hi. destruct (Hload i Hi) as [_ ->]. unfold f.
    change (load_c int32_t) with (load_signed 4).
    assert (Hd : - 2147483648
                 <= load_signed 4 (RecordReader.values_bytes reader) i
                 < 2147483648).
    { unfold load_signed. apply (wrap_signed_range 32). lia. }
    change (8 * Z.of_nat 8) with 64.
    unfold static_cast_int, kMillisecondsPerDay.
    set (d := load_signed 4 (RecordReader.values_bytes reader) i) in *.
    clearbody d.
    rewrite (wrap_signed_id 64 d)
      by (change (2 ^ (64 - 1)) with 9223372036854775808; lia).
    rewrite !(wrap_signed_id 64 (d * 86400000))
      by (change (2 ^ (64 - 1)) with 9223372036854775808; lia).
    reflexivity. }
  destruct (Field.nullable field); cbn [RecordReader.ReleaseIsValid];
    (do 3 eexists); (split; [reflexivity|]);
    (split; [reflexivity|]); (split; [reflexivity|]); exact Hval.
Qed.

Lemma TransferDate64_values_witness :
  exists array reader' data,
    TransferDate64 (sample_reader 2 [1; 0; 0; 0; 255; 255; 255; 255] 0)
      sample_pool (Field.mk DATE64 true)
    = Ok (Datum_ARRAY array, reader') /\
    ArrayData.length array = 2 /\
    ArrayData.buffer array 1 = Some data /\
    forall i, 0 <= i < 2 ->
      load_signed 8 (buf_bytes data) i
      = load_signed 4 [1; 0; 0; 0; 255; 255; 255; 255] i * 86400000.
Proof.
  apply (TransferDate64_values (sample_reader 2 [1; 0; 0; 0; 255; 255; 255; 255] 0)
           sample_pool (Field.mk DATE64 true)
           (mkBuffer 1000 (map (fun k => (170 + Z.of_nat k) mod 256) (seq 0 16)))).
  reflexivity.
Defined.

(** One day and the day before the epoch. *)
Example TransferDate64_example :
  value_bytes (TransferDate64 (sample_reader 2 [1; 0; 0; 0; 255; 255; 255; 255] 0)
                 sample_pool (Field.mk DATE64 true))
  = Some (le_split 8 86400000 ++ le_split 8 (-86400000)).
Proof. reflexivity. Qed.

(** ** The legacy 96-bit timestamps *)

(** C5.  For every 96-bit timestamp the reader holds at a position
    [i < N]: if its third word (the high one) is zero the transfer writes
    the 64-bit value zero, whatever the calendar arithmetic would give;
    otherwise it writes the result of the conversion to the requested unit,
    [Int96GetNanoSeconds], [Int96GetMicroSeconds], [Int96GetMilliSeconds] or
    [Int96GetSeconds], as a 64-bit value. *)
Theorem TransferInt96_values `{RT : ArrowRuntime} (reader : RecordReader.t)
    (pool : MemoryPool) (field : Field.t) (unit : TimeUnit.type)
    (data0 : Buffer) :
  AllocateBuffer (RecordReader.values_written reader * 8) pool = Ok data0 ->
  exists array reader' data,
    TransferInt96 reader pool field unit = Ok (Datum_ARRAY array, reader') /\
    ArrayData.length array = RecordReader.values_written reader /\
    ArrayData.buffer array 1 = Some data /\
    forall i, 0 <= i < RecordReader.values_written reader ->
      let v := load_Int96 (RecordReader.values_bytes reader) i in
      load_signed 8 (buf_bytes data) i
      = if Int96_word v 2 =? 0 then 0
        else wrap_signed 64
               match unit with
               | TimeUnit.NANO => Int96GetNanoSeconds v
               | TimeUnit.MICRO => Int96GetMicroSeconds v
               | TimeUnit.MILLI => Int96GetMilliSeconds v
               | TimeUnit.SECOND => Int96GetSeconds v
               end.
Proof.
  intros Halloc. unfold TransferInt96.
  change (sizeof int64_t) with 8. rewrite Halloc.
  cbv beta iota zeta delta [mbind Result_bind].
  destruct (AllocateBuffer_Ok _ _ _ Halloc) as [Hsize Hlen].
  set (f := fun i : Z =>
              let v := load_Int96 (RecordReader.values_bytes reader) i in
              if Int96_word v 2 =? 0 then 0
              else match unit with
                   | TimeUnit.NANO => Int96GetNanoSeconds v
                   | TimeUnit.MICRO => Int96GetMicroSeconds v
                   | TimeUnit.MILLI => Int96GetMilliSeconds v
                   | TimeUnit.SECOND => Int96GetSeconds v
                   end).
  change (store_c int64_t) with (store_int 8).
  rewrite (for_range_ext (RecordReader.values_written reader) _
             (fun i out => store_int 8 out i (f i))).
  2:{ intros i acc _. unfold f. cbv zeta.
      destruct (Int96_word _ 2 =? 0); [reflexivity|].
      destruct unit; reflexivity. }
  destruct (store_loop_load 8 f (RecordReader.values_written reader)
              (buf_bytes data0) ltac:(lia) Hlen) as [_ Hload].
  cbv zeta in Hload.
  assert (Hval : forall i, 0 <= i < RecordReader.values_written reader ->
            let v := load_Int96 (RecordReader.values_bytes reader) i in
            load_signed 8
              (for_range (RecordReader.values_written reader)
                 (fun i out => store_int 8 out i (f i)) (buf_bytes data0)) i
            = if Int96_word v 2 =? 0 then 0
              else wrap_signed 64
                     match unit with
                     | TimeUnit.NANO => Int96GetNanoSeconds v
                     | TimeUnit.MICRO => Int96GetMicroSeconds v
                     | TimeUnit.MILLI => Int96GetMilliSeconds v
                     | TimeUnit.SECOND => Int96GetSeconds v
                     end).
  { intros i Hi. cbv zeta. destruct (Hload i Hi) as [_ ->]. unfold f. cbv zeta.
    change (8 * Z.of_nat 8) with 64.
    destruct (Int96_word _ 2 =? 0); reflexivity. }
  destruct (Field.nullable field); cbn [RecordReader.ReleaseIsValid];
    (do 3 eexists); (split; [reflexivity|]);
    (split; [reflexivity|]); (split; [reflexivity|]); exact Hval.
Qed.

Lemma TransferInt96_values_witness :
  exists array reader' data,
    TransferInt96
      (sample_reader 2 [0; 0; 0; 0; 0; 0; 0; 0; 0; 0; 0; 0;
                        1; 0; 0; 0; 0; 0; 0; 0; 141; 61; 37; 0] 0)
      sample_pool (Field.mk (TIMESTAMP TimeUnit.NANO) true) TimeUnit.NANO
    = Ok (Datum_ARRAY array, reader') /\
    ArrayData.length array = 2 /\
    ArrayData.buffer array 1 = Some data /\
    forall i, 0 <= i < 2 ->
      let v := load_Int96 [0; 0; 0; 0; 0; 0; 0; 0; 0; 0; 0; 0;
                           1; 0; 0; 0; 0; 0; 0; 0; 141; 61; 37; 0] i in
      load_signed 8 (buf_bytes data) i
      = if Int96_word v 2 =? 0 then 0
        else wrap_signed 64 (Int96GetNanoSeconds v).
Proof.
  apply (TransferInt96_values
           (sample_reader 2 [0; 0; 0; 0; 0; 0; 0; 0; 0; 0; 0; 0;
                             1; 0; 0; 0; 0; 0; 0; 0; 141; 61; 37; 0] 0)
           sample_pool (Field.mk (TIMESTAMP TimeUnit.NANO) true) TimeUnit.NANO
           (mkBuffer 1000 (map (fun k => (170 + Z.of_nat k) mod 256) (seq 0 16)))).
  reflexivity.
Defined.

(** A null slot (all words zero) and one nanosecond into the day after the
    Unix epoch, under the sample runtime. *)
Example TransferInt96_example :
  value_bytes
    (TransferInt96
       (sample_reader 2 [0; 0; 0; 0; 0; 0; 0; 0; 0; 0; 0; 0;
                         1; 0; 0; 0; 0; 0; 0; 0; 141; 61; 37; 0] 0)
       sample_pool (Field.mk (TIMESTAMP TimeUnit.NANO) true) TimeUnit.NANO)
  = Some (le_split 8 0 ++ le_split 8 86400000000001).
Proof. vm_compute. reflexivity. Qed.

(** ** Decimals from integers *)

Lemma decimal_size_cases (k : DecimalKind) :
  decimal_size k = 16 \/ decimal_size k = 32.
Proof. destruct k; auto. Qed.

Lemma length_ToBytes (k : DecimalKind) (t : Z) :
  List.length (ToBytes k t) = Z.to_nat (decimal_size k).
Proof. apply length_le_split. Qed.

(** [ToBytes] keeps the integer: decoding the bytes as a little-endian
    two's-complement number gives it back. *)
Lemma le_signed_ToBytes (k : DecimalKind) (t : Z) :
  - 2 ^ (8 * decimal_size k - 1) <= t < 2 ^ (8 * decimal_size k - 1) ->
  le_signed (ToBytes k t) = t.
Proof.
  intros Ht. unfold le_signed. rewrite length_ToBytes. unfold ToBytes.
  pose proof (decimal_size_cases k) as Hk.
  rewrite le_split_signed by lia.
  rewrite Z2Nat.id by lia.
  apply wrap_signed_id; [lia | assumption].
Qed.

Lemma load_c_integer_range (E : CType) (bs : list byte) (i : Z) :
  E = int32_t \/ E = int64_t ->
  - 2 ^ 63 <= load_c E bs i < 2 ^ 63.
Proof.
  intros [-> | ->]; unfold load_c, int32_t, int64_t, load_signed.
  - pose proof (wrap_signed_range 32 (load_unsigned 4 bs i) ltac:(lia)) as H.
    change (Z.to_nat (32 / 8)) with 4%nat. change (8 * Z.of_nat 4) with 32.
    change (2 ^ (32 - 1)) with 2147483648 in H. lia.
  - pose proof (wrap_signed_range 64 (load_unsigned 8 bs i) ltac:(lia)) as H.
    change (Z.to_nat (64 / 8)) with 8%nat. change (8 * Z.of_nat 8) with 64.
    change (2 ^ (64 - 1)) with (2 ^ 63) in H. lia.
Qed.

Lemma DecimalIntegerTransfer_result `{RT : ArrowRuntime} (k : DecimalKind)
    (E : CType) (reader : RecordReader.t) (pool : MemoryPool)
    (field : Field.t) (data0 : Buffer) :
  E = int32_t \/ E = int64_t ->
  byte_width (Field.type field) = decimal_size k ->
  AllocateBuffer (RecordReader.values_written reader * decimal_size k) pool
  = Ok data0 ->
  exists array reader' data,
    DecimalIntegerTransfer k E reader pool field = Ok (Datum_ARRAY array, reader') /\
    ArrayData.type array = Field.type field /\
    ArrayData.length array = RecordReader.values_written reader /\
    ArrayData.buffer array 1 = Some data /\
    forall i, 0 <= i < RecordReader.values_written reader ->
      read_bytes (buf_bytes data) (i * decimal_size k) (Z.to_nat (decimal_size k))
      = ToBytes k (load_c E (RecordReader.values_bytes reader) i).
Proof.
  intros HE Hw Halloc. unfold DecimalIntegerTransfer.
  rewrite Hw, Halloc.
  cbv beta iota zeta delta [mbind Result_bind].
  destruct (AllocateBuffer_Ok _ _ _ Halloc) as [Hsize Hlen].
  set (g := fun i : Z => ToBytes k (load_c E (RecordReader.values_bytes reader) i)).
  rewrite (for_range_ext (RecordReader.values_written reader) _
             (fun i out => write_bytes out
                             (i * Z.of_nat (Z.to_nat (decimal_size k))) (g i))).
  2:{ intros i acc _. unfold g, static_cast_int.
      rewrite Z2Nat.id by (pose proof (decimal_size_cases k); lia).
      rewrite wrap_signed_id; [reflexivity | lia |].
      change (2 ^ (64 - 1)) with (2 ^ 63).
      apply load_c_integer_range. assumption. }
  destruct (write_loop_read (Z.to_nat (decimal_size k)) g
              (RecordReader.values_written reader) (buf_bytes data0)) as [_ Hread].
  { intros i. apply length_ToBytes. }
  { rewrite Z2Nat.id by (pose proof (decimal_size_cases k); lia). exact Hlen. }
  cbv zeta in Hread. rewrite Z2Nat.id in Hread by (pose proof (decimal_size_cases k); lia).
  destruct (RecordReader.nullable_values reader && Field.nullable field);
    cbn [RecordReader.ReleaseIsValid];
    (do 3 eexists); (split; [reflexivity|]); (split; [reflexivity|]);
    (split; [reflexivity|]); (split; [reflexivity|]);
    rewrite Z2Nat.id by (pose proof (decimal_size_cases k); lia); exact Hread.
Qed.

(** C7.  For a decimal column (128-bit or 256-bit target) backed by the
    int32 or int64 physical encoding, the transfer writes, at every
    position [i < N], the byte layout ([ToBytes]) of the decimal built from
    the stored integer [v] alone: the integer the bytes denote is [v]
    itself, whatever the scale, which only occurs in the type of the
    produced array. *)
Theorem DecimalIntegerTransfer_values `{RT : ArrowRuntime}
    (reader : RecordReader.t) (metadata : option ColumnChunkMetaData.t)
    (nullable : bool) (descr : ColumnDescriptor.t) (ctx : ReaderContext.t)
    (k : DecimalKind) (precision scale : Z) (E : CType) (data0 : Buffer) :
  integer_c_type (ColumnDescriptor.physical_type descr) = Some E ->
  AllocateBuffer (RecordReader.values_written reader * decimal_size k)
    (ReaderContext.pool ctx) = Ok data0 ->
  exists array reader' data,
    TransferColumnData reader metadata
      (Field.mk (decimal_type k precision scale) nullable) descr ctx
    = Ok (Some (ChunkedArray.of_array array), reader') /\
    ArrayData.type array = decimal_type k precision scale /\
    ArrayData.buffer array 1 = Some data /\
    forall i, 0 <= i < RecordReader.values_written reader ->
      let v := load_c E (RecordReader.values_bytes reader) i in
      read_bytes (buf_bytes data) (i * decimal_size k) (Z.to_nat (decimal_size k))
      = ToBytes k v /\
      le_signed (ToBytes k v) = v.
Proof.
  intros HE Halloc.
  assert (HE' : E = int32_t \/ E = int64_t).
  { destruct (ColumnDescriptor.physical_type descr); simpl in HE;
      try discriminate; injection HE as <-; auto. }
  assert (Hw : byte_width (Field.type (Field.mk (decimal_type k precision scale)
                                         nullable)) = decimal_size k)
    by (destruct k; reflexivity).
  destruct (DecimalIntegerTransfer_result k E reader (ReaderContext.pool ctx)
              (Field.mk (decimal_type k precision scale) nullable) data0
              HE' Hw Halloc)
    as (array & reader' & data & Hrun & Hty & _ & Hbuf & Hread).
  exists array, reader', data. repeat split.
  - unfold TransferColumnData.
    destruct k, (ColumnDescriptor.physical_type descr); simpl in HE;
      try discriminate; injection HE as <-;
      cbn [Field.type decimal_type]; cbn [decimal_type] in Hrun;
      rewrite Hrun; reflexivity.
  - exact Hty.
  - exact Hbuf.
  - apply Hread. assumption.
  - apply le_signed_ToBytes.
    pose proof (load_c_integer_range E (RecordReader.values_bytes reader) i HE').
    destruct k; simpl;
      [change (2 ^ 127) with (2 ^ 63 * 2 ^ 64)
      |change (2 ^ 255) with (2 ^ 63 * 2 ^ 192)]; lia.
Qed.

Lemma DecimalIntegerTransfer_values_witness :
  exists array reader' data,
    TransferColumnData (sample_reader 2 [57; 48; 0; 0; 255; 255; 255; 255] 0)
      None (Field.mk (decimal_type Decimal128 5 2) true)
      (ColumnDescriptor.mk ParquetType.INT32 (LogicalType.DECIMAL 5 2) 0)
      sample_ctx
    = Ok (Some (ChunkedArray.of_array array), reader') /\
    ArrayData.type array = decimal_type Decimal128 5 2 /\
    ArrayData.buffer array 1 = Some data /\
    forall i, 0 <= i < 2 ->
      let v := load_c int32_t [57; 48; 0; 0; 255; 255; 255; 255] i in
      read_bytes (buf_bytes data) (i * 16) 16 = ToBytes Decimal128 v /\
      le_signed (ToBytes Decimal128 v) = v.
Proof.
  apply (DecimalIntegerTransfer_values
           (sample_reader 2 [57; 48; 0; 0; 255; 255; 255; 255] 0) None true
           (ColumnDescriptor.mk ParquetType.INT32 (LogicalType.DECIMAL 5 2) 0)
           sample_ctx Decimal128 5 2 int32_t
           (mkBuffer 1000 (map (fun k => (170 + Z.of_nat k) mod 256) (seq 0 32)))).
  - reflexivity.
  - reflexivity.
Defined.

(** The example of the spec: 123.45 as decimal(5, 2) stored in an int32 is
    the integer 12345, and the transfer writes the bytes of the 128-bit
    decimal 12345. *)
Example DecimalIntegerTransfer_example :
  value_bytes
    (DecimalIntegerTransfer Decimal128 int32_t
       (sample_reader 1 (le_split 4 12345) 0) sample_pool
       (Field.mk (DECIMAL128 5 2) true))
  = Some (ToBytes Decimal128 12345).
Proof. vm_compute. reflexivity. Qed.

(** ** The zero-copy transfer *)

Lemma TransferZeroCopy_result (A P : CType) (reader : RecordReader.t)
    (metadata : option ColumnChunkMetaData.t) (ctx : ReaderContext.t)
    (field : Field.t) :
  let '(array, reader') := TransferZeroCopy A P reader metadata ctx field in
  ArrayData.type array = Field.type field /\
  ArrayData.length array = RecordReader.values_written reader /\
  ArrayData.buffer array 1 = RecordReader.values reader /\
  ArrayData.buffer array 0
  = (if Field.nullable field then RecordReader.is_valid reader else None) /\
  ArrayData.null_count array
  = (if Field.nullable field then RecordReader.null_count reader else 0) /\
  RecordReader.values reader' = None.
Proof.
  unfold TransferZeroCopy.
  destruct (Field.nullable field);
    cbn [RecordReader.ReleaseIsValid RecordReader.ReleaseValues
         RecordReader.values_written RecordReader.null_count
         RecordReader.values];
    unfold MakeArray;
    rewrite !AttachStatistics_buffer, AttachStatistics_length,
      AttachStatistics_null_count;
    (split; [apply AttachStatistics_frame|]); repeat split.
Qed.

(** C2.  For a column whose target type is int32, int64, float or double,
    or a timestamp in milliseconds, microseconds or nanoseconds stored as a
    64-bit value, the transfer succeeds without allocating, and the value
    buffer of the produced array is the buffer the reader held (the reader
    holds it no longer); when the field is nullable its validity buffer is
    the reader's, otherwise it has none. *)
Theorem zero_copy_takes_reader_buffers `{RT : ArrowRuntime}
    (reader : RecordReader.t) (metadata : option ColumnChunkMetaData.t)
    (value_field : Field.t) (descr : ColumnDescriptor.t)
    (ctx : ReaderContext.t) :
  takes_zero_copy_path (Field.type value_field)
    (ColumnDescriptor.physical_type descr) = true ->
  exists array reader',
    TransferColumnData reader metadata value_field descr ctx
    = Ok (Some (ChunkedArray.of_array array), reader') /\
    ArrayData.buffer array 1 = RecordReader.values reader /\
    ArrayData.buffer array 0
    = (if Field.nullable value_field then RecordReader.is_valid reader else None) /\
    RecordReader.values reader' = None.
Proof.
  intros Hpath. unfold TransferColumnData.
  assert (Hzc : forall A P,
            exists array reader',
              finish (zero_copy (TransferZeroCopy A P reader metadata ctx value_field))
              = Ok (Some (ChunkedArray.of_array array), reader') /\
              ArrayData.buffer array 1 = RecordReader.values reader /\
              ArrayData.buffer array 0
              = (if Field.nullable value_field
                 then RecordReader.is_valid reader else None) /\
              RecordReader.values reader' = None).
  { intros A P.
    pose proof (TransferZeroCopy_result A P reader metadata ctx value_field) as H.
    destruct (TransferZeroCopy A P reader metadata ctx value_field)
      as [array reader'].
    destruct H as (_ & _ & Hv & Hn & _ & Hr).
    exists array, reader'. repeat split; assumption. }
  destruct (Field.type value_field); simpl in Hpath; try discriminate;
    try apply Hzc.
  destruct (ColumnDescriptor.physical_type descr), unit;
    simpl in Hpath; try discriminate; apply Hzc.
Qed.

Lemma zero_copy_takes_reader_buffers_witness :
  exists array reader',
    TransferColumnData (sample_reader 2 [57; 48; 0; 0; 255; 255; 255; 255] 1)
      None (Field.mk INT32 true)
      (ColumnDescriptor.mk ParquetType.INT32 LogicalType.NONE 0)
      (ReaderContext.mk (mkPool 0 1000 (fun _ => 0)))
    = Ok (Some (ChunkedArray.of_array array), reader') /\
    ArrayData.buffer array 1
    = Some (mkBuffer 1 [57; 48; 0; 0; 255; 255; 255; 255]) /\
    ArrayData.buffer array 0 = Some (mkBuffer 2 [255]) /\
    RecordReader.values reader' = None.
Proof.
  apply (zero_copy_takes_reader_buffers
           (sample_reader 2 [57; 48; 0; 0; 255; 255; 255; 255] 1) None
           (Field.mk INT32 true)
           (ColumnDescriptor.mk ParquetType.INT32 LogicalType.NONE 0)
           (ReaderContext.mk (mkPool 0 1000 (fun _ => 0)))).
  reflexivity.
Defined.

(** The elementwise transfer, by contrast, returns a buffer of its own: the
    identity of the value buffer is the pool's, not the reader's. *)
Example TransferInt_copies :
  (fun a => buf_id <$> ArrayData.buffer a 1)
    <$> datum_array (TransferInt int16_t int32_t
                       (sample_reader 2 [57; 48; 0; 0; 255; 255; 255; 255] 1)
                       None sample_ctx (Field.mk INT16 true))
  = Some (Some 1000).
Proof. reflexivity. Qed.

(** ** The statistics decoder on int32 columns *)

Lemma sized_integer_type_cases (w : Z) (s : bool) (ty : DataType) :
  sized_integer_type w s = Some ty ->
  (w = 8 \/ w = 16 \/ w = 32 \/ w = 64) /\ arrow_type_of (c_int w s) = ty.
Proof.
  unfold sized_integer_type. intros H.
  destruct (Z.eqb_spec w 8) as [->|_];
    [destruct s; injection H as <-; auto|].
  destruct (Z.eqb_spec w 16) as [->|_];
    [destruct s; injection H as <-; auto|].
  destruct (Z.eqb_spec w 32) as [->|_];
    [destruct s; injection H as <-; auto 6|].
  destruct (Z.eqb_spec w 64) as [->|_];
    [destruct s; injection H as <-; auto 6|].
  discriminate.
Qed.

(** C8.  For chunk statistics with min and max present on an int32 column:
    if the logical type is an integer of 8, 16, 32 or 64 bits (an integer
    logical type has no other width), the decoder produces min and max
    scalars of exactly the signed or unsigned Arrow integer type of that
    width, holding the stored values converted to it;
    if the logical type is date, time or none, it produces scalars whose
    values are the stored 32-bit values, of a type held in an [int32_t];
    for any other logical type it fails with NotImplemented. *)
Theorem int32_statistics_as_scalars `{RT : ArrowRuntime}
    (statistics : Statistics.t) (column_desc : ColumnDescriptor.t) :
  Statistics.HasMinMax statistics = true ->
  Statistics.descr statistics = Some column_desc ->
  ColumnDescriptor.physical_type column_desc = ParquetType.INT32 ->
  match ColumnDescriptor.logical_type column_desc with
  | LogicalType.INT bit_width is_signed =>
      match sized_integer_type bit_width is_signed with
      | Some ty =>
          StatisticsAsScalars statistics
          = Ok (Some (Scalar.mk ty
                        (v_int (static_cast_int bit_width is_signed
                                  (as_int (Statistics.min statistics))))),
                Some (Scalar.mk ty
                        (v_int (static_cast_int bit_width is_signed
                                  (as_int (Statistics.max statistics))))))
      | None =>
          (* no other width is an integer logical type; the switch is
             left without an assignment to the out-parameters *)
          StatisticsAsScalars statistics = Ok (None, None)
      end
  | LogicalType.DATE
  | LogicalType.TIME _ _
  | LogicalType.NONE =>
      exists ty,
        c_type ty = Some int32_t /\
        StatisticsAsScalars statistics
        = Ok (Some (Scalar.mk ty (Statistics.min statistics)),
              Some (Scalar.mk ty (Statistics.max statistics)))
  | _ => is_Err (StatisticsAsScalars statistics) NotImplemented
  end.
Proof.
  intros Hmm Hd Hp. unfold StatisticsAsScalars. rewrite Hmm, Hd, Hp.
  cbn [negb]. unfold FromInt32Statistics.
  destruct (ColumnDescriptor.logical_type column_desc) eqn:Hl;
    cbn [FromInt32 mbind Result_bind];
    try (eexists; reflexivity).
  - (* DATE *) exists DATE32. split; reflexivity.
  - (* TIME *) exists (TIME32 (arrow_unit time_unit)). split; reflexivity.
  - (* INT *)
    unfold MakeMinMaxIntegralScalar, descr_logical_type.
    rewrite Hd, Hl. cbn [IntLogicalType_bit_width IntLogicalType_is_signed].
    destruct (sized_integer_type bit_width is_signed) as [ty|] eqn:Hty.
    + destruct (sized_integer_type_cases _ _ _ Hty) as [Hw Hat].
      destruct Hw as [-> | [-> | [-> | ->]]]; cbn [Z.eqb Pos.eqb];
        destruct is_signed; cbn in Hat; subst ty; reflexivity.
    + unfold sized_integer_type in Hty.
      destruct (bit_width =? 8); [discriminate|].
      destruct (bit_width =? 16); [discriminate|].
      destruct (bit_width =? 32); [discriminate|].
      destruct (bit_width =? 64); [discriminate|]. reflexivity.
  - (* NONE *) exists INT32. split; reflexivity.
Qed.

Lemma int32_statistics_as_scalars_witness :
  StatisticsAsScalars (sample_int32_statistics (LogicalType.INT 8 true) (-1) 200)
  = Ok (Some (Scalar.mk INT8 (v_int (static_cast_int 8 true (-1)))),
        Some (Scalar.mk INT8 (v_int (static_cast_int 8 true 200)))).
Proof.
  apply (int32_statistics_as_scalars
           (sample_int32_statistics (LogicalType.INT 8 true) (-1) 200)
           (ColumnDescriptor.mk ParquetType.INT32 (LogicalType.INT 8 true) 0));
    reflexivity.
Defined.

(** An int32 column annotated as an unsigned 16-bit integer: the maximum
    70000 does not fit and is narrowed; a date column keeps its values. *)
Example int32_statistics_examples :
  StatisticsAsScalars (sample_int32_statistics (LogicalType.INT 16 false) 1 70000)
  = Ok (Some (Scalar.mk UINT16 (v_int 1)), Some (Scalar.mk UINT16 (v_int 4464)))
  /\ StatisticsAsScalars (sample_int32_statistics LogicalType.DATE 1 100)
     = Ok (Some (Scalar.mk DATE32 (v_int 1)), Some (Scalar.mk DATE32 (v_int 100)))
  /\ StatisticsAsScalars (sample_int32_statistics LogicalType.STRING 1 100)
     = Err NotImplemented "Unhandled logical type for INT32"
  /\ StatisticsAsScalars (sample_int32_statistics (LogicalType.DECIMAL 5 2) 1 100)
     = Err NotImplemented "Cannot extract statistics for type ".
Proof. repeat split. Qed.

(** ** Attached statistics *)

Lemma AttachStatistics_exact (c : CType) (data : ArrayData.t)
    (md : ColumnChunkMetaData.t) (st : Statistics.t) (ctx : ReaderContext.t) :
  ColumnChunkMetaData.statistics md = Some st ->
  Statistics.HasMinMax st = true ->
  exists a,
    ArrayData.statistics (AttachStatistics c data (Some md) ctx) = Some a /\
    ArrayStatistics.is_min_exact a = true /\
    ArrayStatistics.is_max_exact a = true /\
    is_Some (ArrayStatistics.min a) /\ is_Some (ArrayStatistics.max a).
Proof.
  intros Hst Hmm. unfold AttachStatistics. rewrite Hst, Hmm.
  cbn [is_Some_b negb]. rewrite andb_false_r.
  destruct c as [|bits [|]| |]; eexists; (split; [reflexivity|]);
    cbn; repeat split; eexists; reflexivity.
Qed.

Lemma ReconstructChunksWithoutNulls_statistics (chunks : list Array) :
  map ArrayData.statistics (ReconstructChunksWithoutNulls chunks)
  = map ArrayData.statistics chunks.
Proof.
  unfold ReconstructChunksWithoutNulls. rewrite map_map.
  apply map_ext. intros chunk.
  destruct (is_Some_b (ArrayData.buffer chunk 0)); reflexivity.
Qed.

Lemma for_each_chunk_Forall (P : Array -> Prop) (body : Array -> Result Array)
    (chunks out : list Array) :
  (forall c a, body c = Ok a -> P a) ->
  for_each_chunk body chunks = Ok out -> Forall P out.
Proof.
  intros Hbody. revert out.
  induction chunks as [|c cs IH]; intros out H; cbn in H.
  - injection H as <-. constructor.
  - destruct (body c) as [a|] eqn:Ha; cbn in H; [|discriminate].
    destruct (for_each_chunk body cs) as [rest|]; cbn in H; [|discriminate].
    injection H as <-. constructor; [eapply Hbody; eassumption | auto].
Qed.

Lemma ConvertToDecimal_statistics `{RT : ArrowRuntime} (k : DecimalKind)
    (p : BinaryParquetType) (array : Array) (type : DataType)
    (pool : MemoryPool) (a : Array) :
  ConvertToDecimal k p array type pool = Ok a ->
  ArrayData.statistics a = None.
Proof.
  destruct p; cbn [ConvertToDecimal];
    unfold ConvertToDecimal_ByteArray, ConvertToDecimal_FLBA;
    (destruct (AllocateBuffer _ pool) as [data|]; cbn [mbind Result_bind];
     [|discriminate]).
  - destruct (for_range_result _ _ _) as [out|]; cbn [mbind Result_bind];
      [|discriminate].
    intros H. injection H as <-. reflexivity.
  - destruct (if 0 <? ArrayData.null_count array then _ else _) as [out|];
      cbn [mbind Result_bind]; [|discriminate].
    intros H. injection H as <-. reflexivity.
Qed.

Lemma Forall_statistics_None_Reconstruct (chunks : list Array) :
  Forall (fun chunk => ArrayData.statistics chunk = None) chunks ->
  Forall (fun chunk => ArrayData.statistics chunk = None)
    (ReconstructChunksWithoutNulls chunks).
Proof.
  intros H. unfold ReconstructChunksWithoutNulls.
  induction H as [|chunk chunks Hc _ IH]; cbn [map]; constructor;
    [|exact IH].
  destruct (is_Some_b (ArrayData.buffer chunk 0)); exact Hc.
Qed.



(** The example of the spec: an integer column with min 1 and max 100 gets
    both flags; the same column read as a string gets no statistics. *)
Example exactness_flags_example :
  (fun a => ArrayData.statistics a)
    <$> datum_array
          (zero_copy (TransferZeroCopy int32_t int32_t
                        (sample_reader 2 [1; 0; 0; 0; 100; 0; 0; 0] 0)
                        (sample_metadata 1 100) sample_ctx (Field.mk INT32 false)))
  = Some (Some (ArrayStatistics.mk (Some 0) None
                  (Some (sv_int64 1)) (Some (sv_int64 100)) true true)).
Proof. reflexivity. Qed.

(** ** Null counts and validity buffers *)

Lemma TransferZeroCopy_nulls (A P : CType) (reader : RecordReader.t)
    (metadata : option ColumnChunkMetaData.t) (ctx : ReaderContext.t)
    (field : Field.t) :
  nulls_follow (Field.nullable field) reader
    (fst (TransferZeroCopy A P reader metadata ctx field)).
Proof.
  pose proof (TransferZeroCopy_result A P reader metadata ctx field) as H.
  destruct (TransferZeroCopy A P reader metadata ctx field) as [array reader'].
  destruct H as (_ & _ & _ & Hb & Hn & _). split; assumption.
Qed.

Lemma TransferInt_nulls (A P : CType) (reader reader' : RecordReader.t)
    (metadata : option ColumnChunkMetaData.t) (ctx : ReaderContext.t)
    (field : Field.t) (d : Datum) :
  TransferInt A P reader metadata ctx field = Ok (d, reader') ->
  exists array, d = Datum_ARRAY array /\
    nulls_follow (Field.nullable field) reader array.
Proof.
  unfold TransferInt.
  destruct (AllocateBuffer _ _) as [data|]; cbn [mbind Result_bind];
    [|discriminate].
  destruct (Field.nullable field); cbn [RecordReader.ReleaseIsValid];
    intros H; injection H as <- <-; eexists; (split; [reflexivity|]);
    unfold nulls_follow, MakeArray;
    rewrite AttachStatistics_buffer, AttachStatistics_null_count;
    split; reflexivity.
Qed.

Lemma TransferBool_nulls (reader reader' : RecordReader.t)
    (metadata : option ColumnChunkMetaData.t) (ctx : ReaderContext.t)
    (nullable : bool) (d : Datum) :
  TransferBool reader metadata ctx nullable = Ok (d, reader') ->
  exists array, d = Datum_ARRAY array /\ nulls_follow nullable reader array.
Proof.
  unfold TransferBool.
  destruct (AllocateBuffer _ _) as [data|]; cbn [mbind Result_bind];
    [|discriminate].
  destruct nullable; cbn [RecordReader.ReleaseIsValid];
    intros H; injection H as <- <-; eexists; (split; [reflexivity|]);
    unfold nulls_follow, MakeArray;
    rewrite AttachStatistics_buffer, AttachStatistics_null_count;
    split; reflexivity.
Qed.

Lemma TransferDate64_nulls (reader reader' : RecordReader.t)
    (pool : MemoryPool) (field : Field.t) (d : Datum) :
  TransferDate64 reader pool field = Ok (d, reader') ->
  exists array, d = Datum_ARRAY array /\
    nulls_follow (Field.nullable field) reader array.
Proof.
  unfold TransferDate64.
  destruct (AllocateBuffer _ _) as [data|]; cbn [mbind Result_bind];
    [|discriminate].
  destruct (Field.nullable field); cbn [RecordReader.ReleaseIsValid];
    intros H; injection H as <- <-; eexists; (split; [reflexivity|]);
    split; reflexivity.
Qed.

Lemma TransferInt96_nulls `{RT : ArrowRuntime} (reader reader' : RecordReader.t)
    (pool : MemoryPool) (field : Field.t) (unit : TimeUnit.type) (d : Datum) :
  TransferInt96 reader pool field unit = Ok (d, reader') ->
  exists array, d = Datum_ARRAY array /\
    nulls_follow (Field.nullable field) reader array.
Proof.
  unfold TransferInt96.
  destruct (AllocateBuffer _ _) as [data|]; cbn [mbind Result_bind];
    [|discriminate].
  destruct (Field.nullable field); cbn [RecordReader.ReleaseIsValid];
    intros H; injection H as <- <-; eexists; (split; [reflexivity|]);
    split; reflexivity.
Qed.

Lemma DecimalIntegerTransfer_nulls `{RT : ArrowRuntime} (k : DecimalKind)
    (E : CType) (reader reader' : RecordReader.t) (pool : MemoryPool)
    (field : Field.t) (d : Datum) :
  DecimalIntegerTransfer k E reader pool field = Ok (d, reader') ->
  exists array, d = Datum_ARRAY array /\
    nulls_follow (RecordReader.nullable_values reader && Field.nullable field)
      reader array.
Proof.
  unfold DecimalIntegerTransfer.
  destruct (AllocateBuffer _ _) as [data|]; cbn [mbind Result_bind];
    [|discriminate].
  destruct (RecordReader.nullable_values reader && Field.nullable field);
    cbn [RecordReader.ReleaseIsValid];
    intros H; injection H as <- <-; eexists; (split; [reflexivity|]);
    split; reflexivity.
Qed.

(** What [ReconstructChunksWithoutNulls] does to one chunk. *)
Lemma ReconstructChunksWithoutNulls_chunks (chunks : list Array) :
  Forall2
    (fun chunk out =>
       ArrayData.buffer out 0 = None /\
       if is_Some_b (ArrayData.buffer chunk 0)
       then ArrayData.null_count out = 0
       else out = chunk)
    chunks (ReconstructChunksWithoutNulls chunks).
Proof.
  unfold ReconstructChunksWithoutNulls.
  induction chunks as [|chunk chunks IH]; cbn [map]; constructor; [|exact IH].
  destruct (ArrayData.buffer chunk 0) as [b|] eqn:Hb; cbn [is_Some_b].
  - split; [|reflexivity]. unfold ArrayData.buffer, MakeArray in *.
    cbn [ArrayData.buffers].
    destruct (ArrayData.buffers chunk) as [|b0 bs]; [discriminate|].
    reflexivity.
  - split; [exact Hb | reflexivity].
Qed.

Lemma ReconstructChunksWithoutNulls_no_validity (chunks : list Array) :
  Forall (fun chunk => ArrayData.buffer chunk 0 = None)
    (ReconstructChunksWithoutNulls chunks).
Proof.
  pose proof (ReconstructChunksWithoutNulls_chunks chunks) as H.
  induction H as [|chunk out cs outs [Hb _] _ IH]; constructor; assumption.
Qed.

Lemma TransferDictionary_non_nullable `{RT : ArrowRuntime}
    (reader reader' : RecordReader.t) (pool : MemoryPool)
    (logical_value_type : DataType) (out : ChunkedArray.t) :
  TransferDictionary reader pool logical_value_type false = Ok (out, reader') ->
  exists chunks, ChunkedArray.chunks out = ReconstructChunksWithoutNulls chunks.
Proof.
  unfold TransferDictionary.
  destruct (RecordReader.dictionary_result reader) as [res|]; [|discriminate].
  destruct (if negb (Equals logical_value_type (ChunkedArray.type res))
            then _ else _) as [res'|];
    cbn [mbind Result_bind negb]; [|discriminate].
  intros H. injection H as <- <-. eexists. reflexivity.
Qed.

Lemma TransferBinary_non_nullable `{RT : ArrowRuntime}
    (reader reader' : RecordReader.t) (pool : MemoryPool)
    (field : Field.t) (out : ChunkedArray.t) :
  Field.nullable field = false ->
  TransferBinary reader pool field = Ok (out, reader') ->
  exists chunks, ChunkedArray.chunks out = ReconstructChunksWithoutNulls chunks.
Proof.
  intros Hn. unfold TransferBinary. rewrite Hn.
  destruct (RecordReader.read_dictionary reader).
  - apply TransferDictionary_non_nullable.
  - destruct (RecordReader.builder_chunks reader) as [chunks|]; [|discriminate].
    destruct (for_each_chunk _ chunks) as [cs|];
      cbn [mbind Result_bind negb]; [|discriminate].
    intros H. injection H as <- <-. eexists. reflexivity.
Qed.

Lemma TransferDecimal_non_nullable `{RT : ArrowRuntime} (k : DecimalKind)
    (p : BinaryParquetType) (reader reader' : RecordReader.t)
    (pool : MemoryPool) (field : Field.t) (d : Datum) :
  Field.nullable field = false ->
  TransferDecimal k p reader pool field = Ok (d, reader') ->
  exists out chunks,
    d = Datum_CHUNKED_ARRAY out /\
    ChunkedArray.chunks out = ReconstructChunksWithoutNulls chunks.
Proof.
  intros Hn. unfold TransferDecimal. rewrite Hn.
  destruct (RecordReader.builder_chunks reader) as [chunks|]; [|discriminate].
  destruct (for_each_chunk _ chunks) as [cs|];
    cbn [mbind Result_bind negb]; [|discriminate].
  intros H. injection H as <- <-. do 2 eexists. split; reflexivity.
Qed.

Lemma finish_array (r : Result (Datum * RecordReader.t))
    (out : ChunkedArray.t) (reader' : RecordReader.t) (P : Array -> Prop) :
  (forall d r', r = Ok (d, r') -> exists array, d = Datum_ARRAY array /\ P array) ->
  finish r = Ok (Some out, reader') ->
  exists array, out = ChunkedArray.of_array array /\ P array.
Proof.
  intros Hr Hf. destruct r as [[d r']|]; [|discriminate].
  destruct (Hr d r' eq_refl) as (array & -> & HP).
  cbn in Hf. injection Hf as <- <-. exists array. auto.
Qed.

Lemma finish_chunked (r : Result (ChunkedArray.t * RecordReader.t))
    (out : ChunkedArray.t) (reader' : RecordReader.t) :
  finish (chunked r) = Ok (Some out, reader') -> r = Ok (out, reader').
Proof.
  destruct r as [[c r']|]; [|discriminate]. cbn. congruence.
Qed.




(** The same input, evaluated: one value, no validity buffer, null count 0
    although the reader reports 3. *)
Example DecimalIntegerTransfer_ignores_null_count :
  (fun a => (ArrayData.null_count a, ArrayData.buffer a 0))
    <$> datum_array
          (DecimalIntegerTransfer Decimal128 int32_t
             reader_without_nullable_values sample_pool
             (Field.mk (DECIMAL128 5 2) true))
  = Some (0, None)
  /\ RecordReader.null_count reader_without_nullable_values = 3.
Proof. split; reflexivity. Qed.

(** ** Loops that may fail *)

Lemma for_range_result_total {St} (n : Z) (body : Z -> St -> Result St)
    (pure : Z -> St -> St) (s : St) :
  (forall i acc, 0 <= i < n -> body i acc = Ok (pure i acc)) ->
  for_range_result n body s = Ok (for_range n pure s).
Proof.
  intros Hbody.
  destruct (Z.le_gt_cases 0 n) as [Hn|Hn].
  2:{ rewrite for_range_result_nonpos, for_range_nonpos by lia. reflexivity. }
  assert (Hall : forall k : nat, Z.of_nat k <= n ->
            for_range_result (Z.of_nat k) body s
            = Ok (for_range (Z.of_nat k) pure s)).
  { induction k as [|k IH]; intros Hk.
    - rewrite for_range_result_nonpos, for_range_nonpos by reflexivity.
      reflexivity.
    - replace (Z.of_nat (S k)) with (Z.of_nat k + 1) by lia.
      rewrite for_range_result_succ, for_range_succ by lia.
      rewrite IH by lia. cbn [mbind Result_bind]. apply Hbody. lia. }
  specialize (Hall (Z.to_nat n)). rewrite Z2Nat.id in Hall by assumption.
  apply Hall. lia.
Qed.

Lemma for_range_result_fails {St} (n : Z) (body : Z -> St -> Result St)
    (s : St) (c : StatusCode) (i : Z) :
  (forall j acc, 0 <= j < n ->
     (exists acc', body j acc = Ok acc') \/ is_Err (body j acc) c) ->
  0 <= i < n ->
  (forall acc, is_Err (body i acc) c) ->
  is_Err (for_range_result n body s) c.
Proof.
  intros Hbody Hi Hfail.
  assert (Hall : forall k : nat, Z.of_nat k <= n ->
            ((exists acc, for_range_result (Z.of_nat k) body s = Ok acc)
             /\ Z.of_nat k <= i)
            \/ is_Err (for_range_result (Z.of_nat k) body s) c).
  { induction k as [|k IH]; intros Hk.
    - left. rewrite for_range_result_nonpos by reflexivity.
      split; [eauto | lia].
    - replace (Z.of_nat (S k)) with (Z.of_nat k + 1) by lia.
      rewrite for_range_result_succ by lia.
      destruct (IH ltac:(lia)) as [[[acc Hacc] Hle] | [msg Herr]].
      + rewrite Hacc. cbn [mbind Result_bind].
        destruct (Z.eq_dec (Z.of_nat k) i) as [->|Hne].
        * right. apply Hfail.
        * destruct (Hbody (Z.of_nat k) acc ltac:(lia)) as [[acc' Hok]|Herr].
          -- left. rewrite Hok. split; [eauto | lia].
          -- right. exact Herr.
      + right. rewrite Herr. exists msg. reflexivity. }
  specialize (Hall (Z.to_nat n)). rewrite Z2Nat.id in Hall by lia.
  destruct (Hall ltac:(lia)) as [[_ Hle]|Herr]; [lia | exact Herr].
Qed.

Lemma for_range_result_cases {St} (n : Z) (body : Z -> St -> Result St)
    (s : St) (c : StatusCode) :
  (forall j acc, 0 <= j < n ->
     (exists acc', body j acc = Ok acc') \/ is_Err (body j acc) c) ->
  (exists out, for_range_result n body s = Ok out)
  \/ is_Err (for_range_result n body s) c.
Proof.
  intros Hbody.
  destruct (Z.le_gt_cases 0 n) as [Hn|Hn].
  2:{ left. rewrite for_range_result_nonpos by lia. eauto. }
  assert (Hall : forall k : nat, Z.of_nat k <= n ->
            (exists out, for_range_result (Z.of_nat k) body s = Ok out)
            \/ is_Err (for_range_result (Z.of_nat k) body s) c).
  { induction k as [|k IH]; intros Hk.
    - left. rewrite for_range_result_nonpos by reflexivity. eauto.
    - replace (Z.of_nat (S k)) with (Z.of_nat k + 1) by lia.
      rewrite for_range_result_succ by lia.
      destruct (IH ltac:(lia)) as [[acc Hacc] | [msg Herr]].
      + rewrite Hacc. cbn [mbind Result_bind]. apply Hbody. lia.
      + right. rewrite Herr. exists msg. reflexivity. }
  specialize (Hall (Z.to_nat n)). rewrite Z2Nat.id in Hall by lia.
  apply Hall. lia.
Qed.

(** ** Decimals from byte arrays *)

Lemma FromBigEndian_Ok (k : DecimalKind) (value : list byte) (length : Z) :
  0 <= length <= decimal_size k ->
  FromBigEndian k value length = Ok (be_signed (take (Z.to_nat length) value)).
Proof.
  intros H. unfold FromBigEndian.
  destruct (Z.ltb_spec length 0); [lia|].
  destruct (Z.ltb_spec (decimal_size k) length); [lia|]. reflexivity.
Qed.

Lemma FromBigEndian_error (k : DecimalKind) (value : list byte) (length : Z) :
  (exists t, FromBigEndian k value length = Ok t)
  \/ is_Err (FromBigEndian k value length) Invalid.
Proof.
  unfold FromBigEndian. destruct (_ || _); [right | left]; eexists; reflexivity.
Qed.

(** The bytes a decimal of the kind [k] is serialised to denote the integer
    that a byte string no longer than the decimal denotes. *)
Lemma le_signed_ToBytes_be_signed (k : DecimalKind) (bs : list byte) :
  Z.of_nat (List.length bs) <= decimal_size k ->
  le_signed (ToBytes k (be_signed bs)) = be_signed bs.
Proof.
  intros Hlen. apply le_signed_ToBytes.
  pose proof (decimal_size_cases k) as Hk. unfold be_signed.
  destruct bs as [|b bs'].
  - change (wrap_signed (8 * Z.of_nat (List.length (@nil Z))) (be_combine []))
      with 0.
    pose proof (Z.pow_pos_nonneg 2 (8 * decimal_size k - 1)). lia.
  - set (n := Z.of_nat (List.length (b :: bs'))) in *.
    assert (Hn : 0 < n) by (unfold n; cbn [List.length]; lia).
    pose proof (wrap_signed_range (8 * n) (be_combine (b :: bs')) ltac:(lia)) as Hr.
    assert (Hpow : 2 ^ (8 * n - 1) <= 2 ^ (8 * decimal_size k - 1))
      by (apply Z.pow_le_mono_r; lia).
    lia.
Qed.

Lemma ConvertToDecimal_ByteArray_error `{RT : ArrowRuntime} (k : DecimalKind)
    (array : Array) (type : DataType) (out : list byte) (i : Z) :
  let body := fun i out =>
    let '(record_loc, record_len) := BinaryArray_GetValue array i in
    if (record_len <? 0) || (byte_width type <? record_len) then
      Err Invalid "Invalid BYTE_ARRAY length for "
    else
      let out := store_int_at 8 out (i * byte_width type) 0 in
      let out := store_int_at 8 out (i * byte_width type + 8) 0 in
      if ((0 <? ArrayData.null_count array) && negb (IsNull array i))
         || (ArrayData.null_count array <=? 0)
      then RawBytesToDecimalBytes k record_loc record_len out
             (i * byte_width type)
      else Ok out in
  (exists out', body i out = Ok out') \/ is_Err (body i out) Invalid.
Proof.
  cbv beta zeta. destruct (BinaryArray_GetValue array i) as [loc len].
  destruct ((len <? 0) || (byte_width type <? len));
    [right; eexists; reflexivity|].
  destruct (((0 <? ArrayData.null_count array) && negb (IsNull array i))
            || (ArrayData.null_count array <=? 0));
    [|left; eexists; reflexivity].
  unfold RawBytesToDecimalBytes.
  destruct (FromBigEndian_error k loc len) as [[t ->]|[msg ->]];
    [left | right]; eexists; reflexivity.
Qed.

Lemma ConvertToDecimal_ByteArray_invalid `{RT : ArrowRuntime} (k : DecimalKind)
    (array : Array) (type : DataType) (pool : MemoryPool) (data0 : Buffer)
    (i : Z) :
  AllocateBuffer (ArrayData.length array * byte_width type) pool = Ok data0 ->
  0 <= i < ArrayData.length array ->
  ~ record_len_in_range (byte_width type) array i ->
  is_Err (ConvertToDecimal_ByteArray k array type pool) Invalid.
Proof.
  intros Halloc Hi Hbad. unfold ConvertToDecimal_ByteArray.
  rewrite Halloc. cbv beta iota zeta delta [mbind Result_bind].
  match goal with
  | |- is_Err (match for_range_result ?n ?body ?s with _ => _ end) _ =>
      destruct (for_range_result_fails n body s Invalid i) as [msg ->]
  end.
  - intros j acc _. apply (ConvertToDecimal_ByteArray_error k array type acc j).
  - assumption.
  - intros acc. unfold record_len_in_range in Hbad.
    destruct (BinaryArray_GetValue array i) as [loc len]. cbn [snd] in Hbad.
    destruct (Z.ltb_spec len 0); cbn [orb]; [eexists; reflexivity|].
    destruct (Z.ltb_spec (byte_width type) len); [eexists; reflexivity | lia].
  - eexists. reflexivity.
Qed.

Lemma ConvertToDecimal_ByteArray_cases `{RT : ArrowRuntime} (k : DecimalKind)
    (array : Array) (type : DataType) (pool : MemoryPool) (data0 : Buffer) :
  AllocateBuffer (ArrayData.length array * byte_width type) pool = Ok data0 ->
  (exists a, ConvertToDecimal_ByteArray k array type pool = Ok a)
  \/ is_Err (ConvertToDecimal_ByteArray k array type pool) Invalid.
Proof.
  intros Halloc. unfold ConvertToDecimal_ByteArray.
  rewrite Halloc. cbv beta iota zeta delta [mbind Result_bind].
  match goal with
  | |- context [for_range_result ?n ?body ?s] =>
      destruct (for_range_result_cases n body s Invalid) as [[out ->]|[msg ->]]
  end.
  - intros j acc _. apply (ConvertToDecimal_ByteArray_error k array type acc j).
  - left. eauto.
  - right. eexists. reflexivity.
Qed.

Lemma ConvertToDecimal_ByteArray_ok `{RT : ArrowRuntime} (k : DecimalKind)
    (array : Array) (type : DataType) (pool : MemoryPool) (data0 : Buffer) :
  byte_width type = decimal_size k ->
  AllocateBuffer (ArrayData.length array * byte_width type) pool = Ok data0 ->
  (forall i, 0 <= i < ArrayData.length array ->
     record_len_in_range (byte_width type) array i) ->
  exists a data,
    ConvertToDecimal_ByteArray k array type pool = Ok a /\
    ArrayData.length a = ArrayData.length array /\
    ArrayData.buffer a 1 = Some data /\
    forall i, 0 <= i < ArrayData.length array ->
      is_converted array i = true ->
      read_bytes (buf_bytes data) (i * decimal_size k)
        (Z.to_nat (decimal_size k))
      = ToBytes k (be_signed (take (Z.to_nat (snd (BinaryArray_GetValue array i)))
                                (fst (BinaryArray_GetValue array i)))).
Proof.
  intros Hw Halloc Hlens. unfold ConvertToDecimal_ByteArray.
  rewrite Halloc. cbv beta iota zeta delta [mbind Result_bind].
  destruct (AllocateBuffer_Ok _ _ _ Halloc) as [Hsize Hlen].
  rewrite Hw in *.
  pose proof (decimal_size_cases k) as Hk.
  set (w := decimal_size k) in *.
  set (v := fun i : Z =>
              be_signed (take (Z.to_nat (snd (BinaryArray_GetValue array i)))
                           (fst (BinaryArray_GetValue array i)))).
  set (pure := fun (i : Z) (out : list byte) =>
                 let out := store_int_at 8 out (i * w) 0 in
                 let out := store_int_at 8 out (i * w + 8) 0 in
                 if is_converted array i
                 then write_bytes out (i * w) (ToBytes k (v i))
                 else out).
  rewrite (for_range_result_total (ArrayData.length array) _ pure).
  2:{ intros i acc Hi. specialize (Hlens i Hi).
      unfold record_len_in_range in Hlens. unfold pure, v, is_converted.
      destruct (BinaryArray_GetValue array i) as [loc len]. cbn [fst snd] in *.
      destruct (Z.ltb_spec len 0); [lia|].
      destruct (Z.ltb_spec w len); [lia|]. cbn [orb].
      destruct (_ || _); [|reflexivity].
      unfold RawBytesToDecimalBytes.
      rewrite FromBigEndian_Ok by (fold w; lia). reflexivity. }
  do 2 eexists. split; [reflexivity|]. split; [reflexivity|].
  split; [reflexivity|]. cbn [buf_bytes with_bytes].
  assert (Hinv :
    List.length (for_range (ArrayData.length array) pure (buf_bytes data0))
    = List.length (buf_bytes data0) /\
    forall i, 0 <= i < ArrayData.length array -> is_converted array i = true ->
      read_bytes (for_range (ArrayData.length array) pure (buf_bytes data0))
        (i * w) (Z.to_nat w) = ToBytes k (v i)).
  { assert (Hn : 0 <= ArrayData.length array) by nia.
    apply (for_range_invariant
             (fun n out =>
                List.length out = List.length (buf_bytes data0) /\
                forall i, 0 <= i < n -> is_converted array i = true ->
                  read_bytes out (i * w) (Z.to_nat w) = ToBytes k (v i))).
    - assumption.
    - split; [reflexivity | intros; lia].
    - intros n acc Hn' [Hl Hread]. unfold pure. cbv zeta.
      unfold store_int_at. split.
      + destruct (is_converted array n); rewrite !length_write_bytes; exact Hl.
      + intros i Hi Hc.
        destruct (Z.eq_dec i n) as [->|Hne].
        * rewrite Hc.
          pose proof (read_write_same
                        (write_bytes (write_bytes acc (n * w) (le_split 8 0))
                           (n * w + 8) (le_split 8 0))
                        (n * w) (ToBytes k (v n))) as Hsame.
          rewrite length_ToBytes in Hsame. apply Hsame; [nia|].
          rewrite !length_write_bytes, Hl, Hlen. fold w. nia.
        * assert (Hold : read_bytes acc (i * w) (Z.to_nat w) = ToBytes k (v i))
            by (apply Hread; [lia | assumption]).
          destruct (is_converted array n);
            rewrite ?read_write_other; try exact Hold; try nia;
            left; nia. }
  destruct Hinv as [_ Hread]. exact Hread.
Qed.

(** ** Loops over chunks *)

Lemma for_each_chunk_ok (R : Array -> Array -> Prop)
    (body : Array -> Result Array) (chunks : list Array) :
  Forall (fun c => exists a, body c = Ok a /\ R c a) chunks ->
  exists out, for_each_chunk body chunks = Ok out /\ Forall2 R chunks out.
Proof.
  induction 1 as [|c cs (a & Ha & HR) _ (out & Hout & HF)]; cbn.
  - exists []. split; [reflexivity | constructor].
  - rewrite Ha, Hout. cbn. exists (a :: out).
    split; [reflexivity | constructor; assumption].
Qed.

Lemma for_each_chunk_fails (code : StatusCode) (body : Array -> Result Array)
    (chunks : list Array) :
  Forall (fun c => (exists a, body c = Ok a) \/ is_Err (body c) code) chunks ->
  Exists (fun c => is_Err (body c) code) chunks ->
  is_Err (for_each_chunk body chunks) code.
Proof.
  intros Hall Hex. induction Hall as [|c cs Hc _ IH]; cbn.
  - inversion Hex.
  - destruct Hc as [[a Ha]|[msg Hmsg]].
    + rewrite Ha. cbn [mbind Result_bind].
      inversion Hex as [? ? [msg Hmsg]|? ? Hex']; subst; [congruence|].
      destruct (IH Hex') as [msg ->]. exists msg. reflexivity.
    + rewrite Hmsg. exists msg. reflexivity.
Qed.

Lemma Forall2_map_r_preserved (R : Array -> Array -> Prop) (f : Array -> Array)
    (chunks out : list Array) :
  (forall c a, R c a -> R c (f a)) ->
  Forall2 R chunks out -> Forall2 R chunks (map f out).
Proof.
  intros Hf H. induction H; cbn; constructor; auto.
Qed.

Lemma AllocateBuffer_succeeds (size : Z) (pool : MemoryPool) :
  0 <= size <= pool_capacity pool -> exists b, AllocateBuffer size pool = Ok b.
Proof.
  intros H. unfold AllocateBuffer.
  destruct (Z.ltb_spec size 0); [lia|].
  destruct (Z.ltb_spec (pool_capacity pool) size); [lia|]. eauto.
Qed.

(** C6.  For a decimal column (128-bit or 256-bit target) backed by the
    byte-array physical encoding, the pool serving every chunk: if the
    stored length of some value is negative or exceeds the byte width of
    the decimal type, the transfer fails with Invalid; otherwise it
    succeeds, and for every converted row (every row when the chunk has no
    nulls, every non-null row when it has) the slot of the output holds the
    little-endian layout of the integer that the stored bytes denote as a
    big-endian two's-complement number. *)
Theorem byte_array_decimal_transfer `{RT : ArrowRuntime}
    (reader : RecordReader.t) (metadata : option ColumnChunkMetaData.t)
    (nullable : bool) (descr : ColumnDescriptor.t) (ctx : ReaderContext.t)
    (k : DecimalKind) (precision scale : Z) (chunks : list Array) :
  ColumnDescriptor.physical_type descr = ParquetType.BYTE_ARRAY ->
  RecordReader.builder_chunks reader = Some chunks ->
  Forall (fun chunk =>
            0 <= ArrayData.length chunk * decimal_size k
              <= pool_capacity (ReaderContext.pool ctx)) chunks ->
  let run := TransferColumnData reader metadata
               (Field.mk (decimal_type k precision scale) nullable) descr ctx in
  (Exists (fun chunk =>
             exists i, 0 <= i < ArrayData.length chunk /\
               ~ record_len_in_range (decimal_size k) chunk i) chunks ->
   is_Err run Invalid)
  /\
  (Forall (fun chunk =>
             forall i, 0 <= i < ArrayData.length chunk ->
               record_len_in_range (decimal_size k) chunk i) chunks ->
   exists out reader',
     run = Ok (Some out, reader') /\
     Forall2
       (fun chunk o =>
          exists data,
            ArrayData.buffer o 1 = Some data /\
            forall i, 0 <= i < ArrayData.length chunk ->
              is_converted chunk i = true ->
              let stored := take (Z.to_nat (snd (BinaryArray_GetValue chunk i)))
                              (fst (BinaryArray_GetValue chunk i)) in
              read_bytes (buf_bytes data) (i * decimal_size k)
                (Z.to_nat (decimal_size k))
              = ToBytes k (be_signed stored) /\
              le_signed (ToBytes k (be_signed stored)) = be_signed stored)
       chunks (ChunkedArray.chunks out)).
Proof.
  intros Hp Hchunks Hpool. cbv zeta.
  set (field := Field.mk (decimal_type k precision scale) nullable).
  assert (Hw : byte_width (Field.type field) = decimal_size k)
    by (destruct k; reflexivity).
  assert (Hrun : TransferColumnData reader metadata field descr ctx
                 = finish (TransferDecimal k ByteArrayType reader
                             (ReaderContext.pool ctx) field)).
  { unfold TransferColumnData. rewrite Hp. destruct k; reflexivity. }
  rewrite Hrun. unfold TransferDecimal. rewrite Hchunks.
  cbn [ConvertToDecimal]. split.
  - intros Hex.
    destruct (for_each_chunk_fails Invalid
                (fun chunk => ConvertToDecimal_ByteArray k chunk (Field.type field)
                                (ReaderContext.pool ctx)) chunks) as [msg Hmsg].
    + eapply Forall_impl; [exact Hpool|]. cbv beta. intros chunk Hcap.
      destruct (AllocateBuffer_succeeds _ _ Hcap) as [data0 Halloc].
      rewrite <- Hw in Halloc.
      eapply ConvertToDecimal_ByteArray_cases; eassumption.
    + apply Exists_exists in Hex as (chunk & Hin & i & Hi & Hbad).
      apply Exists_exists. exists chunk. split; [assumption|].
      rewrite Forall_forall in Hpool.
      destruct (AllocateBuffer_succeeds _ _ (Hpool chunk Hin)) as [data0 Halloc].
      rewrite <- Hw in Halloc, Hbad.
      eapply ConvertToDecimal_ByteArray_invalid; eassumption.
    + rewrite Hmsg. exists msg. reflexivity.
  - intros Hall.
    destruct (for_each_chunk_ok
                (fun chunk o =>
                   exists data,
                     ArrayData.buffer o 1 = Some data /\
                     forall i, 0 <= i < ArrayData.length chunk ->
                       is_converted chunk i = true ->
                       let stored :=
                         take (Z.to_nat (snd (BinaryArray_GetValue chunk i)))
                           (fst (BinaryArray_GetValue chunk i)) in
                       read_bytes (buf_bytes data) (i * decimal_size k)
                         (Z.to_nat (decimal_size k))
                       = ToBytes k (be_signed stored) /\
                       le_signed (ToBytes k (be_signed stored)) = be_signed stored)
                (fun chunk => ConvertToDecimal_ByteArray k chunk (Field.type field)
                                (ReaderContext.pool ctx)) chunks)
      as (cs & Hcs & HF).
    + rewrite Forall_forall in Hpool, Hall. apply Forall_forall.
      intros chunk Hin.
      destruct (AllocateBuffer_succeeds _ _ (Hpool chunk Hin)) as [data0 Halloc].
      rewrite <- Hw in Halloc. specialize (Hall chunk Hin). rewrite <- Hw in Hall.
      destruct (ConvertToDecimal_ByteArray_ok k chunk _ _ data0 Hw Halloc Hall)
        as (a & data & Ha & _ & Hbuf & Hread).
      exists a. split; [exact Ha|]. exists data. split; [exact Hbuf|].
      intros i Hi Hc. cbv zeta. split; [apply Hread; assumption|].
      apply le_signed_ToBytes_be_signed.
      rewrite Hw in Hall. specialize (Hall i Hi).
      unfold record_len_in_range in Hall. rewrite length_take. lia.
    + rewrite Hcs. cbn [mbind Result_bind].
      destruct nullable; cbn [negb Field.nullable field finish mbind Result_bind];
        do 2 eexists; (split; [reflexivity|]); cbn [ChunkedArray.chunks];
        [exact HF|].
      unfold ReconstructChunksWithoutNulls.
      apply Forall2_map_r_preserved; [|exact HF].
      intros c a (data & Hbuf & Hread). exists data. split; [|exact Hread].
      destruct (is_Some_b (ArrayData.buffer a 0)); [|exact Hbuf].
      unfold ArrayData.buffer, MakeArray in *. cbn [ArrayData.buffers].
      destruct (ArrayData.buffers a) as [|b0 bs]; [discriminate | exact Hbuf].
Qed.

Lemma byte_array_decimal_transfer_witness :
  is_Err
    (TransferColumnData
       (sample_binary_reader [sample_binary_chunk (replicate 17 1)])
       None (Field.mk (decimal_type Decimal128 5 2) true)
       (ColumnDescriptor.mk ParquetType.BYTE_ARRAY (LogicalType.DECIMAL 5 2) 0)
       sample_ctx)
    Invalid
  /\
  exists out reader',
    TransferColumnData (sample_binary_reader [sample_binary_chunk [48; 57]])
      None (Field.mk (decimal_type Decimal128 5 2) true)
      (ColumnDescriptor.mk ParquetType.BYTE_ARRAY (LogicalType.DECIMAL 5 2) 0)
      sample_ctx
    = Ok (Some out, reader') /\
    Forall2
      (fun chunk o =>
         exists data,
           ArrayData.buffer o 1 = Some data /\
           forall i, 0 <= i < ArrayData.length chunk ->
             is_converted chunk i = true ->
             let stored := take (Z.to_nat (snd (BinaryArray_GetValue chunk i)))
                             (fst (BinaryArray_GetValue chunk i)) in
             read_bytes (buf_bytes data) (i * decimal_size Decimal128)
               (Z.to_nat (decimal_size Decimal128))
             = ToBytes Decimal128 (be_signed stored) /\
             le_signed (ToBytes Decimal128 (be_signed stored)) = be_signed stored)
      [sample_binary_chunk [48; 57]] (ChunkedArray.chunks out).
Proof.
  split.
  - apply (proj1 (byte_array_decimal_transfer
                    (sample_binary_reader [sample_binary_chunk (replicate 17 1)])
                    None true
                    (ColumnDescriptor.mk ParquetType.BYTE_ARRAY
                       (LogicalType.DECIMAL 5 2) 0)
                    sample_ctx Decimal128 5 2
                    [sample_binary_chunk (replicate 17 1)]
                    eq_refl eq_refl
                    ltac:(repeat constructor; vm_compute; discriminate))).
    constructor. exists 0. split; [vm_compute; intuition discriminate|].
    unfold record_len_in_range. vm_compute. intros [_ H]. apply H. reflexivity.
  - apply (proj2 (byte_array_decimal_transfer
                    (sample_binary_reader [sample_binary_chunk [48; 57]])
                    None true
                    (ColumnDescriptor.mk ParquetType.BYTE_ARRAY
                       (LogicalType.DECIMAL 5 2) 0)
                    sample_ctx Decimal128 5 2 [sample_binary_chunk [48; 57]]
                    eq_refl eq_refl
                    ltac:(repeat constructor; vm_compute; discriminate))).
    repeat constructor; vm_compute; discriminate.
Defined.

(** 12345 stored in two big-endian bytes becomes the 128-bit decimal 12345; a
    value of seventeen bytes does not fit a 128-bit decimal. *)
Example byte_array_decimal_examples :
  TransferColumnData (sample_binary_reader [sample_binary_chunk [48; 57]])
    None (Field.mk (DECIMAL128 5 2) true)
    (ColumnDescriptor.mk ParquetType.BYTE_ARRAY (LogicalType.DECIMAL 5 2) 0)
    sample_ctx
  = Ok (Some (ChunkedArray.mk
                [PrimitiveArray (DECIMAL128 5 2) 1
                   (mkBuffer 1000 (ToBytes Decimal128 12345)) None 0]
                (DECIMAL128 5 2)),
        sample_binary_reader [sample_binary_chunk [48; 57]])
  /\ TransferColumnData
       (sample_binary_reader [sample_binary_chunk (replicate 17 1)])
       None (Field.mk (DECIMAL128 5 2) true)
       (ColumnDescriptor.mk ParquetType.BYTE_ARRAY (LogicalType.DECIMAL 5 2) 0)
       sample_ctx
     = Err Invalid "Invalid BYTE_ARRAY length for ".
Proof. split; vm_compute; reflexivity. Qed.

(** ** The dispatcher as a whole *)

(** The switch always leaves an array or a chunked array in [result]: the
    [DCHECK(false)] after it is never reached. *)
Lemma TransferColumnData_assigns_out `{RT : ArrowRuntime}
    (reader reader' : RecordReader.t) (metadata : option ColumnChunkMetaData.t)
    (value_field : Field.t) (descr : ColumnDescriptor.t)
    (ctx : ReaderContext.t) (out : option ChunkedArray.t) :
  TransferColumnData reader metadata value_field descr ctx = Ok (out, reader') ->
  is_Some out.
Proof.
  unfold TransferColumnData.
  assert (Harr : forall r,
            (forall d r', r = Ok (d, r') -> exists array, d = Datum_ARRAY array /\ True) ->
            finish r = Ok (out, reader') -> is_Some out).
  { intros r Hr Hf. destruct r as [[d r']|]; [|discriminate].
    destruct (Hr d r' eq_refl) as (array & -> & _).
    cbn in Hf. injection Hf as <- <-. eexists. reflexivity. }
  assert (Hch : forall r, finish (chunked r) = Ok (out, reader') -> is_Some out).
  { intros r Hf. destruct r as [[c r']|]; [|discriminate].
    cbn in Hf. injection Hf as <- <-. eexists. reflexivity. }
  assert (Hzc : forall r, finish (zero_copy r) = Ok (out, reader') -> is_Some out).
  { intros r Hf. cbn in Hf. injection Hf as <- <-. eexists. reflexivity. }
  assert (Hint : forall A P,
            finish (TransferInt A P reader metadata ctx value_field)
            = Ok (out, reader') -> is_Some out).
  { intros A P. apply Harr. intros d r' H.
    destruct (TransferInt_nulls _ _ _ _ _ _ _ _ H) as (a & -> & _). eauto. }
  assert (Hdi : forall k E,
            finish (DecimalIntegerTransfer k E reader (ReaderContext.pool ctx)
                      value_field)
            = Ok (out, reader') -> is_Some out).
  { intros k E. apply Harr. intros d r' H.
    destruct (DecimalIntegerTransfer_nulls _ _ _ _ _ _ _ H) as (a & -> & _). eauto. }
  assert (Hdec : forall k p,
            finish (TransferDecimal k p reader (ReaderContext.pool ctx) value_field)
            = Ok (out, reader') -> is_Some out).
  { intros k p. unfold TransferDecimal.
    destruct (RecordReader.builder_chunks reader) as [chunks|]; [|discriminate].
    destruct (for_each_chunk _ chunks) as [cs|]; cbn [mbind Result_bind];
      [|discriminate].
    intros Hf. cbn in Hf. injection Hf as <- <-. eexists. reflexivity. }
  destruct (Field.type value_field); try discriminate; eauto.
  - intros Hf. cbn in Hf. injection Hf as <- <-. eexists. reflexivity.
  - apply Harr. intros d r' H.
    destruct (TransferBool_nulls _ _ _ _ _ _ H) as (a & -> & _). eauto.
  - destruct (ColumnDescriptor.physical_type descr); try discriminate.
    destruct (negb _); [discriminate|].
    unfold TransferHalfFloat.
    destruct (TransferBinary _ _ _) as [[c r']|]; cbn [mbind Result_bind];
      [|discriminate].
    destruct (View c _) as [v|]; cbn [mbind Result_bind]; [|discriminate].
    intros Hf. cbn in Hf. injection Hf as <- <-. eexists. reflexivity.
  - apply Harr. intros d r' H.
    destruct (TransferDate64_nulls _ _ _ _ _ H) as (a & -> & _). eauto.
  - destruct (ColumnDescriptor.physical_type descr), unit;
      try discriminate; eauto;
      apply Harr; intros d r' H;
      destruct (TransferInt96_nulls _ _ _ _ _ _ H) as (a & -> & _); eauto.
  - destruct (ColumnDescriptor.physical_type descr); try discriminate; eauto.
  - destruct (ColumnDescriptor.physical_type descr); try discriminate; eauto.
Qed.

(** The examples of the spec.  A nullable int32 column [1, null, 3] read as
    int16: the values are narrowed, the validity buffer is the reader's and
    the null count its 1.  A timestamp in seconds stored as int64 is not
    implemented.  A non-nullable dictionary column loses the validity buffer
    its chunk came with. *)
Example TransferColumnData_examples :
  TransferColumnData
    (sample_reader 3 (le_split 4 1 ++ le_split 4 0 ++ le_split 4 3) 1)
    None (Field.mk INT16 true)
    (ColumnDescriptor.mk ParquetType.INT32 (LogicalType.INT 16 true) 0)
    sample_ctx
  = Ok (Some (ChunkedArray.of_array
                (ArrayData.Make INT16 3
                   [Some (mkBuffer 2 [255]);
                    Some (mkBuffer 1000
                            (le_split 2 1 ++ le_split 2 0 ++ le_split 2 3))] 1)),
        snd (RecordReader.ReleaseIsValid
               (sample_reader 3 (le_split 4 1 ++ le_split 4 0 ++ le_split 4 3) 1)))
  /\ TransferColumnData (sample_reader 1 (le_split 8 5) 0) None
       (Field.mk (TIMESTAMP TimeUnit.SECOND) true)
       (ColumnDescriptor.mk ParquetType.INT64
          (LogicalType.TIMESTAMP true LogicalType.MILLIS) 0)
       sample_ctx
     = Err NotImplemented "TimeUnit not supported"
  /\ fst <$>
       match
         TransferColumnData
           (RecordReader.mk 1 None None 1 true true None
              (Some (ChunkedArray.mk
                       [ArrayData.Make (DICTIONARY INT32 STRING) 1
                          [Some (mkBuffer 9 [0]); Some (mkBuffer 8 [0; 0; 0; 0])] 1]
                       (DICTIONARY INT32 STRING))))
           None (Field.mk (DICTIONARY INT32 STRING) false)
           (ColumnDescriptor.mk ParquetType.BYTE_ARRAY LogicalType.STRING 0)
           sample_ctx
       with
       | Ok r => Some r
       | Err _ _ => None
       end
     = Some (Some (ChunkedArray.mk
                     [ArrayData.Make (DICTIONARY INT32 STRING) 1
                        [None; Some (mkBuffer 8 [0; 0; 0; 0])] 0]
                     (DICTIONARY INT32 STRING))).
Proof. repeat split; vm_compute; reflexivity. Qed.

(** * Further properties of the transfers *)

(** ** The elementwise transfer *)

Lemma TransferInt_result (A P : CType) (reader : RecordReader.t)
    (metadata : option ColumnChunkMetaData.t) (ctx : ReaderContext.t)
    (field : Field.t) (data0 : Buffer) :
  AllocateBuffer (RecordReader.values_written reader * sizeof A)
    (ReaderContext.pool ctx) = Ok data0 ->
  exists array,
    TransferInt A P reader metadata ctx field
    = Ok (Datum_ARRAY array,
          after_release_is_valid (Field.nullable field) reader) /\
    ArrayData.type array = Field.type field /\
    ArrayData.length array = RecordReader.values_written reader /\
    ArrayData.buffer array 1 =
      Some (with_bytes data0
              (for_range (RecordReader.values_written reader)
                 (fun i out =>
                    store_c A out i
                      (convert_c A (load_c P (RecordReader.values_bytes reader) i)))
                 (buf_bytes data0))).
Proof.
  intros Halloc. unfold TransferInt. rewrite Halloc.
  cbv beta iota zeta delta [mbind Result_bind].
  destruct (Field.nullable field);
    cbn [RecordReader.ReleaseIsValid after_release_is_valid snd];
    eexists; (split; [reflexivity|]); unfold MakeArray;
    rewrite AttachStatistics_buffer, AttachStatistics_length;
    (split; [apply AttachStatistics_frame|]); split; reflexivity.
Qed.

Lemma wrap_signed_idem (bits v : Z) :
  0 < bits -> wrap_signed bits (wrap_signed bits v) = wrap_signed bits v.
Proof.
  intros Hb. apply wrap_signed_id; [assumption | apply wrap_signed_range; assumption].
Qed.

(** The elementwise transfer to an integer type of 8, 16, 32 or 64 bits:
    element [i] of the output is element [i] of the reader converted to the
    target type ([static_cast]), the output is a buffer of the pool, and
    the reader still holds its value buffer. *)
Theorem TransferInt_converts_each_value (bits : Z) (is_signed : bool)
    (P : CType) (reader : RecordReader.t)
    (metadata : option ColumnChunkMetaData.t) (ctx : ReaderContext.t)
    (field : Field.t) (data0 : Buffer) :
  bits = 8 \/ bits = 16 \/ bits = 32 \/ bits = 64 ->
  AllocateBuffer (RecordReader.values_written reader * sizeof (c_int bits is_signed))
    (ReaderContext.pool ctx) = Ok data0 ->
  exists array reader' data,
    TransferInt (c_int bits is_signed) P reader metadata ctx field
    = Ok (Datum_ARRAY array, reader') /\
    ArrayData.type array = Field.type field /\
    ArrayData.length array = RecordReader.values_written reader /\
    ArrayData.buffer array 1 = Some data /\
    buf_id data = pool_fresh_id (ReaderContext.pool ctx) /\
    Z.of_nat (List.length (buf_bytes data))
    = RecordReader.values_written reader * (bits / 8) /\
    RecordReader.values reader' = RecordReader.values reader /\
    forall i, 0 <= i < RecordReader.values_written reader ->
      load_c (c_int bits is_signed) (buf_bytes data) i
      = static_cast_int bits is_signed
          (load_c P (RecordReader.values_bytes reader) i).
Proof.
  intros Hbits Halloc.
  destruct (TransferInt_result (c_int bits is_signed) P reader metadata ctx field
              data0 Halloc) as (array & Hrun & Hty & Hlen & Hbuf).
  destruct (AllocateBuffer_Ok _ _ _ Halloc) as [Hsize Hl0].
  assert (Hid : buf_id data0 = pool_fresh_id (ReaderContext.pool ctx)).
  { unfold AllocateBuffer in Halloc.
    destruct (_ <? 0); [discriminate|].
    destruct (_ <? _); [discriminate|]. injection Halloc as <-. reflexivity. }
  set (w := Z.to_nat (bits / 8)).
  assert (Hw : Z.of_nat w = bits / 8 /\ (0 < w)%nat /\ 8 * Z.of_nat w = bits).
  { unfold w. destruct Hbits as [-> | [-> | [-> | ->]]]; repeat split;
      vm_compute; try reflexivity; lia. }
  destruct Hw as (Hw1 & Hw2 & Hw3).
  set (f := fun i : Z =>
              convert_c (c_int bits is_signed)
                (load_c P (RecordReader.values_bytes reader) i)).
  destruct (store_loop_load w f (RecordReader.values_written reader)
              (buf_bytes data0) Hw2) as [Hl Hload].
  { rewrite Hl0. cbn [sizeof]. rewrite Hw1. reflexivity. }
  cbv zeta in Hl, Hload.
  change (for_range (RecordReader.values_written reader)
            (fun i out =>
               store_c (c_int bits is_signed) out i
                 (convert_c (c_int bits is_signed)
                    (load_c P (RecordReader.values_bytes reader) i)))
            (buf_bytes data0))
    with (for_range (RecordReader.values_written reader)
            (fun i out => store_int w out i (f i)) (buf_bytes data0)) in Hbuf.
  do 3 eexists. split; [exact Hrun|]. split; [exact Hty|].
  split; [exact Hlen|]. split; [exact Hbuf|].
  cbn [buf_id buf_bytes with_bytes]. split; [exact Hid|].
  split; [rewrite Hl, Hl0; cbn [sizeof] in *; apply Z2Nat.id; exact Hsize|].
  split; [destruct (Field.nullable field); reflexivity|].
  intros i Hi. destruct (Hload i Hi) as [Hu Hs].
  assert (Hbpos : 0 < bits) by lia.
  unfold load_c. destruct is_signed.
  - fold w. rewrite Hs, Hw3. unfold f, convert_c, static_cast_int.
    apply wrap_signed_idem. assumption.
  - cbn [sizeof]. fold w. rewrite Hu, Hw3. unfold f, convert_c, static_cast_int,
      wrap_unsigned.
    apply Z.mod_mod. apply Z.pow_nonzero; lia.
Qed.

Lemma TransferInt_converts_each_value_witness :
  exists array reader' data,
    TransferInt (c_int 8 false) int32_t
      (sample_reader 2 (le_split 4 (-1) ++ le_split 4 300) 0) None sample_ctx
      (Field.mk UINT8 false)
    = Ok (Datum_ARRAY array, reader') /\
    ArrayData.type array = UINT8 /\
    ArrayData.length array = 2 /\
    ArrayData.buffer array 1 = Some data /\
    buf_id data = 1000 /\
    Z.of_nat (List.length (buf_bytes data)) = 2 * (8 / 8) /\
    RecordReader.values reader'
    = Some (mkBuffer 1 (le_split 4 (-1) ++ le_split 4 300)) /\
    forall i, 0 <= i < 2 ->
      load_c (c_int 8 false) (buf_bytes data) i
      = static_cast_int 8 false
          (load_c int32_t (le_split 4 (-1) ++ le_split 4 300) i).
Proof.
  apply (TransferInt_converts_each_value 8 false int32_t
           (sample_reader 2 (le_split 4 (-1) ++ le_split 4 300) 0) None
           sample_ctx (Field.mk UINT8 false) (mkBuffer 1000 [170; 171])).
  - auto.
  - reflexivity.
Defined.

(** ** More on bytes *)

Lemma le_combine_bound (bs : list byte) :
  bytes_ok bs -> 0 <= le_combine bs < 2 ^ (8 * Z.of_nat (List.length bs)).
Proof.
  induction 1 as [|b bs Hb _ IH]; cbn [le_combine List.length].
  - change (2 ^ (8 * Z.of_nat 0)) with 1. lia.
  - replace (8 * Z.of_nat (S (List.length bs)))
      with (8 + 8 * Z.of_nat (List.length bs)) by lia.
    rewrite Z.pow_add_r by lia. change (2 ^ 8) with 256. lia.
Qed.

Lemma le_split_combine (bs : list byte) :
  bytes_ok bs -> le_split (List.length bs) (le_combine bs) = bs.
Proof.
  induction 1 as [|b bs Hb _ IH]; cbn [le_combine List.length le_split].
  - reflexivity.
  - f_equal.
    + rewrite (Z.mul_comm 256), Z.mod_add by lia. apply Z.mod_small. lia.
    + rewrite (Z.mul_comm 256), Z.div_add by lia.
      rewrite (Z.div_small b 256) by lia. exact IH.
Qed.

Lemma le_split_mod (n : nat) (v : Z) :
  le_split n (v mod 2 ^ (8 * Z.of_nat n)) = le_split n v.
Proof.
  revert v. induction n as [|n IH]; intros v; cbn [le_split]; [reflexivity|].
  replace (8 * Z.of_nat (S n)) with (8 + 8 * Z.of_nat n) by lia.
  rewrite Z.pow_add_r by lia. change (2 ^ 8) with 256.
  assert (Hp : 0 < 2 ^ (8 * Z.of_nat n)) by (apply Z.pow_pos_nonneg; lia).
  rewrite Z.rem_mul_r by lia. f_equal.
  - rewrite (Z.mul_comm 256), Z.mod_add by lia. apply Z.mod_mod. lia.
  - rewrite (Z.mul_comm 256), Z.div_add by lia.
    rewrite (Z.div_small (v mod 256) 256) by (apply Z.mod_pos_bound; lia).
    apply IH.
Qed.

Lemma wrap_signed_congruent (bits v : Z) :
  0 < bits -> wrap_signed bits v mod 2 ^ bits = v mod 2 ^ bits.
Proof.
  intros Hb. unfold wrap_signed.
  assert (Hp : 0 < 2 ^ bits) by (apply Z.pow_pos_nonneg; lia).
  rewrite Zminus_mod, Z.mod_mod, <- Zminus_mod by lia.
  f_equal. lia.
Qed.

Lemma le_split_wrap_signed (n : nat) (v : Z) :
  (0 < n)%nat -> le_split n (wrap_signed (8 * Z.of_nat n) v) = le_split n v.
Proof.
  intros Hn. rewrite <- le_split_mod, wrap_signed_congruent by lia.
  apply le_split_mod.
Qed.

Lemma le_split_app (n m : nat) (v : Z) :
  le_split (n + m) v = le_split n v ++ le_split m (v / 2 ^ (8 * Z.of_nat n)).
Proof.
  revert v. induction n as [|n IH]; intros v; cbn [le_split Nat.add app].
  - change (2 ^ (8 * Z.of_nat 0)) with 1. rewrite Z.div_1_r. reflexivity.
  - f_equal. rewrite IH. do 2 f_equal.
    replace (8 * Z.of_nat (S n)) with (8 + 8 * Z.of_nat n) by lia.
    rewrite Z.pow_add_r by lia. change (2 ^ 8) with 256.
    rewrite Z.div_div by (try apply Z.pow_pos_nonneg; lia). reflexivity.
Qed.

Lemma le_split_0 (m : nat) : le_split m 0 = replicate m 0.
Proof. induction m as [|m IH]; cbn; [reflexivity | f_equal; exact IH]. Qed.

Lemma le_split_minus_1 (m : nat) : le_split m (-1) = replicate m 255.
Proof. induction m as [|m IH]; cbn; [reflexivity | f_equal; exact IH]. Qed.

Lemma le_combine_app (l : list byte) (b : byte) :
  le_combine (l ++ [b]) = le_combine l + 2 ^ (8 * Z.of_nat (List.length l)) * b.
Proof.
  induction l as [|a l IH]; cbn [le_combine app List.length].
  - change (2 ^ (8 * Z.of_nat 0)) with 1. lia.
  - rewrite IH.
    replace (8 * Z.of_nat (S (List.length l)))
      with (8 + 8 * Z.of_nat (List.length l)) by lia.
    rewrite Z.pow_add_r by lia. change (2 ^ 8) with 256. ring.
Qed.

Lemma bytes_ok_rev (bs : list byte) : bytes_ok bs -> bytes_ok (rev bs).
Proof.
  unfold bytes_ok. rewrite !Forall_forall. intros H b Hb.
  apply H. apply list_elem_of_In. apply in_rev. apply list_elem_of_In. exact Hb.
Qed.

Lemma bytes_ok_take (n : nat) (bs : list byte) : bytes_ok bs -> bytes_ok (take n bs).
Proof. apply Forall_take. Qed.

Lemma bytes_ok_read_bytes (bs : list byte) (off : Z) (n : nat) :
  bytes_ok bs -> bytes_ok (read_bytes bs off n).
Proof. intros H. unfold read_bytes. apply Forall_take, Forall_drop, H. Qed.

Lemma lookup_read_bytes (bs : list byte) (off : Z) (n r : nat) :
  (r < n)%nat -> read_bytes bs off n !! r = bs !! (Z.to_nat off + r)%nat.
Proof.
  intros Hr. unfold read_bytes. rewrite lookup_take_lt by assumption.
  apply lookup_drop.
Qed.

Lemma length_read_bytes (bs : list byte) (off : Z) (n : nat) :
  (Z.to_nat off + n <= List.length bs)%nat ->
  List.length (read_bytes bs off n) = n.
Proof.
  intros H. unfold read_bytes. rewrite length_take, length_drop. lia.
Qed.

(** Two buffers of [n] slots of [w] bytes with the same slots are equal. *)
Lemma slots_eq (w : nat) (n : Z) (a b : list byte) :
  (0 < w)%nat -> 0 <= n ->
  List.length a = Z.to_nat (n * Z.of_nat w) ->
  List.length b = Z.to_nat (n * Z.of_nat w) ->
  (forall i, 0 <= i < n ->
     read_bytes a (i * Z.of_nat w) w = read_bytes b (i * Z.of_nat w) w) ->
  a = b.
Proof.
  intros Hw Hn Ha Hb Hslots. apply list_eq. intros j.
  destruct (decide (j < List.length a)%nat) as [Hj|Hj].
  - pose proof (Nat.div_mod_eq j w) as Hdm.
    pose proof (Nat.mod_upper_bound j w ltac:(lia)) as Hr.
    assert (Hi : 0 <= Z.of_nat (j / w) < n).
    { split; [lia|]. rewrite Ha in Hj.
      assert (Z.of_nat j < n * Z.of_nat w) by lia.
      assert (Z.of_nat (j / w) * Z.of_nat w <= Z.of_nat j) by nia. nia. }
    pose proof (f_equal (fun l => l !! (j mod w)%nat) (Hslots _ Hi)) as E.
    cbv beta in E. rewrite !lookup_read_bytes in E by assumption.
    replace (Z.to_nat (Z.of_nat (j / w) * Z.of_nat w) + j mod w)%nat with j
      in E by nia.
    exact E.
  - rewrite !(proj2 (lookup_ge_None _ _)); [reflexivity | lia | lia].
Qed.

Lemma store_loop_slots (width : nat) (f : Z -> Z) (n : Z) (bs0 : list byte) :
  List.length bs0 = Z.to_nat (n * Z.of_nat width) ->
  let out := for_range n (fun i out => store_int width out i (f i)) bs0 in
  List.length out = List.length bs0 /\
  forall i, 0 <= i < n ->
    read_bytes out (i * Z.of_nat width) width = le_split width (f i).
Proof.
  intros Hlen. cbv zeta.
  rewrite (for_range_ext n _
             (fun i out => write_bytes out (i * Z.of_nat width)
                             (le_split width (f i)))).
  2:{ intros i acc _. unfold store_int, store_int_at.
      rewrite (Z.mul_comm (Z.of_nat width) i). reflexivity. }
  apply (write_loop_read width (fun i => le_split width (f i)) n bs0
           (fun i => length_le_split width (f i)) Hlen).
Qed.

(** A conversion between integer types of the same width does not change
    the bytes of a value. *)
Lemma le_split_same_width (bits : Z) (w : nat) (sA sP : bool)
    (bs : list byte) (i : Z) :
  (0 < w)%nat -> 8 * Z.of_nat w = bits -> Z.of_nat w = bits / 8 ->
  bytes_ok bs ->
  0 <= i -> (Z.to_nat (i * Z.of_nat w) + w <= List.length bs)%nat ->
  le_split w (convert_c (c_int bits sA) (load_c (c_int bits sP) bs i))
  = read_bytes bs (i * Z.of_nat w) w.
Proof.
  intros Hw H8 Hq Hok Hi Hlen. subst bits.
  assert (Hslot : le_split w (le_combine (read_bytes bs (i * Z.of_nat w) w))
                  = read_bytes bs (i * Z.of_nat w) w).
  { rewrite <- (length_read_bytes bs (i * Z.of_nat w) w Hlen) at 1.
    apply le_split_combine, bytes_ok_read_bytes, Hok. }
  assert (Hload : le_split w (load_c (c_int (8 * Z.of_nat w) sP) bs i)
                  = read_bytes bs (i * Z.of_nat w) w).
  { unfold load_c, load_signed, load_unsigned. cbn [sizeof].
    rewrite <- Hq, Nat2Z.id, (Z.mul_comm (Z.of_nat w) i).
    destruct sP; [rewrite le_split_wrap_signed by assumption|]; exact Hslot. }
  unfold convert_c, static_cast_int, wrap_unsigned.
  destruct sA; [rewrite le_split_wrap_signed by assumption
               |rewrite le_split_mod]; exact Hload.
Qed.

(** The elementwise transfer between integer types of the same width (an
    int32 column read as uint32, date32 or time32, an int64 column read as
    uint64, time64 or duration) copies the reader's values byte for byte. *)
Theorem TransferInt_same_width_copies (bits : Z) (sA sP : bool)
    (reader : RecordReader.t) (metadata : option ColumnChunkMetaData.t)
    (ctx : ReaderContext.t) (field : Field.t) (data0 : Buffer) :
  bits = 8 \/ bits = 16 \/ bits = 32 \/ bits = 64 ->
  bytes_ok (RecordReader.values_bytes reader) ->
  RecordReader.values_written reader * (bits / 8)
  <= Z.of_nat (List.length (RecordReader.values_bytes reader)) ->
  AllocateBuffer (RecordReader.values_written reader * sizeof (c_int bits sA))
    (ReaderContext.pool ctx) = Ok data0 ->
  exists array reader' data,
    TransferInt (c_int bits sA) (c_int bits sP) reader metadata ctx field
    = Ok (Datum_ARRAY array, reader') /\
    ArrayData.buffer array 1 = Some data /\
    buf_bytes data
    = take (Z.to_nat (RecordReader.values_written reader * (bits / 8)))
        (RecordReader.values_bytes reader).
Proof.
  intros Hbits Hok Hfit Halloc.
  destruct (TransferInt_result (c_int bits sA) (c_int bits sP) reader metadata
              ctx field data0 Halloc) as (array & Hrun & _ & _ & Hbuf).
  destruct (AllocateBuffer_Ok _ _ _ Halloc) as [Hsize Hl0].
  cbn [sizeof] in Hsize, Hl0.
  set (w := Z.to_nat (bits / 8)).
  assert (Hw : Z.of_nat w = bits / 8 /\ (0 < w)%nat /\ 8 * Z.of_nat w = bits).
  { unfold w. destruct Hbits as [-> | [-> | [-> | ->]]]; repeat split;
      vm_compute; try reflexivity; lia. }
  destruct Hw as (Hw1 & Hw2 & Hw3).
  set (N := RecordReader.values_written reader) in *.
  assert (HN : 0 <= N) by nia.
  set (f := fun i : Z =>
              convert_c (c_int bits sA)
                (load_c (c_int bits sP) (RecordReader.values_bytes reader) i)).
  change (for_range N
            (fun i out =>
               store_c (c_int bits sA) out i
                 (convert_c (c_int bits sA)
                    (load_c (c_int bits sP) (RecordReader.values_bytes reader) i)))
            (buf_bytes data0))
    with (for_range N (fun i out => store_int w out i (f i)) (buf_bytes data0))
    in Hbuf.
  destruct (store_loop_slots w f N (buf_bytes data0)) as [Hl Hslots].
  { rewrite Hl0, Hw1. reflexivity. }
  cbv zeta in Hl, Hslots.
  do 3 eexists. split; [exact Hrun|]. split; [exact Hbuf|].
  cbn [buf_bytes with_bytes]. rewrite <- Hw1.
  apply (slots_eq w N); try assumption.
  - rewrite Hl, Hl0, Hw1. reflexivity.
  - rewrite length_take. rewrite <- Hw1 in Hfit. lia.
  - intros i Hi. rewrite (Hslots i Hi). unfold f.
    rewrite <- Hw1 in Hfit.
    rewrite (le_split_same_width bits w sA sP) by (try assumption; nia).
    apply list_eq. intros r.
    destruct (decide (r < w)%nat) as [Hr|Hr].
    + rewrite !lookup_read_bytes by assumption.
      symmetry. apply lookup_take_lt. nia.
    + unfold read_bytes. rewrite !lookup_take_ge by lia. reflexivity.
Qed.

Lemma TransferInt_same_width_copies_witness :
  exists array reader' data,
    TransferInt (c_int 32 false) (c_int 32 true)
      (sample_reader 2 [255; 255; 255; 255; 44; 1; 0; 0; 9; 9] 0) None
      sample_ctx (Field.mk UINT32 true)
    = Ok (Datum_ARRAY array, reader') /\
    ArrayData.buffer array 1 = Some data /\
    buf_bytes data
    = take (Z.to_nat (2 * (32 / 8))) [255; 255; 255; 255; 44; 1; 0; 0; 9; 9].
Proof.
  apply (TransferInt_same_width_copies 32 false true
           (sample_reader 2 [255; 255; 255; 255; 44; 1; 0; 0; 9; 9] 0) None
           sample_ctx (Field.mk UINT32 true)
           (mkBuffer 1000 (map (fun k => (170 + Z.of_nat k) mod 256) (seq 0 8)))).
  - auto.
  - repeat constructor; lia.
  - vm_compute. discriminate.
  - reflexivity.
Defined.

(** ** The statistics decoder, continued *)

(** For chunk statistics with min and max present on an int64 column: an
    integer logical type of 8, 16, 32 or 64 bits gives scalars of the Arrow
    integer type of that width and signedness, holding the stored values
    converted to it; time, timestamp and none give scalars holding the
    stored values, of a type held in an [int64_t]; every other logical
    type, date among them, fails with NotImplemented. *)
Theorem int64_statistics_as_scalars `{RT : ArrowRuntime}
    (statistics : Statistics.t) (column_desc : ColumnDescriptor.t) :
  Statistics.HasMinMax statistics = true ->
  Statistics.descr statistics = Some column_desc ->
  ColumnDescriptor.physical_type column_desc = ParquetType.INT64 ->
  match ColumnDescriptor.logical_type column_desc with
  | LogicalType.INT bit_width is_signed =>
      match sized_integer_type bit_width is_signed with
      | Some ty =>
          StatisticsAsScalars statistics
          = Ok (Some (Scalar.mk ty
                        (v_int (static_cast_int bit_width is_signed
                                  (as_int (Statistics.min statistics))))),
                Some (Scalar.mk ty
                        (v_int (static_cast_int bit_width is_signed
                                  (as_int (Statistics.max statistics))))))
      | None => StatisticsAsScalars statistics = Ok (None, None)
      end
  | LogicalType.TIME _ _
  | LogicalType.TIMESTAMP _ _
  | LogicalType.NONE =>
      exists ty,
        c_type ty = Some int64_t /\
        StatisticsAsScalars statistics
        = Ok (Some (Scalar.mk ty (Statistics.min statistics)),
              Some (Scalar.mk ty (Statistics.max statistics)))
  | _ => is_Err (StatisticsAsScalars statistics) NotImplemented
  end.
Proof.
  intros Hmm Hd Hp. unfold StatisticsAsScalars. rewrite Hmm, Hd, Hp.
  cbn [negb]. unfold FromInt64Statistics.
  destruct (ColumnDescriptor.logical_type column_desc) eqn:Hl;
    cbn [FromInt64 mbind Result_bind];
    try (eexists; reflexivity).
  - exists (TIME64 (arrow_unit time_unit)). split; reflexivity.
  - exists (TIMESTAMP (arrow_unit time_unit)). split; reflexivity.
  - unfold MakeMinMaxIntegralScalar, descr_logical_type.
    rewrite Hd, Hl. cbn [IntLogicalType_bit_width IntLogicalType_is_signed].
    destruct (sized_integer_type bit_width is_signed) as [ty|] eqn:Hty.
    + destruct (sized_integer_type_cases _ _ _ Hty) as [Hw Hat].
      destruct Hw as [-> | [-> | [-> | ->]]]; cbn [Z.eqb Pos.eqb];
        destruct is_signed; cbn in Hat; subst ty; reflexivity.
    + unfold sized_integer_type in Hty.
      destruct (bit_width =? 8); [discriminate|].
      destruct (bit_width =? 16); [discriminate|].
      destruct (bit_width =? 32); [discriminate|].
      destruct (bit_width =? 64); [discriminate|]. reflexivity.
  - exists INT64. split; reflexivity.
Qed.

Lemma int64_statistics_as_scalars_witness :
  StatisticsAsScalars
    (sample_int64_statistics (LogicalType.INT 32 false) (-1) 5000000000)
  = Ok (Some (Scalar.mk UINT32 (v_int (static_cast_int 32 false (-1)))),
        Some (Scalar.mk UINT32 (v_int (static_cast_int 32 false 5000000000)))).
Proof.
  apply (int64_statistics_as_scalars
           (sample_int64_statistics (LogicalType.INT 32 false) (-1) 5000000000)
           (ColumnDescriptor.mk ParquetType.INT64 (LogicalType.INT 32 false) 0));
    reflexivity.
Defined.

(** The decoder returns scalars only for statistics that have min and max
    and a descriptor whose physical type is neither INT96 nor undefined.
    Missing min and max are reported as Invalid before the descriptor is
    looked at; a missing descriptor is Invalid; INT96 is NotImplemented. *)
Theorem StatisticsAsScalars_requirements `{RT : ArrowRuntime}
    (statistics : Statistics.t) :
  (forall r, StatisticsAsScalars statistics = Ok r ->
     Statistics.HasMinMax statistics = true /\
     exists column_desc,
       Statistics.descr statistics = Some column_desc /\
       ColumnDescriptor.physical_type column_desc <> ParquetType.INT96 /\
       ColumnDescriptor.physical_type column_desc <> ParquetType.UNDEFINED)
  /\
  (Statistics.HasMinMax statistics = false ->
   StatisticsAsScalars statistics = Err Invalid "Statistics has no min max.")
  /\
  (Statistics.HasMinMax statistics = true ->
   Statistics.descr statistics = None ->
   is_Err (StatisticsAsScalars statistics) Invalid)
  /\
  (forall column_desc,
     Statistics.HasMinMax statistics = true ->
     Statistics.descr statistics = Some column_desc ->
     ColumnDescriptor.physical_type column_desc = ParquetType.INT96
     \/ ColumnDescriptor.physical_type column_desc = ParquetType.UNDEFINED ->
     is_Err (StatisticsAsScalars statistics) NotImplemented).
Proof.
  unfold StatisticsAsScalars. repeat split.
  - destruct (Statistics.HasMinMax statistics); [reflexivity | discriminate].
  - destruct (Statistics.HasMinMax statistics); [|discriminate].
    cbn [negb] in H.
    destruct (Statistics.descr statistics) as [d|]; [|discriminate].
    exists d. split; [reflexivity|].
    destruct (ColumnDescriptor.physical_type d); split; discriminate.
  - intros ->. reflexivity.
  - intros -> ->. eexists. reflexivity.
  - intros column_desc -> -> [-> | ->]; eexists; reflexivity.
Qed.

Lemma StatisticsAsScalars_requirements_witness :
  StatisticsAsScalars
    (Statistics.mk false false 0 None (v_int 0) (v_int 0) [] [])
  = Err Invalid "Statistics has no min max.".
Proof.
  apply (proj1 (proj2 (StatisticsAsScalars_requirements
                         (Statistics.mk false false 0 None (v_int 0) (v_int 0)
                            [] [])))).
  reflexivity.
Defined.

Lemma FromBigEndianString_type (k : DecimalKind) (data : list byte)
    (arrow_type : DataType) (sc : Scalar.t) :
  FromBigEndianString k data arrow_type = Ok sc -> Scalar.type sc = arrow_type.
Proof.
  unfold FromBigEndianString.
  destruct (FromBigEndian _ _ _); cbn; [|discriminate].
  intros [= <-]. reflexivity.
Qed.

Lemma FromBigEndianString_fits (k : DecimalKind) (data : list byte)
    (arrow_type : DataType) :
  Z.of_nat (List.length data) <= decimal_size k ->
  FromBigEndianString k data arrow_type
  = Ok (Scalar.mk arrow_type (v_int (be_signed data))).
Proof.
  intros H. unfold FromBigEndianString.
  assert (Hk : decimal_size k = 16 \/ decimal_size k = 32)
    by (destruct k; [left | right]; reflexivity).
  rewrite wrap_signed_id by lia.
  rewrite FromBigEndian_Ok by lia.
  rewrite Nat2Z.id, firstn_all. reflexivity.
Qed.

Lemma FromBigEndianString_too_long (k : DecimalKind) (data : list byte)
    (arrow_type : DataType) :
  decimal_size k < Z.of_nat (List.length data) < 2 ^ 31 ->
  is_Err (FromBigEndianString k data arrow_type) Invalid.
Proof.
  intros H. unfold FromBigEndianString.
  assert (Hk : decimal_size k = 16 \/ decimal_size k = 32)
    by (destruct k; [left | right]; reflexivity).
  rewrite wrap_signed_id by lia.
  unfold FromBigEndian.
  destruct (Z.ltb_spec (decimal_size k) (Z.of_nat (List.length data))); [|lia].
  rewrite orb_true_r. eexists. reflexivity.
Qed.

Lemma FromBigEndianString_cases (k : DecimalKind) (data : list byte)
    (arrow_type : DataType) :
  Z.of_nat (List.length data) < 2 ^ 31 ->
  if Z.of_nat (List.length data) <=? decimal_size k
  then FromBigEndianString k data arrow_type
       = Ok (Scalar.mk arrow_type (v_int (be_signed data)))
  else is_Err (FromBigEndianString k data arrow_type) Invalid.
Proof.
  intros H.
  destruct (Z.leb_spec (Z.of_nat (List.length data)) (decimal_size k)).
  - apply FromBigEndianString_fits. assumption.
  - apply FromBigEndianString_too_long. lia.
Qed.

(** Statistics of a byte-array or fixed-length byte-array column of
    decimal logical type, whose encoded min and max are shorter than 2^31
    bytes.  When the precision and scale make a 128-bit decimal type, both
    scalars have that type and hold the encoded bytes read as big-endian
    two's-complement numbers, provided neither is longer than 16 bytes; a
    longer one is Invalid, and the 256-bit type is not tried.  Only when the
    128-bit type cannot be made is the 256-bit type used, with a limit of 32
    bytes; if that cannot be made either, its error is returned. *)
Theorem decimal_bytes_statistics_as_scalars `{RT : ArrowRuntime}
    (statistics : Statistics.t) (column_desc : ColumnDescriptor.t)
    (precision scale : Z) :
  Statistics.HasMinMax statistics = true ->
  Statistics.descr statistics = Some column_desc ->
  is_byte_array (ColumnDescriptor.physical_type column_desc) = true ->
  ColumnDescriptor.logical_type column_desc
  = LogicalType.DECIMAL precision scale ->
  Z.of_nat (List.length (Statistics.EncodeMin statistics)) < 2 ^ 31 ->
  Z.of_nat (List.length (Statistics.EncodeMax statistics)) < 2 ^ 31 ->
  let decoded ty :=
    Ok (Some (Scalar.mk ty (v_int (be_signed (Statistics.EncodeMin statistics)))),
        Some (Scalar.mk ty (v_int (be_signed (Statistics.EncodeMax statistics))))) in
  let fit width :=
    (Z.of_nat (List.length (Statistics.EncodeMin statistics)) <=? width)
    && (Z.of_nat (List.length (Statistics.EncodeMax statistics)) <=? width) in
  match Decimal128Type_Make precision scale with
  | Ok ty =>
      if fit 16 then StatisticsAsScalars statistics = decoded ty
      else is_Err (StatisticsAsScalars statistics) Invalid
  | Err _ _ =>
      match Decimal256Type_Make precision scale with
      | Ok ty =>
          if fit 32 then StatisticsAsScalars statistics = decoded ty
          else is_Err (StatisticsAsScalars statistics) Invalid
      | Err code msg => StatisticsAsScalars statistics = Err code msg
      end
  end.
Proof.
  intros Hmm Hd Hp Hl Hmin Hmax decoded fit. subst decoded fit.
  assert (Hs : StatisticsAsScalars statistics
               = ExtractDecimalMinMaxFromBytesType statistics
                   (LogicalType.DECIMAL precision scale)).
  { unfold StatisticsAsScalars. rewrite Hmm, Hd. cbn [negb].
    unfold ByteArrayStatisticsAsScalars, descr_logical_type.
    rewrite Hd, Hl.
    destruct (ColumnDescriptor.physical_type column_desc);
      try discriminate; reflexivity. }
  rewrite Hs. unfold ExtractDecimalMinMaxFromBytesType.
  pose proof (FromBigEndianString_cases Decimal128
                (Statistics.EncodeMin statistics)) as Hmin128.
  pose proof (FromBigEndianString_cases Decimal128
                (Statistics.EncodeMax statistics)) as Hmax128.
  pose proof (FromBigEndianString_cases Decimal256
                (Statistics.EncodeMin statistics)) as Hmin256.
  pose proof (FromBigEndianString_cases Decimal256
                (Statistics.EncodeMax statistics)) as Hmax256.
  cbn [decimal_size] in *.
  destruct (Decimal128Type_Make precision scale) as [ty|c m].
  - specialize (Hmin128 ty Hmin). specialize (Hmax128 ty Hmax).
    destruct (_ <=? 16).
    + rewrite Hmin128. cbn [mbind Result_bind andb].
      destruct (_ <=? 16).
      * rewrite Hmax128. reflexivity.
      * destruct Hmax128 as [msg ->]. eexists. reflexivity.
    + destruct Hmin128 as [msg ->]. eexists. reflexivity.
  - destruct (Decimal256Type_Make precision scale) as [ty|c' m'];
      cbn [mbind Result_bind]; [|reflexivity].
    specialize (Hmin256 ty Hmin). specialize (Hmax256 ty Hmax).
    destruct (_ <=? 32).
    + rewrite Hmin256. cbn [mbind Result_bind andb].
      destruct (_ <=? 32).
      * rewrite Hmax256. reflexivity.
      * destruct Hmax256 as [msg ->]. eexists. reflexivity.
    + destruct Hmin256 as [msg ->]. eexists. reflexivity.
Qed.

Lemma decimal_bytes_statistics_as_scalars_witness :
  StatisticsAsScalars
    (sample_bytes_statistics ParquetType.FIXED_LEN_BYTE_ARRAY
       (LogicalType.DECIMAL 10 2) 2 [255; 254] [1; 0])
  = Ok (Some (Scalar.mk (DECIMAL128 10 2) (v_int (be_signed [255; 254]))),
        Some (Scalar.mk (DECIMAL128 10 2) (v_int (be_signed [1; 0])))).
Proof.
  exact (decimal_bytes_statistics_as_scalars
           (sample_bytes_statistics ParquetType.FIXED_LEN_BYTE_ARRAY
              (LogicalType.DECIMAL 10 2) 2 [255; 254] [1; 0])
           (ColumnDescriptor.mk ParquetType.FIXED_LEN_BYTE_ARRAY
              (LogicalType.DECIMAL 10 2) 2) 10 2
           eq_refl eq_refl eq_refl eq_refl eq_refl eq_refl).
Defined.

(** Statistics of a byte-array or fixed-length byte-array column whose
    logical type is not decimal always decode: both scalars hold the
    encoded bytes unchanged.  A fixed-length column gives
    fixed-size-binary scalars of the column's type length whatever its
    logical type; a byte-array column gives utf8 scalars exactly when its
    logical type is string, and binary scalars otherwise. *)
Theorem bytes_statistics_as_scalars `{RT : ArrowRuntime}
    (statistics : Statistics.t) (column_desc : ColumnDescriptor.t) :
  Statistics.HasMinMax statistics = true ->
  Statistics.descr statistics = Some column_desc ->
  is_byte_array (ColumnDescriptor.physical_type column_desc) = true ->
  is_decimal_logical (ColumnDescriptor.logical_type column_desc) = false ->
  exists ty,
    StatisticsAsScalars statistics
    = Ok (Some (Scalar.mk ty (v_bytes (Statistics.EncodeMin statistics))),
          Some (Scalar.mk ty (v_bytes (Statistics.EncodeMax statistics)))) /\
    (ColumnDescriptor.physical_type column_desc
     = ParquetType.FIXED_LEN_BYTE_ARRAY ->
     ty = FIXED_SIZE_BINARY (ColumnDescriptor.type_length column_desc)) /\
    (ColumnDescriptor.physical_type column_desc = ParquetType.BYTE_ARRAY ->
     (ColumnDescriptor.logical_type column_desc = LogicalType.STRING ->
      ty = STRING) /\
     (ColumnDescriptor.logical_type column_desc <> LogicalType.STRING ->
      ty = BINARY)).
Proof.
  intros Hmm Hd Hp Hl. unfold StatisticsAsScalars. rewrite Hmm, Hd.
  cbn [negb].
  unfold ByteArrayStatisticsAsScalars, descr_logical_type,
    descr_physical_type, descr_type_length.
  rewrite Hd.
  destruct (ColumnDescriptor.physical_type column_desc); try discriminate;
    destruct (ColumnDescriptor.logical_type column_desc); try discriminate;
    cbn [mbind Result_bind MakeScalar_typed];
    eexists; (split; [reflexivity|]);
    (split; [intros; try discriminate; reflexivity|]);
    intros; try discriminate; split; intros; congruence.
Qed.

Lemma bytes_statistics_as_scalars_witness :
  exists ty,
    StatisticsAsScalars
      (sample_bytes_statistics ParquetType.FIXED_LEN_BYTE_ARRAY
         LogicalType.STRING 3 [97; 98; 99] [120; 121; 122])
    = Ok (Some (Scalar.mk ty (v_bytes [97; 98; 99])),
          Some (Scalar.mk ty (v_bytes [120; 121; 122]))) /\
    ty = FIXED_SIZE_BINARY 3.
Proof.
  destruct (bytes_statistics_as_scalars
              (sample_bytes_statistics ParquetType.FIXED_LEN_BYTE_ARRAY
                 LogicalType.STRING 3 [97; 98; 99] [120; 121; 122])
              (ColumnDescriptor.mk ParquetType.FIXED_LEN_BYTE_ARRAY
                 LogicalType.STRING 3)
              eq_refl eq_refl eq_refl eq_refl) as [ty [H1 [H2 _]]].
  exists ty. split; [exact H1 | exact (H2 eq_refl)].
Defined.

(** Whenever the decoder succeeds, the two outputs are either both
    assigned, to scalars of one and the same type, or both left unassigned;
    the latter happens only for an int32 or int64 column whose logical type
    is an integer of a width other than 8, 16, 32 and 64. *)
Theorem StatisticsAsScalars_min_max_agree `{RT : ArrowRuntime}
    (statistics : Statistics.t) (min max : option Scalar.t) :
  StatisticsAsScalars statistics = Ok (min, max) ->
  match min, max with
  | Some a, Some b => Scalar.type a = Scalar.type b
  | None, None =>
      exists column_desc bit_width is_signed,
        Statistics.descr statistics = Some column_desc /\
        ColumnDescriptor.logical_type column_desc
        = LogicalType.INT bit_width is_signed /\
        (ColumnDescriptor.physical_type column_desc = ParquetType.INT32 \/
         ColumnDescriptor.physical_type column_desc = ParquetType.INT64) /\
        sized_integer_type bit_width is_signed = None
  | _, _ => False
  end.
Proof.
  assert (Hint : forall d w s,
            Statistics.descr statistics = Some d ->
            ColumnDescriptor.logical_type d = LogicalType.INT w s ->
            ColumnDescriptor.physical_type d = ParquetType.INT32 \/
            ColumnDescriptor.physical_type d = ParquetType.INT64 ->
            forall ty,
            MakeMinMaxIntegralScalar statistics ty = Ok (min, max) ->
            match min, max with
            | Some a, Some b => Scalar.type a = Scalar.type b
            | None, None =>
                exists column_desc bit_width is_signed,
                  Statistics.descr statistics = Some column_desc /\
                  ColumnDescriptor.logical_type column_desc
                  = LogicalType.INT bit_width is_signed /\
                  (ColumnDescriptor.physical_type column_desc
                   = ParquetType.INT32 \/
                   ColumnDescriptor.physical_type column_desc
                   = ParquetType.INT64) /\
                  sized_integer_type bit_width is_signed = None
            | _, _ => False
            end).
  { intros d w s Hd Hl Hp ty.
    unfold MakeMinMaxIntegralScalar, descr_logical_type. rewrite Hd, Hl.
    cbn [IntLogicalType_bit_width IntLogicalType_is_signed].
    destruct (w =? 8) eqn:H8; [destruct s; intros [= <- <-]; reflexivity|].
    destruct (w =? 16) eqn:H16; [destruct s; intros [= <- <-]; reflexivity|].
    destruct (w =? 32) eqn:H32; [destruct s; intros [= <- <-]; reflexivity|].
    destruct (w =? 64) eqn:H64; [destruct s; intros [= <- <-]; reflexivity|].
    intros [= <- <-]. exists d, w, s. repeat split; try assumption.
    unfold sized_integer_type. rewrite H8, H16, H32, H64. reflexivity. }
  assert (Hdec : forall l,
            ExtractDecimalMinMaxFromBytesType statistics l = Ok (min, max) ->
            match min, max with
            | Some a, Some b => Scalar.type a = Scalar.type b
            | _, _ => False
            end).
  { intros l. unfold ExtractDecimalMinMaxFromBytesType.
    destruct l; cbn beta iota zeta;
      (destruct (Decimal128Type_Make _ _) as [ty|c m];
       [| destruct (Decimal256Type_Make _ _) as [ty|c' m'];
          cbn [mbind Result_bind]; [|discriminate]]);
      (destruct (FromBigEndianString _ (Statistics.EncodeMin statistics) ty)
         as [a|] eqn:Ha; cbn [mbind Result_bind]; [|discriminate]);
      (destruct (FromBigEndianString _ (Statistics.EncodeMax statistics) ty)
         as [b|] eqn:Hb; cbn [mbind Result_bind]; [|discriminate]);
      intros [= <- <-];
      rewrite (FromBigEndianString_type _ _ _ _ Ha),
        (FromBigEndianString_type _ _ _ _ Hb); reflexivity. }
  unfold StatisticsAsScalars.
  destruct (Statistics.HasMinMax statistics); [|discriminate]. cbn [negb].
  destruct (Statistics.descr statistics) as [d|] eqn:Hd; [|discriminate].
  destruct (ColumnDescriptor.physical_type d) eqn:Hp; try discriminate.
  - intros [= <- <-]. reflexivity.
  - unfold FromInt32Statistics.
    destruct (ColumnDescriptor.logical_type d) eqn:Hl;
      cbn [FromInt32 mbind Result_bind MakeMinMaxTypedScalar MakeScalar_typed];
      try discriminate; try (intros [= <- <-]; reflexivity).
    apply (Hint d _ _ eq_refl Hl). left. exact Hp.
  - unfold FromInt64Statistics.
    destruct (ColumnDescriptor.logical_type d) eqn:Hl;
      cbn [FromInt64 mbind Result_bind MakeMinMaxTypedScalar MakeScalar_typed];
      try discriminate; try (intros [= <- <-]; reflexivity).
    apply (Hint d _ _ eq_refl Hl). right. exact Hp.
  - intros [= <- <-]. reflexivity.
  - intros [= <- <-]. reflexivity.
  - unfold ByteArrayStatisticsAsScalars, descr_logical_type. rewrite Hd.
    intros H.
    destruct (ColumnDescriptor.logical_type d) eqn:Hl;
      try (apply Hdec in H; destruct min, max; tauto);
      cbn [mbind Result_bind MakeScalar_typed] in H;
      injection H as <- <-; reflexivity.
  - unfold ByteArrayStatisticsAsScalars, descr_logical_type. rewrite Hd.
    intros H.
    destruct (ColumnDescriptor.logical_type d) eqn:Hl;
      try (apply Hdec in H; destruct min, max; tauto);
      cbn [mbind Result_bind MakeScalar_typed] in H;
      injection H as <- <-; reflexivity.
Qed.

Lemma StatisticsAsScalars_min_max_agree_witness :
  Scalar.type (Scalar.mk UINT32 (v_int (static_cast_int 32 false (-1))))
  = Scalar.type (Scalar.mk UINT32 (v_int (static_cast_int 32 false 5000000000))).
Proof.
  exact (StatisticsAsScalars_min_max_agree
           (sample_int64_statistics (LogicalType.INT 32 false) (-1) 5000000000)
           (Some (Scalar.mk UINT32 (v_int (static_cast_int 32 false (-1)))))
           (Some (Scalar.mk UINT32
                    (v_int (static_cast_int 32 false 5000000000))))
           eq_refl).
Defined.

(** ** Statistics attached to the arrays, continued *)

Lemma wrap_signed_widen (bits v : Z) :
  0 < bits <= 64 -> wrap_signed 64 (wrap_signed bits v) = wrap_signed bits v.
Proof.
  intros Hb. apply wrap_signed_id; [lia|].
  pose proof (wrap_signed_range bits v ltac:(lia)) as Hr.
  assert (2 ^ (bits - 1) <= 2 ^ (64 - 1))
    by (apply Z.pow_le_mono_r; lia).
  lia.
Qed.

Lemma wrap_unsigned_widen (bits v : Z) :
  0 < bits <= 64 -> wrap_unsigned 64 (wrap_unsigned bits v) = wrap_unsigned bits v.
Proof.
  intros Hb. unfold wrap_unsigned.
  assert (0 < 2 ^ bits) by (apply Z.pow_pos_nonneg; lia).
  pose proof (Z.mod_pos_bound v (2 ^ bits) ltac:(lia)) as Hr.
  assert (2 ^ bits <= 2 ^ 64) by (apply Z.pow_le_mono_r; lia).
  apply Z.mod_small. lia.
Qed.

(** For an integer target of at most 64 bits, the min and max attached to
    the array are the chunk's min and max narrowed to the target's C type
    first and widened to 64 bits afterwards: a signed target stores them as
    [int64_t], an unsigned target as [uint64_t], and a value outside the
    target's range is stored wrapped to it, not as the chunk recorded it. *)
Theorem AttachStatistics_integer_min_max (bits : Z) (is_signed : bool)
    (data : ArrayData.t) (md : ColumnChunkMetaData.t) (st : Statistics.t)
    (ctx : ReaderContext.t) :
  0 < bits <= 64 ->
  ColumnChunkMetaData.statistics md = Some st ->
  Statistics.HasMinMax st = true ->
  let stored v :=
    if is_signed then sv_int64 (wrap_signed bits (as_int v))
    else sv_uint64 (wrap_unsigned bits (as_int v)) in
  exists a,
    ArrayData.statistics
      (AttachStatistics (c_int bits is_signed) data (Some md) ctx) = Some a /\
    ArrayStatistics.min a = Some (stored (Statistics.min st)) /\
    ArrayStatistics.max a = Some (stored (Statistics.max st)).
Proof.
  intros Hb Hst Hmm stored. subst stored. unfold AttachStatistics.
  rewrite Hst, Hmm. cbn [is_Some_b negb]. rewrite andb_false_r.
  destruct is_signed; eexists; (split; [reflexivity|]);
    cbn [ArrayStatistics.min ArrayStatistics.max static_cast as_int
         static_cast_int];
    rewrite ?wrap_signed_widen, ?wrap_unsigned_widen by assumption;
    split; reflexivity.
Qed.

Lemma AttachStatistics_integer_min_max_witness :
  exists a,
    ArrayData.statistics
      (AttachStatistics uint8_t (ArrayData.Make UINT8 0 [] 0)
         (sample_metadata (-1) 300) sample_ctx) = Some a /\
    ArrayStatistics.min a = Some (sv_uint64 255) /\
    ArrayStatistics.max a = Some (sv_uint64 44).
Proof.
  exact (AttachStatistics_integer_min_max 8 false (ArrayData.Make UINT8 0 [] 0)
           (ColumnChunkMetaData.mk
              (Some (sample_int32_statistics LogicalType.NONE (-1) 300)))
           (sample_int32_statistics LogicalType.NONE (-1) 300) sample_ctx
           ltac:(lia) eq_refl eq_refl).
Defined.

(** What the attached statistics record, for every target type.  Unless
    the array's null count is unknown and the chunk has no statistics (then
    nothing is attached), a fresh record replaces the array's statistics:
    it holds the array's null count if that is known, the chunk's distinct
    count if the chunk has one, and min and max exactly when the chunk has
    statistics with min and max; each exactness flag is set exactly when
    the value it describes is. *)
Theorem AttachStatistics_records (c : CType) (data : ArrayData.t)
    (md : ColumnChunkMetaData.t) (ctx : ReaderContext.t) :
  let data' := AttachStatistics c data (Some md) ctx in
  let has_min_max :=
    match ColumnChunkMetaData.statistics md with
    | Some st => Statistics.HasMinMax st
    | None => false
    end in
  if (ArrayData.null_count data =? kUnknownNullCount)
     && negb (is_Some_b (ColumnChunkMetaData.statistics md))
  then data' = data
  else
    exists a,
      ArrayData.statistics data' = Some a /\
      ArrayStatistics.null_count a
      = (if ArrayData.null_count data =? kUnknownNullCount then None
         else Some (ArrayData.null_count data)) /\
      ArrayStatistics.distinct_count a
      = match ColumnChunkMetaData.statistics md with
        | Some st => if Statistics.HasDistinctCount st
                     then Some (Statistics.distinct_count st) else None
        | None => None
        end /\
      is_Some_b (ArrayStatistics.min a) = has_min_max /\
      is_Some_b (ArrayStatistics.max a) = has_min_max /\
      ArrayStatistics.is_min_exact a = has_min_max /\
      ArrayStatistics.is_max_exact a = has_min_max.
Proof.
  cbv zeta. unfold AttachStatistics.
  destruct (_ && _) eqn:Hskip; [reflexivity|].
  destruct (ArrayData.null_count data =? kUnknownNullCount);
    destruct (ColumnChunkMetaData.statistics md) as [st|];
    try discriminate; cbn [negb];
    try (destruct (Statistics.HasDistinctCount st);
         destruct (Statistics.HasMinMax st);
         destruct c as [|bits [|]| |]);
    eexists; (split; [reflexivity|]); cbn; repeat split; reflexivity.
Qed.

(** Dropping the validity buffers a second time changes nothing, and the
    first time changes nothing but the validity buffer and the null count:
    the number of chunks, and each chunk's type, length, statistics and other
    buffers are kept.  The null count becomes zero only in a chunk that had a
    validity buffer; a chunk without one keeps the null count it had. *)
Theorem ReconstructChunksWithoutNulls_idempotent (chunks : list Array) :
  ReconstructChunksWithoutNulls (ReconstructChunksWithoutNulls chunks)
  = ReconstructChunksWithoutNulls chunks /\
  Forall2
    (fun chunk out =>
       ArrayData.type out = ArrayData.type chunk /\
       ArrayData.length out = ArrayData.length chunk /\
       ArrayData.statistics out = ArrayData.statistics chunk /\
       ArrayData.buffer out 0 = None /\
       (forall i, (0 < i)%nat ->
          ArrayData.buffer out i = ArrayData.buffer chunk i) /\
       ArrayData.null_count out
       = if is_Some_b (ArrayData.buffer chunk 0) then 0
         else ArrayData.null_count chunk)
    chunks (ReconstructChunksWithoutNulls chunks).
Proof.
  assert (Hone : forall chunk,
            let out :=
              if is_Some_b (ArrayData.buffer chunk 0) then
                MakeArray
                  (ArrayData.mk (ArrayData.type chunk) (ArrayData.length chunk)
                     (<[0%nat := None]> (ArrayData.buffers chunk)) 0
                     (ArrayData.statistics chunk))
              else chunk in
            ArrayData.buffer out 0 = None).
  { intros chunk. cbv zeta.
    destruct (ArrayData.buffer chunk 0) as [b|] eqn:Hb; cbn [is_Some_b];
      [|exact Hb].
    unfold ArrayData.buffer, MakeArray in *. cbn [ArrayData.buffers].
    destruct (ArrayData.buffers chunk) as [|b0 bs]; [discriminate|].
    reflexivity. }
  split.
  - unfold ReconstructChunksWithoutNulls. rewrite map_map.
    apply map_ext. intros chunk. cbn beta zeta.
    cbn [ArrayData.type ArrayData.length ArrayData.buffers
         ArrayData.null_count ArrayData.statistics].
    specialize (Hone chunk). cbv zeta in Hone.
    cbn [ArrayData.type ArrayData.length ArrayData.buffers
         ArrayData.null_count ArrayData.statistics] in Hone.
    rewrite Hone. reflexivity.
  - unfold ReconstructChunksWithoutNulls.
    induction chunks as [|chunk chunks IH]; cbn [map]; constructor;
      [|exact IH].
    cbn beta zeta.
    cbn [ArrayData.type ArrayData.length ArrayData.buffers
         ArrayData.null_count ArrayData.statistics].
    specialize (Hone chunk). cbv zeta in Hone.
    destruct (is_Some_b (ArrayData.buffer chunk 0)) eqn:Hv.
    + repeat split; try reflexivity; [exact Hone|].
      intros i Hi. unfold ArrayData.buffer, MakeArray.
      cbn [ArrayData.buffers].
      destruct i; [lia|].
      destruct (ArrayData.buffers chunk) as [|b0 bs]; reflexivity.
    + repeat split; try reflexivity. exact Hone.
Qed.

(** ** Decimals from bytes, continued *)

Lemma le_split_be_signed (n : nat) (bs : list byte) :
  bytes_ok bs -> (List.length bs <= n)%nat ->
  le_split n (be_signed bs)
  = rev bs ++ replicate (n - List.length bs) (sign_fill bs).
Proof.
  intros Hok Hn. destruct bs as [|b bs].
  - change (be_signed []) with 0. cbn [rev sign_fill List.length app].
    rewrite Nat.sub_0_r. apply le_split_0.
  - unfold be_signed, be_combine. cbn [rev sign_fill].
    set (l := rev bs).
    assert (Hl : List.length l = List.length bs) by (apply length_rev).
    assert (Hokl : bytes_ok (l ++ [b])).
    { change (l ++ [b]) with (rev (b :: bs)). apply bytes_ok_rev, Hok. }
    assert (Hb : 0 <= b < 256) by (inversion Hok; assumption).
    assert (Hokl' : bytes_ok l).
    { apply Forall_app in Hokl. apply Hokl. }
    set (m := S (List.length bs)).
    assert (Hm : List.length (l ++ [b]) = m).
    { rewrite length_app, Hl. cbn. unfold m. lia. }
    change (List.length (b :: bs)) with m.
    set (v := le_combine (l ++ [b])).
    set (s := wrap_signed (8 * Z.of_nat m) v).
    replace n with (m + (n - m))%nat at 1 by (unfold m in *; cbn in Hn; lia).
    rewrite le_split_app.
    assert (Hlow : le_split m s = l ++ [b]).
    { unfold s. rewrite le_split_wrap_signed by (unfold m; lia).
      rewrite <- Hm. apply le_split_combine. exact Hokl. }
    rewrite Hlow. f_equal.
    pose proof (le_combine_bound _ Hokl) as Hv. rewrite Hm in Hv. fold v in Hv.
    pose proof (le_combine_bound _ Hokl') as Hvl.
    assert (Hvv : v = le_combine l + 2 ^ (8 * Z.of_nat (List.length l)) * b)
      by apply le_combine_app.
    set (M := 2 ^ (8 * Z.of_nat m)) in *.
    set (L := 2 ^ (8 * Z.of_nat (List.length l))) in *.
    assert (HM : M = 256 * L).
    { unfold M, L, m. rewrite Hl.
      replace (8 * Z.of_nat (S (List.length bs)))
        with (8 + 8 * Z.of_nat (List.length bs)) by lia.
      rewrite Z.pow_add_r by lia. reflexivity. }
    assert (HL : 0 < L) by (apply Z.pow_pos_nonneg; lia).
    assert (Hhalf : 2 ^ (8 * Z.of_nat m - 1) = 128 * L).
    { unfold L, m. rewrite Hl.
      replace (8 * Z.of_nat (S (List.length bs)) - 1)
        with (7 + 8 * Z.of_nat (List.length bs)) by lia.
      rewrite Z.pow_add_r by lia. reflexivity. }
    pose proof (wrap_signed_range (8 * Z.of_nat m) v ltac:(unfold m; lia)) as Hr.
    pose proof (wrap_signed_congruent (8 * Z.of_nat m) v ltac:(unfold m; lia)) as Hc.
    fold s in Hr, Hc. fold M in Hc. rewrite Hhalf in Hr.
    rewrite (Z.mod_small v M) in Hc by lia.
    pose proof (Z.div_mod s M ltac:(lia)) as Hdm. rewrite Hc in Hdm.
    destruct (Z.leb_spec 128 b).
    + assert (Hq : s / M = -1) by nia.
      rewrite Hq. apply le_split_minus_1.
    + assert (Hq : s / M = 0) by nia.
      rewrite Hq. apply le_split_0.
Qed.

(** One conversion, byte by byte.  For a length between zero and the size
    of the decimal, the slot of the output buffer at the offset receives
    the first [byte_width] bytes of the value in reverse order, followed by
    sign-extension bytes up to the size of the decimal; every byte of the
    buffer outside the slot is left as it was. *)
Theorem RawBytesToDecimalBytes_sign_extends (k : DecimalKind)
    (value : list byte) (byte_width : Z) (out_buf : list byte) (offset : Z) :
  0 <= byte_width <= decimal_size k ->
  bytes_ok (take (Z.to_nat byte_width) value) ->
  0 <= offset ->
  offset + decimal_size k <= Z.of_nat (List.length out_buf) ->
  let stored := take (Z.to_nat byte_width) value in
  exists out,
    RawBytesToDecimalBytes k value byte_width out_buf offset = Ok out /\
    List.length out = List.length out_buf /\
    read_bytes out offset (Z.to_nat (decimal_size k))
    = rev stored
      ++ replicate (Z.to_nat (decimal_size k) - List.length stored)
           (sign_fill stored) /\
    forall j : nat,
      (j < Z.to_nat offset \/ Z.to_nat (offset + decimal_size k) <= j)%nat ->
      out !! j = out_buf !! j.
Proof.
  intros Hw Hok Hoff Hfit stored. unfold RawBytesToDecimalBytes.
  rewrite FromBigEndian_Ok by assumption. cbn [mbind Result_bind].
  eexists. split; [reflexivity|]. fold stored.
  assert (Hlen : (List.length stored <= Z.to_nat (decimal_size k))%nat).
  { unfold stored. rewrite length_take. lia. }
  split; [apply length_write_bytes|]. split.
  - unfold ToBytes.
    pose proof (le_split_be_signed _ stored Hok Hlen) as Hsx.
    rewrite <- Hsx.
    pose proof (read_write_same out_buf offset
                  (le_split (Z.to_nat (decimal_size k)) (be_signed stored)))
      as Hsame.
    rewrite length_le_split in Hsame. apply Hsame; lia.
  - intros j Hj. unfold write_bytes.
    destruct Hj as [Hj|Hj].
    + apply list_lookup_inserts_lt. exact Hj.
    + apply list_lookup_inserts_ge. rewrite length_ToBytes. lia.
Qed.

Lemma RawBytesToDecimalBytes_sign_extends_witness :
  exists out,
    RawBytesToDecimalBytes Decimal128 [255; 254; 9] 2
      (replicate 18 7) 1 = Ok out /\
    read_bytes out 1 16 = [254; 255] ++ replicate 14 255 /\
    out !! 0%nat = Some 7 /\ out !! 17%nat = Some 7.
Proof.
  destruct (RawBytesToDecimalBytes_sign_extends Decimal128 [255; 254; 9] 2
              (replicate 18 7) 1)
    as (out & Hout & _ & Hslot & Hrest).
  - cbn. lia.
  - repeat constructor; lia.
  - lia.
  - cbn. lia.
  - exists out. split; [exact Hout|]. split; [exact Hslot|].
    split; [apply (Hrest 0%nat) | apply (Hrest 17%nat)]; cbn; lia.
Defined.

(** The conversion of one fixed-length chunk to decimals, when the width
    of its values is between zero and the size of the decimal and the
    allocation succeeds.  The array has the requested type, and the length,
    null count and validity buffer of the chunk.  For every row, the slot
    of the new value buffer denotes, as a little-endian two's-complement
    number, the integer that the first [byte_width] bytes of the value
    denote as a big-endian one; except that, in a chunk that reports nulls,
    the slot of a null row is filled with zeros and its value is not read. *)
Theorem ConvertToDecimal_FLBA_values `{RT : ArrowRuntime} (k : DecimalKind)
    (array : Array) (type : DataType) (pool : MemoryPool) (data0 : Buffer) :
  byte_width type = decimal_size k ->
  0 <= byte_width (ArrayData.type array) <= decimal_size k ->
  AllocateBuffer (ArrayData.length array * byte_width type) pool = Ok data0 ->
  exists a data,
    ConvertToDecimal_FLBA k array type pool = Ok a /\
    ArrayData.type a = type /\
    ArrayData.length a = ArrayData.length array /\
    ArrayData.null_count a = ArrayData.null_count array /\
    ArrayData.buffer a 0 = ArrayData.buffer array 0 /\
    ArrayData.buffer a 1 = Some data /\
    buf_id data = buf_id data0 /\
    List.length (buf_bytes data) = List.length (buf_bytes data0) /\
    forall i, 0 <= i < ArrayData.length array ->
      let slot := read_bytes (buf_bytes data) (i * decimal_size k)
                    (Z.to_nat (decimal_size k)) in
      if (0 <? ArrayData.null_count array) && IsNull array i
      then slot = replicate (Z.to_nat (decimal_size k)) 0
      else le_signed slot
           = be_signed (take (Z.to_nat (byte_width (ArrayData.type array)))
                          (FixedSizeBinaryArray_GetValue array i)).
Proof.
  intros Hw Hbw Halloc. unfold ConvertToDecimal_FLBA.
  rewrite Halloc. cbn [mbind Result_bind].
  destruct (AllocateBuffer_Ok _ _ _ Halloc) as [Hsize Hlen].
  rewrite Hw in *.
  pose proof (decimal_size_cases k) as Hk.
  set (n := ArrayData.length array) in *.
  set (nc := ArrayData.null_count array) in *.
  set (bw := byte_width (ArrayData.type array)) in *.
  set (w := Z.to_nat (decimal_size k)).
  assert (Hwz : Z.of_nat w = decimal_size k) by (unfold w; lia).
  set (g := fun i : Z =>
              if (0 <? nc) && IsNull array i then replicate w 0
              else ToBytes k (be_signed (take (Z.to_nat bw)
                                           (FixedSizeBinaryArray_GetValue array i)))).
  set (pure := fun (i : Z) (out : list byte) =>
                 write_bytes out (i * Z.of_nat w) (g i)).
  assert (Hloop :
    (if 0 <? nc
     then for_range_result n
            (fun i out =>
               if negb (IsNull array i)
               then RawBytesToDecimalBytes k
                      (FixedSizeBinaryArray_GetValue array i) bw out
                      (i * decimal_size k)
               else Ok (memset out (i * decimal_size k) 0 (decimal_size k)))
            (buf_bytes data0)
     else for_range_result n
            (fun i out =>
               RawBytesToDecimalBytes k
                 (FixedSizeBinaryArray_GetValue array i) bw out
                 (i * decimal_size k))
            (buf_bytes data0))
    = Ok (for_range n pure (buf_bytes data0))).
  { destruct (0 <? nc) eqn:Hnc; apply for_range_result_total;
      intros i acc Hi; unfold pure, g; rewrite Hwz; cbn [andb];
      [destruct (IsNull array i); cbn [negb]; [reflexivity|]|];
      unfold RawBytesToDecimalBytes;
      rewrite FromBigEndian_Ok by assumption; reflexivity. }
  rewrite Hloop. cbn [mbind Result_bind].
  destruct (write_loop_read w g n (buf_bytes data0)) as [Hl Hread].
  { intros i. unfold g. destruct (_ && _);
      [apply length_replicate | apply length_ToBytes]. }
  { rewrite Hwz. exact Hlen. }
  cbv zeta in Hl, Hread. fold pure in Hl, Hread.
  do 2 eexists. split; [reflexivity|].
  do 7 (split; [first [reflexivity | exact Hl]|]).
  intros i Hi. cbv zeta. cbn [buf_bytes with_bytes].
  pose proof (Hread i Hi) as Hr. rewrite Hwz in Hr.
  rewrite Hr. unfold g.
  destruct (_ && _); [reflexivity|].
  apply le_signed_ToBytes_be_signed. rewrite length_take. lia.
Qed.

Lemma ConvertToDecimal_FLBA_values_witness :
  exists a data,
    ConvertToDecimal_FLBA Decimal128 (sample_fixed_chunk 2 1 [255; 254])
      (DECIMAL128 10 2) sample_pool = Ok a /\
    ArrayData.buffer a 1 = Some data /\
    le_signed (read_bytes (buf_bytes data) 0 16) = be_signed [255; 254].
Proof.
  destruct (ConvertToDecimal_FLBA_values Decimal128
              (sample_fixed_chunk 2 1 [255; 254]) (DECIMAL128 10 2) sample_pool
              (mkBuffer 1000 (map (fun k => 170 + Z.of_nat k) (seq 0 16)))
              eq_refl ltac:(cbn; lia) eq_refl)
    as (a & data & Ha & _ & _ & _ & _ & Hd & _ & _ & Hv).
  exists a, data. split; [exact Ha|]. split; [exact Hd|].
  exact (Hv 0 ltac:(cbn; lia)).
Defined.

(** A fixed-length chunk whose values are wider than the decimal, or of
    negative width, is rejected with Invalid as soon as one of its rows is
    converted: any row of a chunk that reports no nulls, a non-null row of
    one that does. *)
Theorem ConvertToDecimal_FLBA_width_error `{RT : ArrowRuntime}
    (k : DecimalKind) (array : Array) (type : DataType) (pool : MemoryPool)
    (data0 : Buffer) (i : Z) :
  byte_width (ArrayData.type array) < 0
  \/ decimal_size k < byte_width (ArrayData.type array) ->
  AllocateBuffer (ArrayData.length array * byte_width type) pool = Ok data0 ->
  0 <= i < ArrayData.length array ->
  ArrayData.null_count array <= 0 \/ IsNull array i = false ->
  is_Err (ConvertToDecimal_FLBA k array type pool) Invalid.
Proof.
  intros Hbw Halloc Hi Hrow. unfold ConvertToDecimal_FLBA.
  rewrite Halloc. cbn [mbind Result_bind].
  assert (Hraw : forall value out off,
            is_Err (RawBytesToDecimalBytes k value
                      (byte_width (ArrayData.type array)) out off) Invalid).
  { intros value out off. unfold RawBytesToDecimalBytes, FromBigEndian.
    destruct (Z.ltb_spec (byte_width (ArrayData.type array)) 0);
      [eexists; reflexivity|].
    destruct (Z.ltb_spec (decimal_size k) (byte_width (ArrayData.type array)));
      [eexists; reflexivity | lia]. }
  assert (Hloop :
    is_Err
      (if 0 <? ArrayData.null_count array
       then for_range_result (ArrayData.length array)
              (fun i out =>
                 if negb (IsNull array i)
                 then RawBytesToDecimalBytes k
                        (FixedSizeBinaryArray_GetValue array i)
                        (byte_width (ArrayData.type array)) out
                        (i * byte_width type)
                 else Ok (memset out (i * byte_width type) 0 (byte_width type)))
              (buf_bytes data0)
       else for_range_result (ArrayData.length array)
              (fun i out =>
                 RawBytesToDecimalBytes k
                   (FixedSizeBinaryArray_GetValue array i)
                   (byte_width (ArrayData.type array)) out
                   (i * byte_width type))
              (buf_bytes data0))
      Invalid).
  { destruct (Z.ltb_spec 0 (ArrayData.null_count array)) as [Hnc|Hnc].
    - destruct Hrow as [Hrow|Hrow]; [lia|].
      apply (for_range_result_fails _ _ _ _ i); [| exact Hi |].
      + intros j acc _. destruct (IsNull array j); cbn [negb];
          [left; eexists; reflexivity | right; apply Hraw].
      + intros acc. rewrite Hrow. cbn [negb]. apply Hraw.
    - apply (for_range_result_fails _ _ _ _ i); [| exact Hi |].
      + intros j acc _. right. apply Hraw.
      + intros acc. apply Hraw. }
  destruct Hloop as [msg ->]. eexists. reflexivity.
Qed.

Lemma ConvertToDecimal_FLBA_width_error_witness :
  is_Err
    (ConvertToDecimal_FLBA Decimal128 (sample_fixed_chunk 17 1 (replicate 17 1))
       (DECIMAL128 10 2) sample_pool)
    Invalid.
Proof.
  apply (ConvertToDecimal_FLBA_width_error Decimal128
           (sample_fixed_chunk 17 1 (replicate 17 1)) (DECIMAL128 10 2)
           sample_pool
           (mkBuffer 1000 (map (fun k => 170 + Z.of_nat k) (seq 0 16))) 0).
  - right. cbn. lia.
  - reflexivity.
  - cbn. lia.
  - left. cbn. lia.
Defined.

Lemma lookup_write_bytes_outside (bs : list byte) (off : Z) (new : list byte)
    (j : nat) :
  (j < Z.to_nat off \/ Z.to_nat off + List.length new <= j)%nat ->
  write_bytes bs off new !! j = bs !! j.
Proof.
  intros [H|H]; unfold write_bytes.
  - apply list_lookup_inserts_lt. exact H.
  - apply list_lookup_inserts_ge. exact H.
Qed.

Lemma lookup_write_bytes_inside (bs : list byte) (off : Z) (new : list byte)
    (j : nat) :
  (Z.to_nat off <= j < Z.to_nat off + List.length new)%nat ->
  (j < List.length bs)%nat ->
  write_bytes bs off new !! j = new !! (j - Z.to_nat off)%nat.
Proof.
  intros H Hj. unfold write_bytes. apply list_lookup_inserts; assumption.
Qed.

(** The conversion of a byte-array chunk clears only the first sixteen
    bytes of the slot of a row it does not convert (a null row of a chunk
    that reports nulls).  For a 128-bit decimal that is the whole slot; for
    a 256-bit decimal the upper sixteen bytes of such a slot are never
    written and hold what the allocation returned. *)
Theorem ConvertToDecimal_ByteArray_null_rows `{RT : ArrowRuntime}
    (k : DecimalKind) (array : Array) (type : DataType) (pool : MemoryPool)
    (data0 : Buffer) :
  byte_width type = decimal_size k ->
  AllocateBuffer (ArrayData.length array * byte_width type) pool = Ok data0 ->
  (forall i, 0 <= i < ArrayData.length array ->
     record_len_in_range (byte_width type) array i) ->
  exists a data,
    ConvertToDecimal_ByteArray k array type pool = Ok a /\
    ArrayData.buffer a 1 = Some data /\
    forall i r, 0 <= i < ArrayData.length array ->
      is_converted array i = false ->
      0 <= r < decimal_size k ->
      buf_bytes data !! Z.to_nat (i * decimal_size k + r)
      = if r <? 16 then Some 0
        else buf_bytes data0 !! Z.to_nat (i * decimal_size k + r).
Proof.
  intros Hw Halloc Hlens. unfold ConvertToDecimal_ByteArray.
  rewrite Halloc. cbv beta iota zeta delta [mbind Result_bind].
  destruct (AllocateBuffer_Ok _ _ _ Halloc) as [Hsize Hlen].
  rewrite Hw in *.
  pose proof (decimal_size_cases k) as Hk.
  set (w := decimal_size k) in *.
  set (N := ArrayData.length array) in *.
  set (v := fun i : Z =>
              be_signed (take (Z.to_nat (snd (BinaryArray_GetValue array i)))
                           (fst (BinaryArray_GetValue array i)))).
  set (pure := fun (i : Z) (out : list byte) =>
                 let out := store_int_at 8 out (i * w) 0 in
                 let out := store_int_at 8 out (i * w + 8) 0 in
                 if is_converted array i
                 then write_bytes out (i * w) (ToBytes k (v i))
                 else out).
  rewrite (for_range_result_total N _ pure).
  2:{ intros i acc Hi. specialize (Hlens i Hi).
      unfold record_len_in_range in Hlens. unfold pure, v, is_converted.
      destruct (BinaryArray_GetValue array i) as [loc len]. cbn [fst snd] in *.
      destruct (Z.ltb_spec len 0); [lia|].
      destruct (Z.ltb_spec w len); [lia|]. cbn [orb].
      destruct (_ || _); [|reflexivity].
      unfold RawBytesToDecimalBytes.
      rewrite FromBigEndian_Ok by (fold w; lia). reflexivity. }
  do 2 eexists. split; [reflexivity|]. split; [reflexivity|].
  cbn [buf_bytes with_bytes].
  set (buf0 := buf_bytes data0) in *.
  assert (HN : 0 <= N) by nia.
  assert (Hinv :
    List.length (for_range N pure buf0) = List.length buf0 /\
    (forall j : nat, (Z.to_nat (N * w) <= j)%nat ->
       for_range N pure buf0 !! j = buf0 !! j) /\
    forall i r, 0 <= i < N -> is_converted array i = false -> 0 <= r < w ->
      for_range N pure buf0 !! Z.to_nat (i * w + r)
      = if r <? 16 then Some 0 else buf0 !! Z.to_nat (i * w + r)).
  { apply (for_range_invariant
             (fun n out =>
                List.length out = List.length buf0 /\
                (forall j : nat, (Z.to_nat (n * w) <= j)%nat ->
                   out !! j = buf0 !! j) /\
                forall i r, 0 <= i < n -> is_converted array i = false ->
                  0 <= r < w ->
                  out !! Z.to_nat (i * w + r)
                  = if r <? 16 then Some 0 else buf0 !! Z.to_nat (i * w + r))).
    - assumption.
    - split; [reflexivity|]. split; [reflexivity | intros; lia].
    - intros n acc Hn (Hl & Hrest & Hrows). unfold pure. cbv zeta.
      unfold store_int_at.
      assert (Hl8 : List.length (le_split 8 0) = 8%nat) by reflexivity.
      assert (Hnw : 0 <= n * w) by nia.
      assert (Hn1 : (n + 1) * w = n * w + w) by lia.
      assert (Hfit : n * w + w <= N * w) by nia.
      assert (Hlen' : List.length acc = Z.to_nat (N * w))
        by (rewrite Hl; exact Hlen).
      split; [|split].
      + destruct (is_converted array n); rewrite !length_write_bytes; exact Hl.
      + intros j Hj.
        assert (Hout : forall new, (List.length new <= Z.to_nat w)%nat ->
                  forall bs, write_bytes bs (n * w) new !! j = bs !! j).
        { intros new Hnew bs. apply lookup_write_bytes_outside. right. lia. }
        destruct (is_converted array n).
        * rewrite Hout by (rewrite length_ToBytes; fold w; lia).
          rewrite lookup_write_bytes_outside by (right; rewrite Hl8; lia).
          rewrite Hout by (rewrite Hl8; lia).
          apply Hrest. lia.
        * rewrite lookup_write_bytes_outside by (right; rewrite Hl8; lia).
          rewrite Hout by (rewrite Hl8; lia).
          apply Hrest. lia.
      + intros i r Hi Hc Hr.
        destruct (Z.eq_dec i n) as [->|Hne].
        * rewrite Hc.
          destruct (Z.ltb_spec r 16) as [Hr16|Hr16].
          -- destruct (Z.ltb_spec r 8) as [Hr8|Hr8].
             ++ rewrite lookup_write_bytes_outside by (left; lia).
                rewrite lookup_write_bytes_inside
                  by (rewrite ?Hl8, ?Hlen'; lia).
                replace (Z.to_nat (n * w + r) - Z.to_nat (n * w))%nat
                  with (Z.to_nat r) by lia.
                destruct (Z.to_nat r) as [|[|[|[|[|[|[|[|?]]]]]]]] eqn:E;
                  try reflexivity; lia.
             ++ rewrite lookup_write_bytes_inside
                  by (rewrite ?length_write_bytes, ?Hl8, ?Hlen'; lia).
                replace (Z.to_nat (n * w + r) - Z.to_nat (n * w + 8))%nat
                  with (Z.to_nat (r - 8)) by lia.
                destruct (Z.to_nat (r - 8)) as [|[|[|[|[|[|[|[|?]]]]]]]] eqn:E;
                  try reflexivity; lia.
          -- rewrite !lookup_write_bytes_outside by (right; rewrite Hl8; lia).
             apply Hrest. lia.
        * assert (Hold : acc !! Z.to_nat (i * w + r)
                         = if r <? 16 then Some 0
                           else buf0 !! Z.to_nat (i * w + r))
            by (apply Hrows; [lia | assumption | assumption]).
          assert (Hlt : i * w + r < n * w) by nia.
          assert (Hiw : 0 <= i * w) by nia.
          destruct (is_converted array n);
            rewrite !lookup_write_bytes_outside by (left; lia); exact Hold. }
  destruct Hinv as (_ & _ & Hrows). exact Hrows.
Qed.

Lemma ConvertToDecimal_ByteArray_null_rows_witness :
  exists a data,
    @ConvertToDecimal_ByteArray null_runtime Decimal256 sample_null_chunk
      (DECIMAL256 40 2) sample_pool = Ok a /\
    ArrayData.buffer a 1 = Some data /\
    buf_bytes data !! 0%nat = Some 0 /\
    buf_bytes data !! 15%nat = Some 0 /\
    buf_bytes data !! 16%nat = Some 186 /\
    buf_bytes data !! 31%nat = Some 201.
Proof.
  destruct (@ConvertToDecimal_ByteArray_null_rows null_runtime Decimal256
              sample_null_chunk (DECIMAL256 40 2) sample_pool
              (mkBuffer 1000 (map (fun k => 170 + Z.of_nat k) (seq 0 32)))
              eq_refl eq_refl)
    as (a & data & Ha & Hd & Hrows).
  - intros i Hi. unfold record_len_in_range. cbn. lia.
  - exists a, data. split; [exact Ha|]. split; [exact Hd|].
    repeat split.
    + exact (Hrows 0 0 ltac:(cbn; lia) eq_refl ltac:(cbn; lia)).
    + exact (Hrows 0 15 ltac:(cbn; lia) eq_refl ltac:(cbn; lia)).
    + exact (Hrows 0 16 ltac:(cbn; lia) eq_refl ltac:(cbn; lia)).
    + exact (Hrows 0 31 ltac:(cbn; lia) eq_refl ltac:(cbn; lia)).
Defined.

(** ** The dispatcher: what becomes of the reader, and the shape of the output *)

Lemma TransferInt_shape (A P : CType) (reader reader' : RecordReader.t)
    (metadata : option ColumnChunkMetaData.t) (ctx : ReaderContext.t)
    (field : Field.t) (d : Datum) :
  TransferInt A P reader metadata ctx field = Ok (d, reader') ->
  reader' = after_release_is_valid (Field.nullable field) reader /\
  array_of_shape (Field.type field) (RecordReader.values_written reader) d.
Proof.
  unfold TransferInt, array_of_shape, after_release_is_valid.
  destruct (AllocateBuffer _ _) as [data|]; cbn [mbind Result_bind];
    [|discriminate].
  destruct (Field.nullable field); cbn [RecordReader.ReleaseIsValid snd];
    intros H; injection H as <- <-; (split; [reflexivity|]);
    eexists; (split; [reflexivity|]); unfold MakeArray;
    split; apply AttachStatistics_frame.
Qed.

Lemma TransferBool_shape (reader reader' : RecordReader.t)
    (metadata : option ColumnChunkMetaData.t) (ctx : ReaderContext.t)
    (nullable : bool) (d : Datum) :
  TransferBool reader metadata ctx nullable = Ok (d, reader') ->
  reader' = after_release_is_valid nullable reader /\
  array_of_shape BOOL (RecordReader.values_written reader) d.
Proof.
  unfold TransferBool, array_of_shape, after_release_is_valid.
  destruct (AllocateBuffer _ _) as [data|]; cbn [mbind Result_bind];
    [|discriminate].
  destruct nullable; cbn [RecordReader.ReleaseIsValid snd];
    intros H; injection H as <- <-; (split; [reflexivity|]);
    eexists; (split; [reflexivity|]); unfold MakeArray;
    split; apply AttachStatistics_frame.
Qed.

Lemma TransferDate64_shape (reader reader' : RecordReader.t)
    (pool : MemoryPool) (field : Field.t) (d : Datum) :
  TransferDate64 reader pool field = Ok (d, reader') ->
  reader' = after_release_is_valid (Field.nullable field) reader /\
  array_of_shape (Field.type field) (RecordReader.values_written reader) d.
Proof.
  unfold TransferDate64, array_of_shape, after_release_is_valid.
  destruct (AllocateBuffer _ _) as [data|]; cbn [mbind Result_bind];
    [|discriminate].
  destruct (Field.nullable field); cbn [RecordReader.ReleaseIsValid snd];
    intros H; injection H as <- <-; (split; [reflexivity|]);
    eexists; repeat split.
Qed.

Lemma TransferInt96_shape `{RT : ArrowRuntime} (reader reader' : RecordReader.t)
    (pool : MemoryPool) (field : Field.t) (unit : TimeUnit.type) (d : Datum) :
  TransferInt96 reader pool field unit = Ok (d, reader') ->
  reader' = after_release_is_valid (Field.nullable field) reader /\
  array_of_shape (Field.type field) (RecordReader.values_written reader) d.
Proof.
  unfold TransferInt96, array_of_shape, after_release_is_valid.
  destruct (AllocateBuffer _ _) as [data|]; cbn [mbind Result_bind];
    [|discriminate].
  destruct (Field.nullable field); cbn [RecordReader.ReleaseIsValid snd];
    intros H; injection H as <- <-; (split; [reflexivity|]);
    eexists; repeat split.
Qed.

Lemma DecimalIntegerTransfer_shape `{RT : ArrowRuntime} (k : DecimalKind)
    (E : CType) (reader reader' : RecordReader.t) (pool : MemoryPool)
    (field : Field.t) (d : Datum) :
  DecimalIntegerTransfer k E reader pool field = Ok (d, reader') ->
  reader' = after_release_is_valid
              (RecordReader.nullable_values reader && Field.nullable field)
              reader /\
  array_of_shape (Field.type field) (RecordReader.values_written reader) d.
Proof.
  unfold DecimalIntegerTransfer, array_of_shape, after_release_is_valid.
  destruct (AllocateBuffer _ _) as [data|]; cbn [mbind Result_bind];
    [|discriminate].
  destruct (RecordReader.nullable_values reader && Field.nullable field);
    cbn [RecordReader.ReleaseIsValid snd];
    intros H; injection H as <- <-; (split; [reflexivity|]);
    eexists; repeat split.
Qed.

Lemma TransferZeroCopy_shape (A P : CType) (reader : RecordReader.t)
    (metadata : option ColumnChunkMetaData.t) (ctx : ReaderContext.t)
    (field : Field.t) :
  snd (TransferZeroCopy A P reader metadata ctx field)
  = reader_after (Field.nullable field) true reader /\
  array_of_shape (Field.type field) (RecordReader.values_written reader)
    (Datum_ARRAY (fst (TransferZeroCopy A P reader metadata ctx field))).
Proof.
  unfold TransferZeroCopy, array_of_shape, reader_after, after_release_is_valid.
  destruct (Field.nullable field);
    cbn [RecordReader.ReleaseIsValid RecordReader.ReleaseValues snd fst
         RecordReader.values_written];
    (split; [reflexivity|]); eexists; (split; [reflexivity|]);
    unfold MakeArray; split; apply AttachStatistics_frame.
Qed.

Lemma TransferDictionary_reader `{RT : ArrowRuntime}
    (reader reader' : RecordReader.t) (pool : MemoryPool)
    (logical_value_type : DataType) (nullable : bool) (out : ChunkedArray.t) :
  TransferDictionary reader pool logical_value_type nullable = Ok (out, reader') ->
  reader' = reader.
Proof.
  unfold TransferDictionary.
  destruct (RecordReader.dictionary_result reader) as [res|]; [|discriminate].
  destruct (if negb _ then _ else _) as [o|]; cbn [mbind Result_bind];
    [|discriminate].
  intros H. injection H as _ <-. reflexivity.
Qed.

Lemma TransferBinary_reader `{RT : ArrowRuntime}
    (reader reader' : RecordReader.t) (pool : MemoryPool) (field : Field.t)
    (out : ChunkedArray.t) :
  TransferBinary reader pool field = Ok (out, reader') -> reader' = reader.
Proof.
  unfold TransferBinary.
  destruct (RecordReader.read_dictionary reader).
  - apply TransferDictionary_reader.
  - destruct (RecordReader.builder_chunks reader) as [chunks|]; [|discriminate].
    destruct (for_each_chunk _ chunks) as [cs|];
      cbn [mbind Result_bind]; [|discriminate].
    intros H. injection H as _ <-. reflexivity.
Qed.

Lemma TransferDecimal_reader `{RT : ArrowRuntime} (k : DecimalKind)
    (p : BinaryParquetType) (reader reader' : RecordReader.t)
    (pool : MemoryPool) (field : Field.t) (d : Datum) :
  TransferDecimal k p reader pool field = Ok (d, reader') -> reader' = reader.
Proof.
  unfold TransferDecimal.
  destruct (RecordReader.builder_chunks reader) as [chunks|]; [|discriminate].
  destruct (for_each_chunk _ chunks) as [cs|];
    cbn [mbind Result_bind]; [|discriminate].
  intros H. injection H as _ <-. reflexivity.
Qed.

Lemma TransferHalfFloat_reader `{RT : ArrowRuntime}
    (reader reader' : RecordReader.t) (pool : MemoryPool) (field : Field.t)
    (d : Datum) :
  TransferHalfFloat reader pool field = Ok (d, reader') -> reader' = reader.
Proof.
  unfold TransferHalfFloat.
  destruct (TransferBinary reader pool _) as [[c r]|] eqn:Hb;
    cbn [mbind Result_bind]; [|discriminate].
  apply TransferBinary_reader in Hb. subst r.
  destruct (View c (Field.type field)); cbn [mbind Result_bind];
    [|discriminate].
  intros H. injection H as _ <-. reflexivity.
Qed.

Lemma finish_reader (r : Result (Datum * RecordReader.t))
    (out : option ChunkedArray.t) (reader' : RecordReader.t) :
  finish r = Ok (out, reader') -> exists d, r = Ok (d, reader').
Proof.
  destruct r as [[d r']|]; [|discriminate]. cbn.
  destruct d; intros H; injection H as _ <-; eexists; reflexivity.
Qed.

Lemma chunked_reader (r : Result (ChunkedArray.t * RecordReader.t))
    (d : Datum) (reader' : RecordReader.t) :
  chunked r = Ok (d, reader') -> exists c, r = Ok (c, reader').
Proof.
  destruct r as [[c r']|]; [|discriminate]. cbn.
  intros H; injection H as _ <-; eexists; reflexivity.
Qed.



(** Every target built from the reader's buffers, and every decimal backed
    by int32 or int64, comes out as a single chunk of the field's type with
    as many rows as the reader has written values. *)
Theorem TransferColumnData_single_chunk `{RT : ArrowRuntime}
    (reader reader' : RecordReader.t) (metadata : option ColumnChunkMetaData.t)
    (value_field : Field.t) (descr : ColumnDescriptor.t)
    (ctx : ReaderContext.t) (out : option ChunkedArray.t) :
  TransferColumnData reader metadata value_field descr ctx = Ok (out, reader') ->
  reader_backed (Field.type value_field)
  || is_decimal (Field.type value_field)
     && is_Some_b (integer_c_type (ColumnDescriptor.physical_type descr))
  = true ->
  exists array,
    out = Some (ChunkedArray.of_array array) /\
    ArrayData.type array = Field.type value_field /\
    ArrayData.length array = RecordReader.values_written reader /\
    ChunkedArray.type (ChunkedArray.of_array array) = Field.type value_field.
Proof.
  unfold TransferColumnData. intros H Hsel.
  assert (Hfin : forall r,
            (forall d r', r = Ok (d, r') ->
               array_of_shape (Field.type value_field)
                 (RecordReader.values_written reader) d) ->
            finish r = Ok (out, reader') ->
            exists array,
              out = Some (ChunkedArray.of_array array) /\
              ArrayData.type array = Field.type value_field /\
              ArrayData.length array = RecordReader.values_written reader /\
              ChunkedArray.type (ChunkedArray.of_array array)
              = Field.type value_field).
  { intros r Hr Hf. destruct r as [[d r']|]; [|discriminate].
    destruct (Hr d r' eq_refl) as (a & -> & Ht & Hl).
    cbn in Hf. injection Hf as <- _. exists a. unfold MakeArray. auto. }
  assert (Hzc : forall A P,
            forall d r',
              zero_copy (TransferZeroCopy A P reader metadata ctx value_field)
              = Ok (d, r') ->
              array_of_shape (Field.type value_field)
                (RecordReader.values_written reader) d).
  { intros A P d r' Hz. unfold zero_copy in Hz. injection Hz as <- _.
    apply TransferZeroCopy_shape. }
  assert (Hint : forall A P,
            forall d r',
              TransferInt A P reader metadata ctx value_field = Ok (d, r') ->
              array_of_shape (Field.type value_field)
                (RecordReader.values_written reader) d).
  { intros A P d r' Hi. apply TransferInt_shape in Hi. apply Hi. }
  assert (Hdint : forall k E,
            forall d r',
              DecimalIntegerTransfer k E reader (ReaderContext.pool ctx)
                value_field = Ok (d, r') ->
              array_of_shape (Field.type value_field)
                (RecordReader.values_written reader) d).
  { intros k E d r' Hi. apply DecimalIntegerTransfer_shape in Hi. apply Hi. }
  revert H.
  destruct (Field.type value_field) eqn:Hty; cbn in Hsel; try discriminate;
    apply Hfin; try apply Hzc; try apply Hint.
  - intros d r' Hb. apply TransferBool_shape in Hb. apply Hb.
  - intros d r' Hd. apply TransferDate64_shape in Hd. rewrite Hty in Hd.
    apply Hd.
  - destruct (ColumnDescriptor.physical_type descr), unit;
      try discriminate; try apply Hzc;
      intros d r' Hd; apply TransferInt96_shape in Hd; rewrite Hty in Hd;
      apply Hd.
  - destruct (ColumnDescriptor.physical_type descr); try discriminate;
      apply Hdint.
  - destruct (ColumnDescriptor.physical_type descr); try discriminate;
      apply Hdint.
Qed.

Lemma TransferColumnData_single_chunk_witness :
  exists array,
    Some (ChunkedArray.of_array
            (fst (TransferZeroCopy int32_t int32_t
                    (sample_reader 2 [57; 48; 0; 0; 255; 255; 255; 255] 1)
                    None sample_ctx (Field.mk INT32 true))))
    = Some (ChunkedArray.of_array array) /\
    ArrayData.type array = INT32 /\
    ArrayData.length array = 2 /\
    ChunkedArray.type (ChunkedArray.of_array array) = INT32.
Proof.
  exact (TransferColumnData_single_chunk
           (sample_reader 2 [57; 48; 0; 0; 255; 255; 255; 255] 1)
           _ None (Field.mk INT32 true)
           (ColumnDescriptor.mk ParquetType.INT32 LogicalType.NONE 0)
           sample_ctx _ eq_refl eq_refl).
Defined.

(** ** Chunked transfers *)

Lemma for_each_chunk_Forall2 (R : Array -> Array -> Prop)
    (body : Array -> Result Array) (chunks out : list Array) :
  (forall c a, body c = Ok a -> R c a) ->
  for_each_chunk body chunks = Ok out -> Forall2 R chunks out.
Proof.
  intros Hbody. revert out.
  induction chunks as [|c cs IH]; cbn [for_each_chunk]; intros out H.
  - injection H as <-. constructor.
  - destruct (body c) as [a|] eqn:Ha; cbn [mbind Result_bind] in H;
      [|discriminate].
    destruct (for_each_chunk body cs) as [rest|]; cbn [mbind Result_bind] in H;
      [|discriminate].
    injection H as <-. constructor; [apply Hbody, Ha | apply IH; reflexivity].
Qed.

Lemma ConvertToDecimal_frame `{RT : ArrowRuntime} (k : DecimalKind)
    (p : BinaryParquetType) (array : Array) (type : DataType)
    (pool : MemoryPool) (a : Array) :
  ConvertToDecimal k p array type pool = Ok a ->
  ArrayData.type a = type /\
  ArrayData.length a = ArrayData.length array /\
  ArrayData.null_count a = ArrayData.null_count array /\
  ArrayData.buffer a 0 = ArrayData.buffer array 0.
Proof.
  destruct p; cbn [ConvertToDecimal];
    unfold ConvertToDecimal_ByteArray, ConvertToDecimal_FLBA;
    (destruct (AllocateBuffer _ pool) as [data|]; cbn [mbind Result_bind];
     [|discriminate]).
  - destruct (for_range_result _ _ _) as [out|]; cbn [mbind Result_bind];
      [|discriminate].
    intros H. injection H as <-. repeat split.
  - destruct (if 0 <? ArrayData.null_count array then _ else _) as [out|];
      cbn [mbind Result_bind]; [|discriminate].
    intros H. injection H as <-. repeat split.
Qed.

Lemma ReconstructChunksWithoutNulls_shape (chunks : list Array) :
  Forall2
    (fun chunk out =>
       ArrayData.type out = ArrayData.type chunk /\
       ArrayData.length out = ArrayData.length chunk /\
       ArrayData.buffer out 0 = None)
    chunks (ReconstructChunksWithoutNulls chunks).
Proof.
  pose proof (ReconstructChunksWithoutNulls_chunks chunks) as H.
  unfold ReconstructChunksWithoutNulls in *.
  induction chunks as [|chunk chunks IH]; cbn [map] in *; constructor.
  - inversion H as [|? ? ? ? [Hb _] _]; subst.
    destruct (is_Some_b (ArrayData.buffer chunk 0)); repeat split; exact Hb.
  - apply IH. inversion H; assumption.
Qed.

(** A decimal transfer from byte arrays gives one output chunk per chunk
    of the reader's builder, in the same order, of the field's type and of
    the length of the chunk it was converted from.  For a nullable field
    each output chunk also keeps the null count and the validity buffer of
    its source; for a non-nullable field it has no validity buffer. *)
Theorem TransferDecimal_chunks `{RT : ArrowRuntime} (k : DecimalKind)
    (p : BinaryParquetType) (reader reader' : RecordReader.t)
    (pool : MemoryPool) (field : Field.t) (d : Datum) :
  TransferDecimal k p reader pool field = Ok (d, reader') ->
  exists chunks out,
    RecordReader.builder_chunks reader = Some chunks /\
    d = Datum_CHUNKED_ARRAY (ChunkedArray.mk out (Field.type field)) /\
    Forall2
      (fun chunk o =>
         ArrayData.type o = Field.type field /\
         ArrayData.length o = ArrayData.length chunk /\
         if Field.nullable field
         then ArrayData.null_count o = ArrayData.null_count chunk /\
              ArrayData.buffer o 0 = ArrayData.buffer chunk 0
         else ArrayData.buffer o 0 = None)
      chunks out.
Proof.
  unfold TransferDecimal.
  destruct (RecordReader.builder_chunks reader) as [chunks|]; [|discriminate].
  destruct (for_each_chunk _ chunks) as [cs|] eqn:Hcs;
    cbn [mbind Result_bind]; [|discriminate].
  intros H. injection H as <- _. exists chunks. eexists.
  split; [reflexivity|]. split; [reflexivity|].
  pose proof (for_each_chunk_Forall2
                (fun chunk o =>
                   ArrayData.type o = Field.type field /\
                   ArrayData.length o = ArrayData.length chunk /\
                   ArrayData.null_count o = ArrayData.null_count chunk /\
                   ArrayData.buffer o 0 = ArrayData.buffer chunk 0)
                _ _ _
                (fun c a => ConvertToDecimal_frame k p c (Field.type field) pool a)
                Hcs) as Hall.
  destruct (Field.nullable field); cbn [negb].
  - eapply Forall2_impl; [exact Hall|]. cbv beta. tauto.
  - pose proof (ReconstructChunksWithoutNulls_shape cs) as Hshape.
    clear Hcs. revert Hshape. generalize (ReconstructChunksWithoutNulls cs).
    induction Hall as [|c o cs' os (Ht & Hl & _) _ IH]; intros outs Hshape;
      inversion Hshape as [|? o' ? outs' (Ht' & Hl' & Hb') Hrest]; subst;
      constructor; [|apply IH; exact Hrest].
    repeat split; congruence.
Qed.

Lemma TransferDecimal_chunks_witness :
  exists chunks out,
    RecordReader.builder_chunks
      (sample_binary_reader [sample_binary_chunk [48; 57]]) = Some chunks /\
    match TransferDecimal Decimal128 ByteArrayType
            (sample_binary_reader [sample_binary_chunk [48; 57]]) sample_pool
            (Field.mk (DECIMAL128 5 2) true) with
    | Ok (d, _) => d
    | Err _ _ => Datum_NONE
    end
    = Datum_CHUNKED_ARRAY (ChunkedArray.mk out (DECIMAL128 5 2)) /\
    Forall2
      (fun chunk o =>
         ArrayData.type o = DECIMAL128 5 2 /\
         ArrayData.length o = ArrayData.length chunk /\
         ArrayData.null_count o = ArrayData.null_count chunk /\
         ArrayData.buffer o 0 = ArrayData.buffer chunk 0)
      chunks out.
Proof.
  exact (TransferDecimal_chunks Decimal128 ByteArrayType
           (sample_binary_reader [sample_binary_chunk [48; 57]])
           (sample_binary_reader [sample_binary_chunk [48; 57]])
           sample_pool (Field.mk (DECIMAL128 5 2) true) _ eq_refl).
Defined.

Lemma Equals_refl (a : DataType) : Equals a a = true.
Proof. unfold Equals. destruct (DataType_eq_dec a a); congruence. Qed.

(** A binary transfer that does not read a dictionary gives one output
    chunk per chunk of the reader's builder, in the same order.  A chunk
    that already has the field's type is passed on as it is and the cast is
    not consulted for it; any other chunk is the result of casting it to the
    field's type with invalid UTF-8 allowed.  For a non-nullable field the
    validity buffers are then dropped; the chunked array is declared with
    the field's type. *)
Theorem TransferBinary_chunks `{RT : ArrowRuntime}
    (reader reader' : RecordReader.t) (pool : MemoryPool) (field : Field.t)
    (out : ChunkedArray.t) :
  RecordReader.read_dictionary reader = false ->
  TransferBinary reader pool field = Ok (out, reader') ->
  exists chunks converted,
    RecordReader.builder_chunks reader = Some chunks /\
    Forall2
      (fun chunk o =>
         if Equals (ArrayData.type chunk) (Field.type field)
         then o = chunk
         else Cast chunk (Field.type field) true = Ok o)
      chunks converted /\
    out = ChunkedArray.mk
            (if Field.nullable field then converted
             else ReconstructChunksWithoutNulls converted)
            (Field.type field).
Proof.
  intros Hdict. unfold TransferBinary. rewrite Hdict.
  destruct (RecordReader.builder_chunks reader) as [chunks|]; [|discriminate].
  destruct (for_each_chunk _ chunks) as [cs|] eqn:Hcs;
    cbn [mbind Result_bind]; [|discriminate].
  intros H. injection H as <- _. exists chunks, cs.
  split; [reflexivity|]. split.
  - eapply for_each_chunk_Forall2; [|exact Hcs].
    intros c a. cbv beta.
    destruct (Equals (ArrayData.type c) (Field.type field)); cbn [negb];
      [intros [= <-]; reflexivity | auto].
  - destruct (Field.nullable field); reflexivity.
Qed.

Lemma TransferBinary_chunks_witness :
  exists chunks converted,
    RecordReader.builder_chunks
      (sample_binary_reader [sample_binary_chunk [48; 57]]) = Some chunks /\
    Forall2
      (fun chunk o =>
         if Equals (ArrayData.type chunk) STRING then o = chunk
         else Cast chunk STRING true = Ok o)
      chunks converted /\
    ChunkedArray.mk
      [ArrayData.Make STRING 1 [None; Some (mkBuffer 7 [48; 57])] 0] STRING
    = ChunkedArray.mk converted STRING.
Proof.
  exact (TransferBinary_chunks
           (sample_binary_reader [sample_binary_chunk [48; 57]])
           (sample_binary_reader [sample_binary_chunk [48; 57]])
           sample_pool (Field.mk STRING true)
           (ChunkedArray.mk
              [ArrayData.Make STRING 1 [None; Some (mkBuffer 7 [48; 57])] 0]
              STRING)
           eq_refl eq_refl).
Defined.



(** The combinations the dispatcher refuses before it touches the reader,
    whatever the reader, the statistics, the pool and the runtime: a
    half-float target whose column is not a fixed-length byte array, or is
    one of a length other than two, is Invalid; a decimal target whose
    column is boolean, 96-bit, float, double or undefined is Invalid; a
    timestamp target in seconds whose column is not 96-bit, and a target
    type outside the dispatcher's list, are NotImplemented. *)
Theorem TransferColumnData_rejects `{RT : ArrowRuntime}
    (reader : RecordReader.t) (metadata : option ColumnChunkMetaData.t)
    (value_field : Field.t) (descr : ColumnDescriptor.t)
    (ctx : ReaderContext.t) :
  let result := TransferColumnData reader metadata value_field descr ctx in
  let physical := ColumnDescriptor.physical_type descr in
  (Field.type value_field = HALF_FLOAT ->
   physical <> ParquetType.FIXED_LEN_BYTE_ARRAY
   \/ ColumnDescriptor.type_length descr <> 2 ->
   is_Err result Invalid) /\
  (is_decimal (Field.type value_field) = true ->
   is_Some_b (integer_c_type physical) || is_byte_array physical = false ->
   is_Err result Invalid) /\
  (Field.type value_field = TIMESTAMP TimeUnit.SECOND ->
   physical <> ParquetType.INT96 ->
   is_Err result NotImplemented) /\
  (forall name, Field.type value_field = OTHER name ->
   is_Err result NotImplemented).
Proof.
  cbv zeta. unfold TransferColumnData. repeat split.
  - intros -> [Hp|Hl].
    + destruct (ColumnDescriptor.physical_type descr);
        try (eexists; reflexivity). congruence.
    + destruct (ColumnDescriptor.physical_type descr);
        try (eexists; reflexivity).
      cbn [byte_width].
      destruct (Z.eqb_spec (ColumnDescriptor.type_length descr) 2);
        [congruence|]. eexists. reflexivity.
  - intros Hd Hp.
    destruct (Field.type value_field); try discriminate;
      destruct (ColumnDescriptor.physical_type descr); try discriminate;
      eexists; reflexivity.
  - intros -> Hp.
    destruct (ColumnDescriptor.physical_type descr);
      try (eexists; reflexivity). congruence.
  - intros name ->. eexists. reflexivity.
Qed.

Lemma TransferColumnData_rejects_witness :
  is_Err
    (TransferColumnData (sample_reader 0 [] 0) None
       (Field.mk HALF_FLOAT true)
       (ColumnDescriptor.mk ParquetType.FIXED_LEN_BYTE_ARRAY LogicalType.FLOAT16 4)
       sample_ctx)
    Invalid.
Proof.
  apply (proj1 (TransferColumnData_rejects (sample_reader 0 [] 0) None
                  (Field.mk HALF_FLOAT true)
                  (ColumnDescriptor.mk ParquetType.FIXED_LEN_BYTE_ARRAY
                     LogicalType.FLOAT16 4)
                  sample_ctx)).
  - reflexivity.
  - right. cbn. lia.
Defined.

(** ** Fresh buffers and attached statistics *)

Lemma AllocateBuffer_id (size : Z) (pool : MemoryPool) (b : Buffer) :
  AllocateBuffer size pool = Ok b -> buf_id b = pool_fresh_id pool.
Proof.
  unfold AllocateBuffer.
  destruct (size <? 0); [discriminate|].
  destruct (pool_capacity pool <? size); [discriminate|].
  intros H. injection H as <-. reflexivity.
Qed.

Lemma AttachStatistics_present (c : CType) (data : ArrayData.t)
    (md : ColumnChunkMetaData.t) (st : Statistics.t) (ctx : ReaderContext.t) :
  ColumnChunkMetaData.statistics md = Some st ->
  is_Some_b (ArrayData.statistics (AttachStatistics c data (Some md) ctx)) = true.
Proof.
  intros Hst. unfold AttachStatistics. rewrite Hst.
  cbn [is_Some_b negb]. rewrite andb_false_r. reflexivity.
Qed.

Lemma TransferInt_from_pool (A P : CType) (reader reader' : RecordReader.t)
    (metadata : option ColumnChunkMetaData.t) (ctx : ReaderContext.t)
    (field : Field.t) (d : Datum) :
  TransferInt A P reader metadata ctx field = Ok (d, reader') ->
  array_from_pool (ReaderContext.pool ctx) d /\
  forall md st, metadata = Some md ->
    ColumnChunkMetaData.statistics md = Some st ->
    array_with_statistics true d.
Proof.
  unfold TransferInt, array_from_pool, array_with_statistics.
  destruct (AllocateBuffer _ _) as [data|] eqn:Ha; cbn [mbind Result_bind];
    [|discriminate].
  apply AllocateBuffer_id in Ha.
  destruct (Field.nullable field); cbn [RecordReader.ReleaseIsValid];
    intros H; injection H as <- _; unfold MakeArray;
    (split;
     [do 2 eexists; (split; [reflexivity|]);
      rewrite AttachStatistics_buffer; split; [reflexivity | exact Ha]
     |intros md st -> Hst; eexists; (split; [reflexivity|]);
      eapply AttachStatistics_present; exact Hst]).
Qed.

Lemma TransferBool_from_pool (reader reader' : RecordReader.t)
    (metadata : option ColumnChunkMetaData.t) (ctx : ReaderContext.t)
    (nullable : bool) (d : Datum) :
  TransferBool reader metadata ctx nullable = Ok (d, reader') ->
  array_from_pool (ReaderContext.pool ctx) d /\
  forall md st, metadata = Some md ->
    ColumnChunkMetaData.statistics md = Some st ->
    array_with_statistics true d.
Proof.
  unfold TransferBool, array_from_pool, array_with_statistics.
  destruct (AllocateBuffer _ _) as [data|] eqn:Ha; cbn [mbind Result_bind];
    [|discriminate].
  apply AllocateBuffer_id in Ha.
  destruct nullable; cbn [RecordReader.ReleaseIsValid];
    intros H; injection H as <- _; unfold MakeArray;
    (split;
     [do 2 eexists; (split; [reflexivity|]);
      rewrite AttachStatistics_buffer; split; [reflexivity | exact Ha]
     |intros md st -> Hst; eexists; (split; [reflexivity|]);
      eapply AttachStatistics_present; exact Hst]).
Qed.

Lemma TransferDate64_from_pool (reader reader' : RecordReader.t)
    (pool : MemoryPool) (field : Field.t) (d : Datum) :
  TransferDate64 reader pool field = Ok (d, reader') ->
  array_from_pool pool d /\ array_with_statistics false d.
Proof.
  unfold TransferDate64, array_from_pool, array_with_statistics.
  destruct (AllocateBuffer _ _) as [data|] eqn:Ha; cbn [mbind Result_bind];
    [|discriminate].
  apply AllocateBuffer_id in Ha.
  destruct (Field.nullable field); cbn [RecordReader.ReleaseIsValid];
    intros H; injection H as <- _;
    (split; [do 2 eexists; (split; [reflexivity|]); split;
             [reflexivity | exact Ha]
            | eexists; split; reflexivity]).
Qed.

Lemma TransferInt96_from_pool `{RT : ArrowRuntime}
    (reader reader' : RecordReader.t) (pool : MemoryPool) (field : Field.t)
    (unit : TimeUnit.type) (d : Datum) :
  TransferInt96 reader pool field unit = Ok (d, reader') ->
  array_from_pool pool d /\ array_with_statistics false d.
Proof.
  unfold TransferInt96, array_from_pool, array_with_statistics.
  destruct (AllocateBuffer _ _) as [data|] eqn:Ha; cbn [mbind Result_bind];
    [|discriminate].
  apply AllocateBuffer_id in Ha.
  destruct (Field.nullable field); cbn [RecordReader.ReleaseIsValid];
    intros H; injection H as <- _;
    (split; [do 2 eexists; (split; [reflexivity|]); split;
             [reflexivity | exact Ha]
            | eexists; split; reflexivity]).
Qed.

Lemma DecimalIntegerTransfer_from_pool `{RT : ArrowRuntime} (k : DecimalKind)
    (E : CType) (reader reader' : RecordReader.t) (pool : MemoryPool)
    (field : Field.t) (d : Datum) :
  DecimalIntegerTransfer k E reader pool field = Ok (d, reader') ->
  array_from_pool pool d.
Proof.
  unfold DecimalIntegerTransfer, array_from_pool.
  destruct (AllocateBuffer _ _) as [data|] eqn:Ha; cbn [mbind Result_bind];
    [|discriminate].
  apply AllocateBuffer_id in Ha.
  destruct (RecordReader.nullable_values reader && Field.nullable field);
    cbn [RecordReader.ReleaseIsValid];
    intros H; injection H as <- _;
    do 2 eexists; (split; [reflexivity|]); (split; [reflexivity | exact Ha]).
Qed.

Lemma TransferZeroCopy_statistics (A P : CType) (reader : RecordReader.t)
    (md : ColumnChunkMetaData.t) (st : Statistics.t) (ctx : ReaderContext.t)
    (field : Field.t) :
  ColumnChunkMetaData.statistics md = Some st ->
  array_with_statistics true
    (Datum_ARRAY (fst (TransferZeroCopy A P reader (Some md) ctx field))).
Proof.
  intros Hst. unfold TransferZeroCopy, array_with_statistics.
  destruct (Field.nullable field);
    cbn [RecordReader.ReleaseIsValid RecordReader.ReleaseValues fst];
    eexists; (split; [reflexivity|]); unfold MakeArray;
    eapply AttachStatistics_present; exact Hst.
Qed.



(** When the chunk has statistics, every array built from the reader's
    buffers carries statistics, except the 64-bit dates and the timestamps
    stored as 96-bit values: those are built without any, whatever the
    chunk's metadata holds. *)
Theorem TransferColumnData_statistics_presence `{RT : ArrowRuntime}
    (reader reader' : RecordReader.t) (md : ColumnChunkMetaData.t)
    (st : Statistics.t) (value_field : Field.t) (descr : ColumnDescriptor.t)
    (ctx : ReaderContext.t) (out : option ChunkedArray.t) :
  TransferColumnData reader (Some md) value_field descr ctx = Ok (out, reader') ->
  ColumnChunkMetaData.statistics md = Some st ->
  reader_backed (Field.type value_field) = true ->
  exists array,
    out = Some (ChunkedArray.of_array array) /\
    is_Some_b (ArrayData.statistics array)
    = negb (copied_without_statistics (Field.type value_field)
              (ColumnDescriptor.physical_type descr)).
Proof.
  unfold TransferColumnData. intros H Hst Hsel.
  assert (Hfin : forall r present,
            (forall d r', r = Ok (d, r') -> array_with_statistics present d) ->
            finish r = Ok (out, reader') ->
            exists array,
              out = Some (ChunkedArray.of_array array) /\
              is_Some_b (ArrayData.statistics array) = present).
  { intros r present Hr Hf. destruct r as [[d r']|]; [|discriminate].
    destruct (Hr d r' eq_refl) as (a & -> & Hs).
    cbn in Hf. injection Hf as <- _. exists a. unfold MakeArray. auto. }
  assert (Hzc : forall A P d r',
            zero_copy (TransferZeroCopy A P reader (Some md) ctx value_field)
            = Ok (d, r') -> array_with_statistics true d).
  { intros A P d r' Hz. unfold zero_copy in Hz. injection Hz as <- _.
    eapply TransferZeroCopy_statistics. exact Hst. }
  assert (Hint : forall A P d r',
            TransferInt A P reader (Some md) ctx value_field = Ok (d, r') ->
            array_with_statistics true d).
  { intros A P d r' Hi.
    apply (proj2 (TransferInt_from_pool _ _ _ _ _ _ _ _ Hi) md st eq_refl Hst). }
  revert H.
  destruct (Field.type value_field) eqn:Hty; cbn in Hsel; try discriminate;
    cbn [copied_without_statistics negb];
    try (apply Hfin; apply Hzc); try (apply Hfin; apply Hint).
  - apply Hfin. intros d r' Hb.
    apply (proj2 (TransferBool_from_pool _ _ _ _ _ _ Hb) md st eq_refl Hst).
  - destruct (ColumnDescriptor.physical_type descr); cbn [negb];
      apply Hfin; intros d r' Hd;
      apply (TransferDate64_from_pool _ _ _ _ _ Hd).
  - destruct (ColumnDescriptor.physical_type descr), unit; cbn [negb];
      try discriminate; try (apply Hfin; apply Hzc);
      apply Hfin; intros d r' Hd;
      apply (TransferInt96_from_pool _ _ _ _ _ _ Hd).
Qed.

Lemma TransferColumnData_statistics_presence_witness :
  exists array,
    match TransferColumnData
            (sample_reader 1 (le_split 4 7) 0) (sample_metadata 7 7)
            (Field.mk DATE64 false)
            (ColumnDescriptor.mk ParquetType.INT32 LogicalType.DATE 0)
            sample_ctx with
    | Ok (out, _) => out
    | Err _ _ => None
    end = Some (ChunkedArray.of_array array) /\
    is_Some_b (ArrayData.statistics array) = false.
Proof.
  destruct (TransferColumnData_statistics_presence
              (sample_reader 1 (le_split 4 7) 0) _
              (ColumnChunkMetaData.mk
                 (Some (sample_int32_statistics LogicalType.NONE 7 7)))
              (sample_int32_statistics LogicalType.NONE 7 7)
              (Field.mk DATE64 false)
              (ColumnDescriptor.mk ParquetType.INT32 LogicalType.DATE 0)
              sample_ctx _ eq_refl eq_refl eq_refl)
    as (array & Hout & Hs).
  exists array. split; [exact Hout | exact Hs].
Defined.

(** ** Statistics and values of a decimal column read the bytes alike *)

(** The statistics decoder and the data path give the same meaning to the
    big-endian bytes of a decimal: for a byte string no longer than the
    decimal, the scalar the decoder builds from it holds the integer that
    the slot written by the conversion of the same bytes denotes.  So the
    min and max of a chunk can be compared with the values read from it. *)
Theorem decimal_statistics_agree_with_values (k : DecimalKind)
    (bs : list byte) (arrow_type : DataType) (out_buf : list byte) :
  Z.of_nat (List.length bs) <= decimal_size k ->
  decimal_size k <= Z.of_nat (List.length out_buf) ->
  exists scalar out,
    FromBigEndianString k bs arrow_type = Ok scalar /\
    RawBytesToDecimalBytes k bs (Z.of_nat (List.length bs)) out_buf 0 = Ok out /\
    Scalar.type scalar = arrow_type /\
    Scalar.value scalar
    = v_int (le_signed (read_bytes out 0 (Z.to_nat (decimal_size k)))).
Proof.
  intros Hlen Hbuf.
  rewrite (FromBigEndianString_fits k bs arrow_type Hlen).
  unfold RawBytesToDecimalBytes.
  rewrite FromBigEndian_Ok by lia. cbn [mbind Result_bind].
  rewrite Nat2Z.id, firstn_all.
  do 2 eexists. split; [reflexivity|]. split; [reflexivity|].
  split; [reflexivity|]. cbn [Scalar.value]. f_equal.
  pose proof (read_write_same out_buf 0 (ToBytes k (be_signed bs))) as Hsame.
  rewrite length_ToBytes in Hsame. rewrite Hsame by lia.
  symmetry. apply le_signed_ToBytes_be_signed. exact Hlen.
Qed.

Lemma decimal_statistics_agree_with_values_witness :
  exists scalar out,
    FromBigEndianString Decimal128 [255; 254] (DECIMAL128 10 2) = Ok scalar /\
    RawBytesToDecimalBytes Decimal128 [255; 254] 2 (replicate 16 7) 0 = Ok out /\
    Scalar.type scalar = DECIMAL128 10 2 /\
    Scalar.value scalar = v_int (le_signed (read_bytes out 0 16)).
Proof.
  apply (decimal_statistics_agree_with_values Decimal128 [255; 254]
           (DECIMAL128 10 2) (replicate 16 7)); cbn; lia.
Defined.
